(** * ZAgent: signed streaming client, turn state machine and tool dispatch

    A shallow embedding of the core of the ZAgent command-line agent
    ([zagent/core/client.py], [zagent/core/state.py], [zagent/core/auth.py],
    [zagent/tools/*.py], [zagent/cli.py]) together with the properties of
    its specification and further properties of the code.

    Conventions of the embedding:
    - Python [str] values handled by the state machine and the tools are
      Rocq [string]s; the signature code, which depends on the encoding of
      text, works on sequences of Unicode code points ([ustring]).
    - [bytes] are [list Byte.byte]; 32-bit words are [N] with the wrap-around
      written out.
    - Mutable objects are threaded explicitly; a raised exception is a value
      of [result], and the state reached when it is raised is kept. *)

From Stdlib Require Import ZArith NArith List String Ascii Lia.
From Stdlib Require Import DecimalString DecimalZ.
From Stdlib Require Strings.Byte.
From stdpp Require Import base gmap strings list.

Import ListNotations.
Local Open Scope N_scope.

(** ** [hashlib.sha256] and [hmac] (FIPS 180-4, RFC 2104)

    The standard library primitives used by [ZAIClient._generate_signature]. *)
Module Sha256.

Abbreviation byte := Byte.byte.
Definition bytes := list byte.

(** The byte with value [n mod 256]. *)
Definition byte_of_N (n : N) : byte :=
  match Byte.of_N (n mod 256) with
  | Some b => b
  | None => Byte.x00
  end.

Definition mask32 : N := 0xffffffff.
Definition add32 (x y : N) : N := (x + y) mod 2 ^ 32.
Definition not32 (x : N) : N := N.lxor x mask32.
Definition shl32 (x n : N) : N := N.shiftl x n mod 2 ^ 32.
Definition rotr (n x : N) : N := N.lor (N.shiftr x n) (shl32 x (32 - n)).

Definition Ch (x y z : N) : N := N.lxor (N.land x y) (N.land (not32 x) z).
Definition Maj (x y z : N) : N :=
  N.lxor (N.lxor (N.land x y) (N.land x z)) (N.land y z).
Definition Sigma0 (x : N) : N := N.lxor (N.lxor (rotr 2 x) (rotr 13 x)) (rotr 22 x).
Definition Sigma1 (x : N) : N := N.lxor (N.lxor (rotr 6 x) (rotr 11 x)) (rotr 25 x).
Definition sigma0 (x : N) : N := N.lxor (N.lxor (rotr 7 x) (rotr 18 x)) (N.shiftr x 3).
Definition sigma1 (x : N) : N := N.lxor (N.lxor (rotr 17 x) (rotr 19 x)) (N.shiftr x 10).

(** The constants of the standard are square and cube roots of the first
    primes: the first 32 bits of the fractional part. *)
Definition is_prime (n : nat) : bool :=
  forallb (fun d => negb (n mod d =? 0)%nat) (seq 2 (n - 2)).

Definition primes (count : nat) : list N :=
  map N.of_nat (firstn count (List.filter is_prime (seq 2 400))).

(** The largest [r] below [2 ^ bits] with [r ^ 3 <= n]. *)
Fixpoint cube_root (bits : nat) (n r : N) : N :=
  match bits with
  | O => r
  | S bits' =>
      let r' := r + 2 ^ N.of_nat bits' in
      cube_root bits' n (if r' ^ 3 <=? n then r' else r)
  end.

Definition K : list N :=
  Eval vm_compute in
    map (fun p => cube_root 36 (p * 2 ^ 96) 0 mod 2 ^ 32) (primes 64).

(** The eight 32-bit words of a hash value. *)
Record digest := Digest {
  h0 : N; h1 : N; h2 : N; h3 : N; h4 : N; h5 : N; h6 : N; h7 : N
}.

Definition root_word (p : N) : N := N.sqrt (p * 2 ^ 64) mod 2 ^ 32.

Definition initial : digest :=
  Eval vm_compute in
    match map root_word (primes 8) with
    | [a; b; c; d; e; f; g; h] => Digest a b c d e f g h
    | _ => Digest 0 0 0 0 0 0 0 0
    end.

(** Big-endian grouping of a block's bytes into 32-bit words. *)
Fixpoint words_of_bytes (bs : bytes) : list N :=
  match bs with
  | a :: b :: c :: d :: rest =>
      (Byte.to_N a * 2 ^ 24 + Byte.to_N b * 2 ^ 16 + Byte.to_N c * 2 ^ 8 + Byte.to_N d)
        :: words_of_bytes rest
  | _ => []
  end.

(** One round.  [win] holds the sixteen schedule words W(t) .. W(t+15);
    the round consumes W(t) and appends W(t+16). *)
Definition round (acc : digest * list N) (k : N) : digest * list N :=
  let '(Digest a b c d e f g h, win) := acc in
  let wt := nth 0 win 0 in
  let t1 := add32 (add32 (add32 (add32 h (Sigma1 e)) (Ch e f g)) k) wt in
  let t2 := add32 (Sigma0 a) (Maj a b c) in
  let wnext :=
    add32 (add32 (add32 (sigma1 (nth 14 win 0)) (nth 9 win 0))
                 (sigma0 (nth 1 win 0))) wt in
  (Digest (add32 t1 t2) a b c (add32 d t1) e f g, tl win ++ [wnext]).

Definition compress (hv : digest) (block : bytes) : digest :=
  let '(Digest a b c d e f g h, _) :=
    fold_left round K (hv, words_of_bytes block) in
  Digest (add32 (h0 hv) a) (add32 (h1 hv) b) (add32 (h2 hv) c) (add32 (h3 hv) d)
         (add32 (h4 hv) e) (add32 (h5 hv) f) (add32 (h6 hv) g) (add32 (h7 hv) h).

(** Feed bytes through a 64-byte buffer, compressing each full block. *)
Fixpoint absorb (hv : digest) (buf : bytes) (bs : bytes) : digest * bytes :=
  match bs with
  | [] => (hv, buf)
  | b :: rest =>
      let buf' := buf ++ [b] in
      if (length buf' =? 64)%nat then absorb (compress hv buf') [] rest
      else absorb hv buf' rest
  end.

(** [n] as [k] big-endian bytes. *)
Fixpoint be_bytes (k : nat) (n : N) : bytes :=
  match k with
  | O => []
  | S k' => byte_of_N (N.shiftr n (8 * N.of_nat k')) :: be_bytes k' n
  end.

Definition padding (len : nat) : bytes :=
  let zeros := N.to_nat ((55 + 64 - N.of_nat len mod 64) mod 64) in
  Byte.x80 :: repeat Byte.x00 zeros ++ be_bytes 8 (8 * N.of_nat len).

Definition sha256 (msg : bytes) : digest :=
  fst (absorb initial [] (msg ++ padding (length msg))).

(** [.digest()] *)
Definition digest_bytes (d : digest) : bytes :=
  be_bytes 4 (h0 d) ++ be_bytes 4 (h1 d) ++ be_bytes 4 (h2 d) ++ be_bytes 4 (h3 d)
  ++ be_bytes 4 (h4 d) ++ be_bytes 4 (h5 d) ++ be_bytes 4 (h6 d) ++ be_bytes 4 (h7 d).

Definition hex_digit (n : N) : ascii :=
  nth (N.to_nat (n mod 16)) (list_ascii_of_string "0123456789abcdef") "0"%char.

Fixpoint hex_digits (k : nat) (n : N) : list ascii :=
  match k with
  | O => []
  | S k' => hex_digit (N.shiftr n (4 * N.of_nat k')) :: hex_digits k' n
  end.

(** [.hexdigest()]: 64 lower-case hexadecimal characters. *)
Definition hexdigest (d : digest) : list ascii :=
  hex_digits 8 (h0 d) ++ hex_digits 8 (h1 d) ++ hex_digits 8 (h2 d) ++ hex_digits 8 (h3 d)
  ++ hex_digits 8 (h4 d) ++ hex_digits 8 (h5 d) ++ hex_digits 8 (h6 d) ++ hex_digits 8 (h7 d).

Definition xor_pad (pad : N) (key : bytes) : bytes :=
  map (fun b => byte_of_N (N.lxor (Byte.to_N b) pad)) key.

(** [hmac.new(key, msg, hashlib.sha256)] *)
Definition hmac (key msg : bytes) : digest :=
  let key' := if (64 <? length key)%nat then digest_bytes (sha256 key) else key in
  let block := key' ++ repeat Byte.x00 (64 - length key') in
  sha256 (xor_pad 0x5c block ++ digest_bytes (sha256 (xor_pad 0x36 block ++ msg))).

End Sha256.

(** ** Python text helpers *)

(** A Python [str] seen as its sequence of Unicode code points. *)
Definition ustring := list N.

Definition ustr (s : string) : ustring := map N_of_ascii (list_ascii_of_string s).

(** [str(n)] for an [int]. *)
Definition str_int (z : Z) : string := NilZero.string_of_int (Z.to_int z).

Definition bytes_of_string (s : string) : list Byte.byte :=
  map byte_of_ascii (list_ascii_of_string s).

Definition string_of_ustring (u : ustring) : string :=
  string_of_list_ascii (map ascii_of_N u).

(** ** Exceptions, results and JSON values *)

Inductive exn :=
| RuntimeError (msg : string)
| AttributeError
| TypeError
| ConnectionError
| HTTPError (status : Z).

Inductive result (A : Type) :=
| Ok (a : A)
| Raise (e : exn).
Arguments Ok {A} a.
Arguments Raise {A} e.

(** What [json.loads] returns.  Numbers are restricted to integers: a
    float is handled by the code modelled here as an integer is. *)
#[local] Set Warnings "-register-all".
Inductive json :=
| JNull
| JBool (b : bool)
| JNum (z : Z)
| JStr (s : string)
| JArr (items : list json)
| JObj (fields : list (string * json)).

(** Python truthiness, [bool(v)]. *)
Definition truthy (v : json) : bool :=
  match v with
  | JNull => false
  | JBool b => b
  | JNum z => negb (z =? 0)%Z
  | JStr s => negb (String.eqb s "")
  | JArr items => match items with [] => false | _ => true end
  | JObj fields => match fields with [] => false | _ => true end
  end.

(** [v == "text"] for a string literal. *)
Definition eq_str (v : json) (text : string) : bool :=
  match v with
  | JStr s => String.eqb s text
  | _ => false
  end.

(** [d.get(key)] on the fields of a [dict]. *)
Fixpoint dict_get (fields : list (string * json)) (key : string) : option json :=
  match fields with
  | [] => None
  | (k, v) :: rest => if String.eqb k key then Some v else dict_get rest key
  end.

(** [v.get(key, dflt)]: an [AttributeError] unless [v] is a [dict]. *)
Definition py_get (v : json) (key : string) (dflt : json) : result json :=
  match v with
  | JObj fields => Ok (default dflt (dict_get fields key))
  | _ => Raise AttributeError
  end.

(** [list(v)]: the items of a list, the characters of a string, the
    keys of a [dict]; a [TypeError] for a value that cannot be iterated. *)
Definition iterable (v : json) : bool :=
  match v with
  | JArr _ | JStr _ | JObj _ => true
  | JNull | JBool _ | JNum _ => false
  end.

Definition py_list (v : json) : result (list json) :=
  match v with
  | JArr items => Ok items
  | JStr s =>
      Ok (map (fun c => JStr (String c EmptyString)) (list_ascii_of_string s))
  | JObj fields => Ok (map (fun entry => JStr (fst entry)) fields)
  | JNull | JBool _ | JNum _ => Raise TypeError
  end.

(** Truthiness of a [str | None] value: [None] and the empty string are
    false. *)
Definition truthy_str (o : option string) : bool :=
  match o with
  | Some s => negb (String.eqb s "")
  | None => false
  end.

Definition nl : string := String (ascii_of_nat 10) EmptyString.

(** [s[n:]] *)
Fixpoint string_drop (n : nat) (s : string) : string :=
  match n, s with
  | S n', String _ rest => string_drop n' rest
  | _, _ => s
  end.

(** Exceptions the code raises beyond those of [exn], and what a call
    that may raise one of them gives. *)
Inductive error :=
| Python (e : exn)
| JSONDecodeError
| IndexError
| UnicodeEncodeError
| OSError (msg : string)
| ValueError (msg : string)
| EOFError
| KeyboardInterrupt.

Inductive outcome (A : Type) :=
| Returns (a : A)
| Raises (e : error).
Arguments Returns {A} a.
Arguments Raises {A} e.

(** [str(e)] for the exceptions that carry their message. *)
Definition message_of (e : error) : string :=
  match e with
  | ValueError msg | OSError msg | Python (RuntimeError msg) => msg
  | _ => ""
  end.

(** [str(v)]; [repr] gives the text of a list and of a dict. *)
Definition py_str (repr : json -> string) (v : json) : string :=
  match v with
  | JStr s => s
  | JNull => "None"
  | JBool true => "True"
  | JBool false => "False"
  | JNum z => str_int z
  | _ => repr v
  end.

(** The character [c] does not occur in [s]. *)
Fixpoint free_of (c : ascii) (s : string) : bool :=
  match s with
  | EmptyString => true
  | String x rest => negb (Ascii.eqb x c) && free_of c rest
  end.

(** [s.split(sep)] for a separator of one character. *)
Fixpoint split_char (sep : ascii) (s : string) : list string :=
  match s with
  | EmptyString => [EmptyString]
  | String c rest =>
      if Ascii.eqb c sep then EmptyString :: split_char sep rest
      else
        match split_char sep rest with
        | piece :: pieces => String c piece :: pieces
        | [] => [String c EmptyString]
        end
  end.

(** ** [zagent/core/state.py] *)
Module State.

(** The [features] mapping is a [dict] whose values are whatever the
    configuration holds: [_merge_features] copies the entries of
    [chat_config.json] into it unchecked. *)
Definition DEFAULT_FEATURES : list (string * json) :=
  [("preview_mode", JBool true);
   ("enable_thinking", JBool false);
   ("image_generation", JBool false);
   ("web_search", JBool false);
   ("auto_web_search", JBool false);
   ("flags", JArr [])].

(** [_uuid_factory] is a callable with hidden state: its [n]-th call
    returns [_uuid_factory n], and [_uuid_calls] counts the calls made. *)
Record ChatState := {
  model : string;
  chat_id : option string;
  user_name : string;
  user_language : string;
  user_timezone : string;
  system_prompt : option string;
  features : list (string * json);
  runtime_show_thinking : bool;
  runtime_thinking_color : string;
  current_user_message_id : option string;
  current_user_message_parent_id : option string;
  current_assistant_message_id : option string;
  current_assistant_content : string;
  _uuid_factory : nat -> string;
  _uuid_calls : nat
}.

(** [ChatState(...)] with the dataclass defaults and a given factory. *)
Definition new_state (uuid_factory : nat -> string) : ChatState := {|
  model := "GLM-4-6-API-V1";
  chat_id := None;
  user_name := "User";
  user_language := "en-US";
  user_timezone := "UTC";
  system_prompt := None;
  features := DEFAULT_FEATURES;
  runtime_show_thinking := true;
  runtime_thinking_color := "gray";
  current_user_message_id := None;
  current_user_message_parent_id := None;
  current_assistant_message_id := None;
  current_assistant_content := "";
  _uuid_factory := uuid_factory;
  _uuid_calls := 0
|}.

Definition set_chat_id (s : ChatState) (c : option string) : ChatState := {|
  model := model s; chat_id := c; user_name := user_name s;
  user_language := user_language s; user_timezone := user_timezone s;
  system_prompt := system_prompt s; features := features s;
  runtime_show_thinking := runtime_show_thinking s;
  runtime_thinking_color := runtime_thinking_color s;
  current_user_message_id := current_user_message_id s;
  current_user_message_parent_id := current_user_message_parent_id s;
  current_assistant_message_id := current_assistant_message_id s;
  current_assistant_content := current_assistant_content s;
  _uuid_factory := _uuid_factory s; _uuid_calls := _uuid_calls s
|}.

(** [ChatState(features=...)]: a state with the given features. *)
Definition set_features (s : ChatState) (f : list (string * json)) : ChatState := {|
  model := model s; chat_id := chat_id s; user_name := user_name s;
  user_language := user_language s; user_timezone := user_timezone s;
  system_prompt := system_prompt s; features := f;
  runtime_show_thinking := runtime_show_thinking s;
  runtime_thinking_color := runtime_thinking_color s;
  current_user_message_id := current_user_message_id s;
  current_user_message_parent_id := current_user_message_parent_id s;
  current_assistant_message_id := current_assistant_message_id s;
  current_assistant_content := current_assistant_content s;
  _uuid_factory := _uuid_factory s; _uuid_calls := _uuid_calls s
|}.

(** [ChatState(system_prompt=...)]: a state with the given system
    prompt. *)
Definition set_system_prompt (s : ChatState) (p : option string) : ChatState := {|
  model := model s; chat_id := chat_id s; user_name := user_name s;
  user_language := user_language s; user_timezone := user_timezone s;
  system_prompt := p; features := features s;
  runtime_show_thinking := runtime_show_thinking s;
  runtime_thinking_color := runtime_thinking_color s;
  current_user_message_id := current_user_message_id s;
  current_user_message_parent_id := current_user_message_parent_id s;
  current_assistant_message_id := current_assistant_message_id s;
  current_assistant_content := current_assistant_content s;
  _uuid_factory := _uuid_factory s; _uuid_calls := _uuid_calls s
|}.

Definition begin_turn (s : ChatState) (prompt : string)
    : (string * string) * ChatState :=
  let user_message_id := _uuid_factory s (_uuid_calls s) in
  let assistant_message_id := _uuid_factory s (S (_uuid_calls s)) in
  ((user_message_id, assistant_message_id),
   {| model := model s; chat_id := chat_id s; user_name := user_name s;
      user_language := user_language s; user_timezone := user_timezone s;
      system_prompt := system_prompt s; features := features s;
      runtime_show_thinking := runtime_show_thinking s;
      runtime_thinking_color := runtime_thinking_color s;
      current_user_message_id := Some user_message_id;
      current_user_message_parent_id := current_user_message_parent_id s;
      current_assistant_message_id := Some assistant_message_id;
      current_assistant_content := "";
      _uuid_factory := _uuid_factory s;
      _uuid_calls := S (S (_uuid_calls s)) |}).

Definition apply_assistant_delta (s : ChatState) (delta : string) : ChatState := {|
  model := model s; chat_id := chat_id s; user_name := user_name s;
  user_language := user_language s; user_timezone := user_timezone s;
  system_prompt := system_prompt s; features := features s;
  runtime_show_thinking := runtime_show_thinking s;
  runtime_thinking_color := runtime_thinking_color s;
  current_user_message_id := current_user_message_id s;
  current_user_message_parent_id := current_user_message_parent_id s;
  current_assistant_message_id := current_assistant_message_id s;
  current_assistant_content := current_assistant_content s +:+ delta;
  _uuid_factory := _uuid_factory s; _uuid_calls := _uuid_calls s
|}.

Definition finish_turn (s : ChatState) : ChatState := {|
  model := model s; chat_id := chat_id s; user_name := user_name s;
  user_language := user_language s; user_timezone := user_timezone s;
  system_prompt := system_prompt s; features := features s;
  runtime_show_thinking := runtime_show_thinking s;
  runtime_thinking_color := runtime_thinking_color s;
  current_user_message_id := current_user_message_id s;
  current_user_message_parent_id := current_assistant_message_id s;
  current_assistant_message_id := current_assistant_message_id s;
  current_assistant_content := current_assistant_content s;
  _uuid_factory := _uuid_factory s; _uuid_calls := _uuid_calls s
|}.

(** The state with the fields that [begin_turn] assigns replaced. *)
Definition set_turn (s : ChatState) (user assistant : option string)
    (content : string) (calls : nat) : ChatState := {|
  model := model s; chat_id := chat_id s; user_name := user_name s;
  user_language := user_language s; user_timezone := user_timezone s;
  system_prompt := system_prompt s; features := features s;
  runtime_show_thinking := runtime_show_thinking s;
  runtime_thinking_color := runtime_thinking_color s;
  current_user_message_id := user;
  current_user_message_parent_id := current_user_message_parent_id s;
  current_assistant_message_id := assistant;
  current_assistant_content := content;
  _uuid_factory := _uuid_factory s; _uuid_calls := calls
|}.

(** The state with its accumulated content and its parent link replaced:
    the two fields a turn in progress changes. *)
Definition set_progress (s : ChatState) (content : string)
    (parent : option string) : ChatState := {|
  model := model s; chat_id := chat_id s; user_name := user_name s;
  user_language := user_language s; user_timezone := user_timezone s;
  system_prompt := system_prompt s; features := features s;
  runtime_show_thinking := runtime_show_thinking s;
  runtime_thinking_color := runtime_thinking_color s;
  current_user_message_id := current_user_message_id s;
  current_user_message_parent_id := parent;
  current_assistant_message_id := current_assistant_message_id s;
  current_assistant_content := content;
  _uuid_factory := _uuid_factory s; _uuid_calls := _uuid_calls s
|}.

Definition _system_params (s : ChatState) : list (string * string) :=
  match system_prompt s with
  | Some p =>
      if truthy_str (Some p) then
        [("system", p); ("system_prompt", p); ("assistant_system_prompt", p)]
      else []
  | None => []
  end.

Definition _system_extra (s : ChatState) : list (string * string) :=
  match system_prompt s with
  | Some p =>
      if truthy_str (Some p) then
        [("system", p); ("system_prompt", p); ("assistant_system_prompt", p);
         ("instructions", p)]
      else []
  | None => []
  end.

(** [self.features.get(key, default)] *)
Definition _feature_value (s : ChatState) (key : string) (dflt : json) : json :=
  default dflt (dict_get (features s) key).

(** The [features] entry of a payload: five values of [bool(...)] and
    the value of [list(...)]. *)
Record FeatureSnapshot := {
  f_preview_mode : bool;
  f_enable_thinking : bool;
  f_image_generation : bool;
  f_web_search : bool;
  f_auto_web_search : bool;
  f_flags : list json
}.

(** The completion request body. *)
Record CompletionPayload := {
  p_stream : bool;
  p_model : string;
  p_messages : list (string * string);          (* (role, content) *)
  p_signature_prompt : string;
  p_params : list (string * string);
  p_extra : list (string * string);
  p_features : FeatureSnapshot;
  p_variables : list (string * string);
  p_chat_id : option string;
  p_id : option string;
  p_current_user_message_id : option string;
  p_current_user_message_parent_id : option string;
  p_title_generation : bool;
  p_tags_generation : bool
}.

(** [now] is [datetime.now().astimezone().strftime], read at call time.
    After the two guards the [features] entry is computed, and
    [list(...)] of the flags raises a [TypeError] unless they can be
    iterated. *)
Definition build_completion_payload (s : ChatState) (prompt : string)
    (now : string -> string) : result CompletionPayload :=
  if negb (truthy_str (chat_id s)) then
    Raise (RuntimeError "chat_id is required before completion")
  else if negb (truthy_str (current_user_message_id s))
          || negb (truthy_str (current_assistant_message_id s)) then
    Raise (RuntimeError "begin_turn must be called before build_completion_payload")
  else
  match py_list (_feature_value s "flags" (JArr [])) with
  | Raise e => Raise e
  | Ok flags =>
    let feats := {|
      f_preview_mode := truthy (_feature_value s "preview_mode" (JBool true));
      f_enable_thinking := truthy (_feature_value s "enable_thinking" (JBool false));
      f_image_generation := truthy (_feature_value s "image_generation" (JBool false));
      f_web_search := truthy (_feature_value s "web_search" (JBool false));
      f_auto_web_search := truthy (_feature_value s "auto_web_search" (JBool false));
      f_flags := flags
    |} in
    let variables :=
      [("{{USER_NAME}}", user_name s);
       ("{{USER_LOCATION}}", "Unknown");
       ("{{CURRENT_DATETIME}}", now "%Y-%m-%d %H:%M:%S");
       ("{{CURRENT_DATE}}", now "%Y-%m-%d");
       ("{{CURRENT_TIME}}", now "%H:%M:%S");
       ("{{CURRENT_WEEKDAY}}", now "%A");
       ("{{CURRENT_TIMEZONE}}", user_timezone s);
       ("{{USER_LANGUAGE}}", user_language s)]
      ++ match system_prompt s with
         | Some p => if truthy_str (Some p) then [("{{SYSTEM_PROMPT}}", p)] else []
         | None => []
         end in
    Ok {| p_stream := true;
          p_model := model s;
          p_messages := [("user", prompt)];
          p_signature_prompt := prompt;
          p_params := _system_params s;
          p_extra := _system_extra s;
          p_features := feats;
          p_variables := variables;
          p_chat_id := chat_id s;
          p_id := current_assistant_message_id s;
          p_current_user_message_id := current_user_message_id s;
          p_current_user_message_parent_id := current_user_message_parent_id s;
          p_title_generation := true;
          p_tags_generation := true |}
  end.

(** *** [build_new_chat_payload] *)

(** An entry of [history.messages]. *)
Record HistoryMessage := {
  h_id : string;
  h_parentId : option string;
  h_childrenIds : list string;
  h_role : string;
  h_content : string;
  h_timestamp : Z;
  h_models : list string
}.

(** The value under ["chat"] of the request body that creates a chat. *)
Record NewChatPayload := {
  n_id : string;
  n_title : string;
  n_models : list string;
  n_params : list (string * string);
  n_messages : list (string * HistoryMessage);      (* history.messages *)
  n_currentId : string;                             (* history.currentId *)
  n_tags : list string;
  n_flags : list json;
  n_features : list (string * string * string);     (* (type, server, status) *)
  n_mcp_servers : list string;
  n_enable_thinking : bool;
  n_auto_web_search : bool;
  n_message_version : Z;
  n_extra : list (string * string);
  n_timestamp : Z
}.

(** [_now_factory] is called twice: [now1] is the reading multiplied into
    [timestamp_ms], [now2] the later one stored in the message.  The
    entries of the literal are computed in order, and [list(...)] of the
    flags raises a [TypeError] unless they can be iterated. *)
Definition build_new_chat_payload (s : ChatState) (prompt : string)
    (now1 now2 : Z) : result NewChatPayload :=
  match current_user_message_id s with
  | Some user_id =>
      if String.eqb user_id "" then
        Raise (RuntimeError "begin_turn must be called before build_new_chat_payload")
      else
      match py_list (_feature_value s "flags" (JArr [])) with
      | Raise e => Raise e
      | Ok flags =>
        let timestamp_ms := (now1 * 1000)%Z in
        Ok {| n_id := "";
              n_title := "New Chat";
              n_models := [model s];
              n_params := _system_params s;
              n_messages :=
                [(user_id,
                  {| h_id := user_id;
                     h_parentId := None;
                     h_childrenIds := [];
                     h_role := "user";
                     h_content := prompt;
                     h_timestamp := now2;
                     h_models := [model s] |})];
              n_currentId := user_id;
              n_tags := [];
              n_flags := flags;
              n_features :=
                [("mcp", "vibe-coding", "hidden");
                 ("mcp", "ppt-maker", "hidden");
                 ("mcp", "image-search", "hidden");
                 ("mcp", "deep-research", "hidden");
                 ("tool_selector", "tool_selector", "hidden")];
              n_mcp_servers := [];
              n_enable_thinking :=
                truthy (_feature_value s "enable_thinking" (JBool false));
              n_auto_web_search :=
                truthy (_feature_value s "auto_web_search" (JBool false));
              n_message_version := 1;
              n_extra := _system_extra s;
              n_timestamp := timestamp_ms |}
      end
  | None =>
      Raise (RuntimeError "begin_turn must be called before build_new_chat_payload")
  end.

(** *** Where the identifiers of a state come from *)

(** The identifier, if there is one, was returned by one of the calls
    made to [_uuid_factory] so far. *)
Definition allocated (s : ChatState) (id : option string) : Prop :=
  match id with
  | Some i => exists k, (k < _uuid_calls s)%nat /\ i = _uuid_factory s k
  | None => True
  end.

Definition ids_allocated (s : ChatState) : Prop :=
  allocated s (current_user_message_id s)
  /\ allocated s (current_user_message_parent_id s)
  /\ allocated s (current_assistant_message_id s).

(** The factory never returns the same identifier twice. *)
Definition fresh_ids (s : ChatState) : Prop :=
  forall i j, _uuid_factory s i = _uuid_factory s j -> i = j.

End State.

(** ** Library functions taken as given *)

(** [json.loads] on a frame; [None] stands for a [json.JSONDecodeError]. *)
Class Externals := {
  json_loads : string -> option json
}.

(** ** [zagent/core/client.py]: the signature *)
Module Client.
Import Sha256.

Definition SECRET : string := "key-@@@@)))()((9))-xxxx&&&%%%%%".

(** [str.encode("utf-8")] on one code point; [None] is the
    [UnicodeEncodeError] raised for a lone surrogate.  Values from
    [0x110000] on are not code points of a Python [str]. *)
Definition utf8_encode_cp (c : N) : option bytes :=
  if c <? 0x80 then Some [byte_of_N c]
  else if c <? 0x800 then
    Some [byte_of_N (N.lor 0xC0 (N.shiftr c 6));
          byte_of_N (N.lor 0x80 (N.land c 0x3F))]
  else if c <? 0x10000 then
    if (0xD800 <=? c) && (c <=? 0xDFFF) then None
    else Some [byte_of_N (N.lor 0xE0 (N.shiftr c 12));
               byte_of_N (N.lor 0x80 (N.land (N.shiftr c 6) 0x3F));
               byte_of_N (N.lor 0x80 (N.land c 0x3F))]
  else if c <? 0x110000 then
    Some [byte_of_N (N.lor 0xF0 (N.shiftr c 18));
          byte_of_N (N.lor 0x80 (N.land (N.shiftr c 12) 0x3F));
          byte_of_N (N.lor 0x80 (N.land (N.shiftr c 6) 0x3F));
          byte_of_N (N.lor 0x80 (N.land c 0x3F))]
  else None.

Fixpoint utf8_encode (text : ustring) : option bytes :=
  match text with
  | [] => Some []
  | c :: rest =>
      match utf8_encode_cp c, utf8_encode rest with
      | Some bs, Some bs' => Some (bs ++ bs')
      | _, _ => None
      end
  end.

(** [bytes.decode("latin1")]: each byte is the code point of its value. *)
Definition latin1_decode (bs : bytes) : ustring := map Byte.to_N bs.

(** [str.encode("latin1")]: fails on a code point above 255. *)
Fixpoint latin1_encode (text : ustring) : option bytes :=
  match text with
  | [] => Some []
  | c :: rest =>
      match Byte.of_N c, latin1_encode rest with
      | Some b, Some bs => Some (b :: bs)
      | _, _ => None
      end
  end.

Definition b64_alphabet : list ascii :=
  list_ascii_of_string
    "ABCDEFGHIJKLMNOPQRSTUVWXYZabcdefghijklmnopqrstuvwxyz0123456789+/".

Definition b64_char (n : N) : byte :=
  byte_of_ascii (nth (N.to_nat (n mod 64)) b64_alphabet "A"%char).

Definition b64_pad : byte := byte_of_ascii "="%char.

(** [base64.b64encode] *)
Fixpoint b64encode (bs : bytes) : bytes :=
  match bs with
  | [] => []
  | [a] =>
      let n := Byte.to_N a * 2 ^ 16 in
      [b64_char (N.shiftr n 18); b64_char (N.shiftr n 12); b64_pad; b64_pad]
  | [a; b] =>
      let n := Byte.to_N a * 2 ^ 16 + Byte.to_N b * 2 ^ 8 in
      [b64_char (N.shiftr n 18); b64_char (N.shiftr n 12);
       b64_char (N.shiftr n 6); b64_pad]
  | a :: b :: c :: rest =>
      let n := Byte.to_N a * 2 ^ 16 + Byte.to_N b * 2 ^ 8 + Byte.to_N c in
      b64_char (N.shiftr n 18) :: b64_char (N.shiftr n 12)
        :: b64_char (N.shiftr n 6) :: b64_char n :: b64encode rest
  end.

(** [bytes.decode()] of ASCII output (base64 text, hexadecimal digests). *)
Definition ascii_decode (bs : bytes) : ustring := map Byte.to_N bs.

(** [ZAIClient._js_like_base64].  [None] stands for a raised
    [UnicodeEncodeError]. *)
Definition _js_like_base64 (text : ustring) : option ustring :=
  match utf8_encode text with
  | None => None
  | Some utf8_bytes =>
      let latin1_str := latin1_decode utf8_bytes in
      match latin1_encode latin1_str with
      | None => None
      | Some raw => Some (ascii_decode (b64encode raw))
      end
  end.

(** The encoding the specification calls naive: base64 of the UTF-8 bytes
    of the action string. *)
Definition naive_utf8_base64 (text : ustring) : option ustring :=
  match utf8_encode text with
  | None => None
  | Some utf8_bytes => Some (ascii_decode (b64encode utf8_bytes))
  end.

(** [hmac.new(key, msg, hashlib.sha256).hexdigest()] as a [str]. *)
Definition hmac_hex (key msg : bytes) : ustring :=
  map N_of_ascii (hexdigest (hmac key msg)).

(** [w = timestamp_ms // (5 * 60 * 1000)] *)
Definition window_index (timestamp_ms : Z) : Z :=
  (timestamp_ms / (5 * 60 * 1000))%Z.

(** [f"{sorted_payload}|{encoded_action}|{timestamp_ms}"] *)
Definition signed_string (sorted_payload encoded_action : ustring)
    (timestamp_ms : Z) : ustring :=
  sorted_payload ++ ustr "|" ++ encoded_action ++ ustr "|"
    ++ ustr (str_int timestamp_ms).

(** [ZAIClient._generate_signature] *)
Definition _generate_signature (sorted_payload action : ustring)
    (timestamp_ms : Z) : option ustring :=
  let w := window_index timestamp_ms in
  secret ← utf8_encode (ustr SECRET);
  wtext ← utf8_encode (ustr (str_int w));
  let d_hex := hmac_hex secret wtext in
  encoded ← _js_like_base64 action;
  let payload := signed_string sorted_payload encoded timestamp_ms in
  key ← utf8_encode d_hex;
  msg ← utf8_encode payload;
  Some (hmac_hex key msg).

(** The signature as the specification words it for a naive
    implementation: the same steps with [naive_utf8_base64] for the
    action. *)
Definition naive_signature (sorted_payload action : ustring)
    (timestamp_ms : Z) : option ustring :=
  let w := window_index timestamp_ms in
  secret ← utf8_encode (ustr SECRET);
  wtext ← utf8_encode (ustr (str_int w));
  let d_hex := hmac_hex secret wtext in
  encoded ← naive_utf8_base64 action;
  let payload := signed_string sorted_payload encoded timestamp_ms in
  key ← utf8_encode d_hex;
  msg ← utf8_encode payload;
  Some (hmac_hex key msg).

(** The window key [d_hex] of a timestamp. *)
Definition window_key (timestamp_ms : Z) : option ustring :=
  secret ← utf8_encode (ustr SECRET);
  wtext ← utf8_encode (ustr (str_int (window_index timestamp_ms)));
  Some (hmac_hex secret wtext).

(** The digits of a signature. *)
Definition hex_alphabet : list ascii := list_ascii_of_string "0123456789abcdef".

(** *** [stream_completion] *)

(** What the remote endpoint does with a completion request: the
    connection cannot be made ([session.post] raises), or a response with
    a status code arrives whose body delivers [lines]; [dropped] tells
    that the connection then breaks ([iter_lines] raises) instead of
    closing normally. *)
Inductive Response :=
| Unreachable
| Answer (status : Z) (lines : list string) (dropped : bool).

(** [resp.raise_for_status()] *)
Definition raise_for_status (status : Z) : result unit :=
  if ((400 <=? status) && (status <? 600))%Z then Raise (HTTPError status)
  else Ok tt.

(** The body of the [for raw_line in resp.iter_lines(...)] loop: the
    event yielded for a line, if any. *)
Definition decode_line {ext : Externals} (raw_line : string) : option json :=
  if String.eqb raw_line "" then None
  else
    let content :=
      if String.prefix "data: " raw_line
      then string_drop 6 raw_line
      else raw_line in
    if String.eqb content "" || String.eqb content "[DONE]" then None
    else json_loads content.

(** [ZAIClient.stream_completion]: the events the generator yields, or the
    exception with which its first step raises.  A connection that breaks
    during the iteration is caught by [except Exception: pass] and ends
    the sequence like a normal close. *)
Definition stream_completion {ext : Externals} (resp : Response) : result (list json) :=
  match resp with
  | Unreachable => Raise ConnectionError
  | Answer status lines dropped =>
      match raise_for_status status with
      | Raise e => Raise e
      | Ok _ =>
          let events := omap decode_line lines in
          match dropped with
          | true => Ok events        (* [except Exception: pass] *)
          | false => Ok events       (* the iteration is exhausted *)
          end
      end
  end.

(** *** What can be signed *)

(** The code point has a UTF-8 encoding: it is below [0x110000] and is
    not a surrogate. *)
Definition encodable (c : N) : bool :=
  (c <? 0xD800) || ((0xDFFF <? c) && (c <? 0x110000)).

(** *** [create_chat] and [latest_chat_id] *)

(** What the endpoint does with a request that is not streamed: the
    connection cannot be made, or a response arrives with a status code
    and a body; [body] is [None] when the body is not JSON. *)
Inductive Reply :=
| NoReply
| Replied (status : Z) (body : option json).

(** [r = self.session.post(...)] (or [get]), [r.raise_for_status()],
    [data = r.json()]. *)
Definition read_json (reply : Reply) : outcome json :=
  match reply with
  | NoReply => Raises (Python ConnectionError)
  | Replied status body =>
      match raise_for_status status with
      | Raise e => Raises (Python e)
      | Ok _ =>
          match body with
          | Some data => Returns data
          | None => Raises JSONDecodeError
          end
      end
  end.

Definition create_chat (reply : Reply) : outcome json :=
  match read_json reply with
  | Raises e => Raises e
  | Returns data =>
      match py_get data "id" JNull with
      | Raise e => Raises (Python e)
      | Ok chat_id =>
          if negb (truthy chat_id) then
            Raises (Python (RuntimeError "create_chat response missing id"))
          else Returns chat_id
      end
  end.

Definition latest_chat_id (reply : Reply) : outcome (option string) :=
  match read_json reply with
  | Raises e => Raises e
  | Returns (JArr (first :: _)) =>
      match py_get first "id" JNull with
      | Raise e => Raises (Python e)
      | Ok (JStr chat_id) =>
          if String.eqb chat_id "" then Returns None else Returns (Some chat_id)
      | Ok _ => Returns None
      end
  | Returns _ => Returns None
  end.

(** *** The request side of [stream_completion] *)

(** [json.loads(base64.urlsafe_b64decode(text).decode())]; [None] when
    one of the three steps raises. *)
Class TokenCodec := {
  decode_json : string -> option json
}.

(** ["=" * (-len(payload) % 4)] *)
Definition token_padding (payload : string) : string :=
  string_of_list_ascii
    (repeat "="%char (Z.to_nat ((- Z.of_nat (String.length payload)) mod 4))).

(** [_extract_user_id_from_token]: every exception gives [""]. *)
Definition _extract_user_id_from_token {codec : TokenCodec} (token : string)
    : json :=
  match nth_error (split_char "." token) 1 with
  | None => JStr ""                                   (* IndexError *)
  | Some payload =>
      match decode_json (payload +:+ token_padding payload) with
      | None => JStr ""
      | Some decoded =>
          match py_get decoded "id" (JStr "") with
          | Ok user_id => user_id
          | Raise _ => JStr ""                        (* AttributeError *)
          end
      end
  end.

(** [str(payload.get("signature_prompt") or
         payload.get("messages", [{}])[0].get("content", ""))] *)
Definition signature_content (payload : State.CompletionPayload)
    : outcome string :=
  if negb (String.eqb (State.p_signature_prompt payload) "") then
    Returns (State.p_signature_prompt payload)
  else
    match State.p_messages payload with
    | (_, content) :: _ => Returns content
    | [] => Raises IndexError
    end.

(** [f"requestId,{request_id},timestamp,{ts},user_id,{user_id}"] *)
Definition sorted_payload_text (request_id : string) (ts : Z) (user_id : string)
    : string :=
  "requestId," +:+ request_id +:+ ",timestamp," +:+ str_int ts
  +:+ ",user_id," +:+ user_id.

(** The [x-signature] header of a completion request sent at [ts] with
    the request identifier [request_id]. *)
Definition x_signature {codec : TokenCodec} (repr : json -> string)
    (token request_id : string) (ts : Z) (payload : State.CompletionPayload)
    : outcome ustring :=
  let user_id := _extract_user_id_from_token token in
  match signature_content payload with
  | Raises e => Raises e
  | Returns content =>
      match _generate_signature
              (ustr (sorted_payload_text request_id ts (py_str repr user_id)))
              (ustr content) ts with
      | Some signature => Returns signature
      | None => Raises UnicodeEncodeError
      end
  end.

End Client.

(** ** [zagent/tools]: the capability contract, the registry and two tools *)
Module Tools.

(** *** Text helpers of the tools *)

(** [str.isspace] on a character (code points below 256). *)
Definition is_space (c : ascii) : bool :=
  let n := nat_of_ascii c in
  ((9 <=? n) && (n <=? 13) || (28 <=? n) && (n <=? 32)
   || (n =? 133) || (n =? 160))%nat.

Fixpoint lstrip (s : string) : string :=
  match s with
  | String c rest => if is_space c then lstrip rest else s
  | EmptyString => EmptyString
  end.

Fixpoint rstrip (s : string) : string :=
  match s with
  | String c rest =>
      match rstrip rest with
      | EmptyString => if is_space c then EmptyString else String c EmptyString
      | kept => String c kept
      end
  | EmptyString => EmptyString
  end.

(** [str.strip()] *)
Definition strip (s : string) : string := rstrip (lstrip s).

(** The text does not begin with white space. *)
Definition starts_clean (s : string) : Prop :=
  match s with
  | String c _ => is_space c = false
  | EmptyString => True
  end.

(** Leftmost occurrence of [pat] in [s]: the text before it and the text
    after it. *)
Fixpoint split_at (pat s : string) : option (string * string) :=
  if String.prefix pat s then
    Some (EmptyString, string_drop (String.length pat) s)
  else
    match s with
    | EmptyString => None
    | String c rest =>
        match split_at pat rest with
        | Some (before, after) => Some (String c before, after)
        | None => None
        end
    end.

(** [sep.join(lines)] *)
Fixpoint join (sep : string) (lines : list string) : string :=
  match lines with
  | [] => ""
  | [l] => l
  | l :: rest => l +:+ sep +:+ join sep rest
  end.

(** A quotation mark, single or double: the character class of the
    patterns of the report tool and of the file-writing tool. *)
Definition is_quote (c : ascii) : bool :=
  Ascii.eqb c (ascii_of_nat 34) || Ascii.eqb c "'".

(** The leftmost place in [s] where a quotation mark is followed by
    [>]: the text before the mark and the text after the [>]. *)
Fixpoint split_quote_gt (s : string) : option (string * string) :=
  match s with
  | EmptyString => None
  | String q tail =>
      match tail with
      | String g rest =>
          if is_quote q && Ascii.eqb g ">" then Some (EmptyString, rest)
          else
            match split_quote_gt tail with
            | Some (before, after) => Some (String q before, after)
            | None => None
            end
      | EmptyString => None
      end
  end.

(** A match of the pattern [<tag\s+attr=Q(.*?)Q>(.*?)</tag>], where [Q]
    is a quotation mark of either kind and [.] matches every character
    ([re.DOTALL]), that starts at the first character of [s]: its two
    groups.  The run of white space is taken whole, since the attribute
    name follows it; the first group ends at the first quotation mark
    followed by [>], the second at the first closing tag after that. *)
Definition match_attr_tag (tag attr s : string) : option (string * string) :=
  if String.prefix ("<" +:+ tag) s then
    let after_name := string_drop (String.length ("<" +:+ tag)) s in
    let after_space := lstrip after_name in
    if (String.length after_space =? String.length after_name)%nat then None
    else if String.prefix (attr +:+ "=") after_space then
      match string_drop (String.length (attr +:+ "=")) after_space with
      | String q after_quote =>
          if is_quote q then
            match split_quote_gt after_quote with
            | Some (group1, after_gt) =>
                match split_at ("</" +:+ tag +:+ ">") after_gt with
                | Some (group2, _) => Some (group1, group2)
                | None => None
                end
            | None => None
            end
          else None
      | EmptyString => None
      end
    else None
  else None.

(** [re.search] of that pattern: the leftmost start with a match. *)
Fixpoint search_attr_tag (tag attr s : string) : option (string * string) :=
  match match_attr_tag tag attr s with
  | Some groups => Some groups
  | None =>
      match s with
      | String _ rest => search_attr_tag tag attr rest
      | EmptyString => None
      end
  end.

(** *** [base.py] *)

(** The abstract methods of [BaseTool].  [Env] is the part of the outside
    world a tool acts on; [context] is the optional context dictionary. *)
Record BaseTool (Env : Type) := {
  name : string;
  description : string;
  can_handle : string -> bool;
  extract_request : string -> option string;
  execute : string -> option json -> Env -> string * Env
}.
Arguments name {Env} _.
Arguments description {Env} _.
Arguments can_handle {Env} _ _.
Arguments extract_request {Env} _ _.
Arguments execute {Env} _ _ _ _.

Record ToolResult := {
  tool_name : string;
  request : string;
  success : bool;
  output : string;
  error : string;
  metadata : list (string * string)
}.

(** [ToolResult.format] *)
Definition format (r : ToolResult) : string :=
  let lines := ["TOOL_RESULT " +:+ tool_name r] in
  let lines := lines ++ ["request: " +:+ request r] in
  let lines := lines ++ ["success: " +:+ (if success r then "yes" else "no")] in
  let lines :=
    if negb (String.eqb (output r) "")
    then lines ++ ["output:" +:+ nl +:+ output r] else lines in
  let lines :=
    if negb (String.eqb (error r) "")
    then lines ++ ["error:" +:+ nl +:+ error r] else lines in
  let lines := lines ++ map (fun '(key, value) => key +:+ ": " +:+ value) (metadata r) in
  join nl lines.

(** *** [__init__.py]: [ToolRegistry] *)

(** [d[key] = value] on an insertion-ordered [dict]: an existing key keeps
    its position, a new key goes last. *)
Fixpoint dict_set {V} (d : list (string * V)) (key : string) (value : V)
    : list (string * V) :=
  match d with
  | [] => [(key, value)]
  | (k, v) :: rest =>
      if String.eqb k key then (k, value) :: rest
      else (k, v) :: dict_set rest key value
  end.

Fixpoint dict_lookup {V} (d : list (string * V)) (key : string) : option V :=
  match d with
  | [] => None
  | (k, v) :: rest => if String.eqb k key then Some v else dict_lookup rest key
  end.

Record ToolRegistry (Env : Type) := {
  _tools : list (string * BaseTool Env);
  _enabled_tools : gset string
}.
Arguments _tools {Env} _.
Arguments _enabled_tools {Env} _.

Section Registry.
Context {Env : Type}.

Definition empty_registry : ToolRegistry Env :=
  {| _tools := []; _enabled_tools := ∅ |}.

Definition register (reg : ToolRegistry Env) (tool : BaseTool Env)
    (enabled : bool) : ToolRegistry Env :=
  {| _tools := dict_set (_tools reg) (name tool) tool;
     _enabled_tools :=
       if enabled then {[ name tool ]} ∪ _enabled_tools reg
       else _enabled_tools reg |}.

Definition enable (reg : ToolRegistry Env) (tool_name : string)
    : ToolRegistry Env :=
  match dict_lookup (_tools reg) tool_name with
  | Some _ =>
      {| _tools := _tools reg;
         _enabled_tools := {[ tool_name ]} ∪ _enabled_tools reg |}
  | None => reg
  end.

Definition disable (reg : ToolRegistry Env) (tool_name : string)
    : ToolRegistry Env :=
  {| _tools := _tools reg;
     _enabled_tools := _enabled_tools reg ∖ {[ tool_name ]} |}.

Definition get_tool (reg : ToolRegistry Env) (tool_name : string)
    : option (BaseTool Env) :=
  dict_lookup (_tools reg) tool_name.

Definition get_enabled_tools (reg : ToolRegistry Env) : list (BaseTool Env) :=
  map snd
    (List.filter (fun entry => bool_decide (fst entry ∈ _enabled_tools reg))
                 (_tools reg)).

(** The [for tool in ...: if tool.can_handle(message): return tool] loop. *)
Fixpoint first_handler (tools : list (BaseTool Env)) (message : string)
    : option (BaseTool Env) :=
  match tools with
  | [] => None
  | tool :: rest =>
      if can_handle tool message then Some tool
      else first_handler rest message
  end.

Definition find_tool_for_message (reg : ToolRegistry Env) (message : string)
    : option (BaseTool Env) :=
  first_handler (get_enabled_tools reg) message.

Definition execute_if_applicable (reg : ToolRegistry Env) (message : string)
    (context : option json) (env : Env) : (bool * option string) * Env :=
  match find_tool_for_message reg message with
  | None => ((false, None), env)
  | Some tool =>
      let request := extract_request tool message in
      if negb (truthy_str request) then ((false, None), env)
      else
        let '(result, env') := execute tool (default "" request) context env in
        ((true, Some result), env')
  end.

(** The names under which tools are registered, in order. *)
Definition keys (reg : ToolRegistry Env) : list string := map fst (_tools reg).

(** Only registered names are enabled. *)
Definition enabled_registered (reg : ToolRegistry Env) : Prop :=
  forall n, n ∈ _enabled_tools reg -> In n (keys reg).

(** Every tool is registered under its own name. *)
Definition keyed_by_name (reg : ToolRegistry Env) : Prop :=
  Forall (fun entry => fst entry = name (snd entry)) (_tools reg).

(** What the methods of the registry maintain: only registered names are
    enabled, no name is registered twice, and every tool is registered
    under its own name. *)
Definition consistent (reg : ToolRegistry Env) : Prop :=
  enabled_registered reg /\ List.NoDup (keys reg) /\ keyed_by_name reg.

(** The registration loop of [auto_discover]: every tool found is
    registered, enabled, in the order in which it is found. *)
Definition register_all (reg : ToolRegistry Env) (tools : list (BaseTool Env))
    : ToolRegistry Env :=
  fold_left (fun r tool => register r tool true) tools reg.

End Registry.

(** *** [echo_tool.py] *)
Module EchoTool.

(** [re.search(r"<echo>(.*?)</echo>", message, re.DOTALL)]: the group
    is the text between the leftmost opening tag and the first closing
    tag after it. *)
Definition search (message : string) : option string :=
  match split_at "<echo>" message with
  | Some (_, after_open) =>
      match split_at "</echo>" after_open with
      | Some (group1, _) => Some group1
      | None => None
      end
  | None => None
  end.

Definition can_handle (message : string) : bool :=
  match search message with Some _ => true | None => false end.

Definition extract_request (message : string) : option string :=
  match search message with
  | Some group1 => Some (strip group1)
  | None => None
  end.

Definition execute {Env} (request : string) (context : option json) (env : Env)
    : string * Env :=
  (format {| tool_name := "echo"; request := request; success := true;
             output := "ECHO: " +:+ request; error := ""; metadata := [] |},
   env).

Definition tool {Env} : BaseTool Env := {|
  name := "echo";
  description := "Echo text back for testing";
  Tools.can_handle := can_handle;
  Tools.extract_request := extract_request;
  Tools.execute := execute
|}.

End EchoTool.

(** *** [report_tool.py] *)
Module ReportTool.

Definition REPORT_FILE : string := "report.md".

(** The world of the tool: the contents of [report.md] ([None] while
    the file does not exist) and what the tool printed. *)
Record Env := {
  report_file : option string;
  printed : list string
}.

(** [\d] on a character (code points below 256). *)
Definition is_digit (c : ascii) : bool :=
  ((48 <=? nat_of_ascii c) && (nat_of_ascii c <=? 57))%nat.

(** The longest run of digits at the start of [s]: what a greedy [\d+]
    takes there. *)
Fixpoint digits_prefix (s : string) : string :=
  match s with
  | String c rest => if is_digit c then String c (digits_prefix rest) else ""
  | EmptyString => ""
  end.

(** [re.findall(r"### ID: (\d+)", content)]: the scan goes left to
    right and resumes after each match; [skip] counts the characters
    of the last match still to be passed over. *)
Fixpoint findall_from (skip : nat) (content : string) : list string :=
  match content with
  | EmptyString => []
  | String _ rest =>
      match skip with
      | S k => findall_from k rest
      | O =>
          if String.prefix "### ID: " content then
            let group1 := digits_prefix (string_drop 8 content) in
            if String.eqb group1 "" then findall_from 0 rest
            else group1 :: findall_from (7 + String.length group1) rest
          else findall_from 0 rest
      end
  end.

Definition findall (content : string) : list string := findall_from 0 content.

(** The number a string of digits denotes. *)
Definition digits_value (digits : string) : N :=
  fold_left (fun acc c => 10 * acc + N.of_nat (nat_of_ascii c - 48))
            (list_ascii_of_string digits) 0.

(** [sys.int_max_str_digits] at its default, which the program does not
    change: a conversion between an [int] and a decimal text of more
    digits raises a [ValueError]. *)
Definition MAX_STR_DIGITS : N := 4300.

Definition too_long (digits : string) : bool :=
  MAX_STR_DIGITS <? N.of_nat (String.length digits).

Definition int_limit_message (digits : nat) : string :=
  "Exceeds the limit (4300 digits) for integer string conversion: value has "
  +:+ str_int (Z.of_nat digits)
  +:+ " digits; use sys.set_int_max_str_digits() to increase the limit".

Definition format_limit_message : string :=
  "Exceeds the limit (4300 digits) for integer string conversion; "
  +:+ "use sys.set_int_max_str_digits() to increase the limit".

(** [int(i)] on a string of digits; zeros at the front count as digits. *)
Definition int (digits : string) : outcome N :=
  if too_long digits
  then Raises (ValueError (int_limit_message (String.length digits)))
  else Returns (digits_value digits).

(** [int(i) for i in ids], consumed in order: the first text that is
    too long ends it. *)
Fixpoint ints (ids : list string) : outcome (list N) :=
  match ids with
  | [] => Returns []
  | i :: rest =>
      match int i with
      | Raises e => Raises e
      | Returns value =>
          match ints rest with
          | Raises e => Raises e
          | Returns values => Returns (value :: values)
          end
      end
  end.

(** [max(...)] over a non-empty sequence of naturals. *)
Definition max_of (values : list N) : N := fold_right N.max 0 values.

(** The decimal text of [n], padded with zeros to three digits. *)
Definition padded (n : N) : string :=
  let digits := str_int (Z.of_N n) in
  string_of_list_ascii (repeat "0"%char (3 - String.length digits)) +:+ digits.

(** [f"{n:03d}"] *)
Definition format_03d (n : N) : outcome string :=
  if too_long (str_int (Z.of_N n)) then Raises (ValueError format_limit_message)
  else Returns (padded n).

Definition _get_next_id (file : option string) : outcome string :=
  match file with
  | None => Returns "001"
  | Some content =>
      let ids := findall content in
      match ids with
      | [] => Returns "001"
      | _ =>
          match ints ids with
          | Raises e => Raises e
          | Returns values =>
              let last_id := max_of values in
              format_03d (last_id + 1)
          end
      end
  end.

(** The header and the entry [execute] writes, for reference. *)
Definition HEADER : string := "# ZAgent Security Report" +:+ nl +:+ nl.

Definition entry_text (next_id title timestamp content : string) : string :=
  nl +:+ "---" +:+ nl
  +:+ "### ID: " +:+ next_id +:+ nl
  +:+ "**Title**: " +:+ title +:+ nl
  +:+ "**Date**: " +:+ timestamp +:+ nl +:+ nl
  +:+ content +:+ nl.


(** [timestamp] is [datetime.now().strftime("%Y-%m-%d %H:%M:%S")].
    The handler [except Exception] turns the [ValueError] of a request
    without [|], and the one [_get_next_id] may raise, into a result
    that reports the failure; nothing has been written by then. *)
Definition execute (request : string) (timestamp : string) (env : Env)
    : string * Env :=
  match split_at "|" request with
  | None =>
      (format {| tool_name := "report"; request := request; success := false;
                 output := ""; error := "Invalid report format";
                 metadata := [] |},
       env)
  | Some (title, content) =>
    match _get_next_id (report_file env) with
    | Raises e =>
      (format {| tool_name := "report"; request := title; success := false;
                 output := ""; error := message_of e; metadata := [] |},
       env)
    | Returns next_id =>
      let report_entry :=
        nl +:+ "---" +:+ nl
        +:+ "### ID: " +:+ next_id +:+ nl
        +:+ "**Title**: " +:+ title +:+ nl
        +:+ "**Date**: " +:+ timestamp +:+ nl +:+ nl
        +:+ content +:+ nl in
      let written :=
        match report_file env with
        | Some old => old +:+ report_entry                      (* mode "a" *)
        | None => "# ZAgent Security Report" +:+ nl +:+ nl +:+ report_entry
        end in
      let line := nl +:+ "[tool] assistant added finding " +:+ next_id
                  +:+ ": " +:+ title +:+ nl in
      (format {| tool_name := "report"; request := title; success := true;
                 output := "Finding " +:+ next_id +:+ " successfully added to "
                           +:+ REPORT_FILE;
                 error := "";
                 metadata := [("id", next_id); ("title", title)] |},
       {| report_file := Some written; printed := printed env ++ [line] |})
    end
  end.

(** [_REPORT_RE.search(message)] *)
Definition search (message : string) : option (string * string) :=
  search_attr_tag "report" "title" message.

Definition can_handle (message : string) : bool :=
  match search message with Some _ => true | None => false end.

Definition extract_request (message : string) : option string :=
  match search message with
  | Some (group1, group2) =>
      let title := strip group1 in
      let content := strip group2 in
      Some (title +:+ "|" +:+ content)
  | None => None
  end.

End ReportTool.

End Tools.

(** ** [zagent/cli.py]: the loop that drives the turns *)
Module Cli.
Import State Client Tools.

(** The remote endpoint and the wall clock: the response to the [n]-th
    completion request, and [strftime] of the local time at which the
    [n]-th completion payload is built. *)
Class Remote := {
  server : nat -> CompletionPayload -> Response;
  localtime : nat -> string -> string
}.

Definition _GRAY : string := String (ascii_of_nat 27) "[90m".
Definition _RESET : string := String (ascii_of_nat 27) "[0m".

(** A piece of text written to standard output; [Value v] is the text
    [str(v)] of a value that is not a string. *)
Inductive out_item :=
| Text (s : string)
| Value (v : json).

Definition shown (v : json) : out_item :=
  match v with
  | JStr s => Text s
  | _ => Value v
  end.

Section Loop.
Context {Env : Type} {ext : Externals} {remote : Remote}.

(** Everything the loop reads and changes: the chat state, the global
    registry, the world of the tools, the completion requests sent so
    far and the text printed. *)
Record World := {
  state : ChatState;
  registry : ToolRegistry Env;
  env : Env;
  requests : list CompletionPayload;
  stdout : list out_item
}.

(** A computation that may raise; the world reached is kept either way. *)
Definition M (A : Type) : Type := World -> result A * World.

Definition ret {A} (a : A) : M A := fun w => (Ok a, w).

Definition bind {A B} (m : M A) (k : A -> M B) : M B :=
  fun w =>
    match m w with
    | (Ok a, w') => k a w'
    | (Raise e, w') => (Raise e, w')
    end.

Definition lift {A} (r : result A) : M A := fun w => (r, w).

Definition gets {A} (f : ChatState -> A) : M A := fun w => (Ok (f (state w)), w).

Definition modify (f : ChatState -> ChatState) : M unit :=
  fun w =>
    (Ok tt, {| state := f (state w); registry := registry w; env := env w;
               requests := requests w; stdout := stdout w |}).

(** [print(..., end="")] *)
Definition print (items : list out_item) : M unit :=
  fun w =>
    (Ok tt, {| state := state w; registry := registry w; env := env w;
               requests := requests w; stdout := stdout w ++ items |}).

Notation "'let*' x ':=' m 'in' k" := (bind m (fun x => k))
  (at level 10, x name, m at level 100, k at level 200).
Notation "'let*' ( x , y ) ':=' m 'in' k" := (bind m (fun '(x, y) => k))
  (at level 10, x name, y name, m at level 100, k at level 200).

(** [for item in items: body(item)] *)
Fixpoint for_each {A} (items : list A) (body : A -> M unit) : M unit :=
  match items with
  | [] => ret tt
  | item :: rest => let* _ := body item in for_each rest body
  end.

Definition _print_thinking (delta : json) (color : string) : M unit :=
  if String.eqb color "gray" then print [Text _GRAY; shown delta; Text _RESET]
  else print [shown delta].

(** [state.apply_assistant_delta(delta)]: [+=] on a [str] raises a
    [TypeError] unless [delta] is a [str] too. *)
Definition apply_delta (delta : json) : M unit :=
  match delta with
  | JStr d => modify (fun s => apply_assistant_delta s d)
  | _ => lift (Raise TypeError)
  end.

(** [v is True] *)
Definition is_True (v : json) : bool :=
  match v with
  | JBool true => true
  | _ => false
  end.

(** The body of the [for event in ...] loop of [_stream_current_turn];
    a [continue] is an early [ret tt]. *)
Definition handle_event (event : json) : M unit :=
  let* type := lift (py_get event "type" JNull) in
  if negb (eq_str type "chat:completion") then ret tt else
  let* data := lift (py_get event "data" (JObj [])) in
  let* delta := lift (py_get data "delta_content" JNull) in
  if negb (truthy delta) then ret tt else
  let* phase := lift (py_get data "phase" (JStr "answer")) in
  let* show_thinking := gets runtime_show_thinking in
  let* _ :=
    if eq_str phase "thinking" && show_thinking then
      let* color := gets runtime_thinking_color in
      _print_thinking delta color
    else
      let* _ := apply_delta delta in
      print [shown delta] in
  let* phase' := lift (py_get data "phase" JNull) in
  let* done := lift (py_get data "done" JNull) in
  if eq_str phase' "done" || is_True done then modify finish_turn
  else ret tt.

(** [state.build_completion_payload(prompt)] at the current time. *)
Definition build_payload (prompt : string) : M CompletionPayload :=
  fun w =>
    (build_completion_payload (state w) prompt (localtime (length (requests w))), w).

(** [client.stream_completion(state.chat_id, completion_payload)]: the
    request goes out and the endpoint answers it. *)
Definition send (payload : CompletionPayload) : M (list json) :=
  fun w =>
    (stream_completion (server (length (requests w)) payload),
     {| state := state w; registry := registry w; env := env w;
        requests := requests w ++ [payload]; stdout := stdout w |}).

Definition _stream_current_turn (prompt : string) : M unit :=
  let* completion_payload := build_payload prompt in
  let* events := send completion_payload in
  let* _ := for_each events handle_event in
  let* _ := modify finish_turn in
  print [Text nl].

Definition _run_turn (prompt : string) : M unit :=
  let* _ := modify (fun s => snd (begin_turn s prompt)) in
  _stream_current_turn prompt.

(** [registry.execute_if_applicable(state.current_assistant_content)] *)
Definition dispatch : M (bool * option string) :=
  fun w =>
    let '(answer, env') :=
      execute_if_applicable (registry w) (current_assistant_content (state w))
                            None (env w) in
    (Ok answer, {| state := state w; registry := registry w; env := env';
                   requests := requests w; stdout := stdout w |}).

(** The [for _ in range(...)] loop of [_run_turn_with_tools], with
    [remaining] iterations to go.  When [executed] is true the result
    is a string (see [execute_if_applicable]). *)
Fixpoint tool_iterations (remaining : nat) : M unit :=
  match remaining with
  | O => ret tt
  | S remaining' =>
      let* (executed, result) := dispatch in
      if negb executed then ret tt
      else
        let* _ := _run_turn (default "" result) in
        tool_iterations remaining'
  end.

Definition _run_turn_with_tools (prompt : string) (max_iterations : Z) : M unit :=
  let* _ := _run_turn prompt in
  tool_iterations (Z.to_nat max_iterations).

(** The tool loop of [run], [for i in range(max_iterations)], which
    also prints a banner; [i] is the loop index. *)
Fixpoint run_tool_iterations (i : Z) (remaining : nat) (max_iterations : Z)
    : M unit :=
  match remaining with
  | O => ret tt
  | S remaining' =>
      let* (executed, result) := dispatch in
      if negb executed then ret tt
      else
        let* _ := print [Text (nl +:+ _GRAY +:+ "[iteration " +:+ str_int (i + 1)
                               +:+ "/" +:+ str_int max_iterations +:+ "]"
                               +:+ _RESET +:+ nl)] in
        let* _ := _run_turn (default "" result) in
        run_tool_iterations (i + 1) remaining' max_iterations
  end.

(** One pass of the conversation loop of [run] for a prompt that is
    not empty and not a quit phrase. *)
Definition run_prompt (prompt : string) (max_iterations : Z) : M unit :=
  let* _ := _run_turn prompt in
  run_tool_iterations 0 (Z.to_nat max_iterations) max_iterations.

(** The world once a turn in progress has moved on: the content and
    the parent link replaced, [items] printed, nothing else touched. *)
Definition advance (w : World) (content : string) (parent : option string)
    (items : list out_item) : World :=
  {| state := set_progress (state w) content parent;
     registry := registry w; env := env w; requests := requests w;
     stdout := stdout w ++ items |}.

(** The world in which a completion request has gone out. *)
Definition sent (w : World) (payload : CompletionPayload) : World :=
  {| state := state w; registry := registry w; env := env w;
     requests := requests w ++ [payload]; stdout := stdout w |}.

(** What [_print_thinking] writes for a delta. *)
Definition thinking_text (color : string) (delta : json) : list out_item :=
  if String.eqb color "gray" then [Text _GRAY; shown delta; Text _RESET]
  else [shown delta].

(** *** The events of a stream, read off their fields *)

(** The [delta_content] and the [phase] (["answer"] when absent) of a
    completion event that carries a delta. *)
Definition delta_of (event : json) : option (json * json) :=
  match event with
  | JObj fields =>
      if eq_str (default JNull (dict_get fields "type")) "chat:completion" then
        match default (JObj []) (dict_get fields "data") with
        | JObj data =>
            let delta := default JNull (dict_get data "delta_content") in
            if truthy delta
            then Some (delta, default (JStr "answer") (dict_get data "phase"))
            else None
        | _ => None
        end
      else None
  | _ => None
  end.

(** The event is a completion event with a delta that carries a terminal
    signal: the phase ["done"] or the [done] flag. *)
Definition terminal (event : json) : bool :=
  match event, delta_of event with
  | JObj fields, Some _ =>
      match default (JObj []) (dict_get fields "data") with
      | JObj data =>
          eq_str (default JNull (dict_get data "phase")) "done"
          || is_True (default JNull (dict_get data "done"))
      | _ => false
      end
  | _, _ => false
  end.

(** The parent link after the terminal check at the end of
    [handle_event]: [finish_turn] has run if the event is terminal. *)
Definition closing (w : World) (event : json) (parent : option string)
    : option string :=
  if terminal event then current_assistant_message_id (state w) else parent.

(** What becomes of an event in [handle_event]. *)
Inductive verdict :=
| Fails (e : exn)         (* the handler raises *)
| Skips                   (* [continue] *)
| Thinks (delta : json)   (* displayed as thinking text *)
| Appends (d : string).   (* appended to the content and displayed *)

Definition verdict_of (show_thinking : bool) (event : json) : verdict :=
  match event with
  | JObj fields =>
      if eq_str (default JNull (dict_get fields "type")) "chat:completion" then
        match default (JObj []) (dict_get fields "data") with
        | JObj _ =>
            match delta_of event with
            | Some (delta, phase) =>
                if eq_str phase "thinking" && show_thinking then Thinks delta
                else match delta with
                     | JStr d => Appends d
                     | _ => Fails TypeError
                     end
            | None => Skips
            end
        | _ => Fails AttributeError
        end
      else Skips
  | _ => Fails AttributeError
  end.

(** The event is one [handle_event] goes through without raising. *)
Definition well_formed (show_thinking : bool) (event : json) : bool :=
  match verdict_of show_thinking event with
  | Fails _ => false
  | _ => true
  end.

(** The text [handle_event] appends to the content for the event. *)
Definition appended_text (show_thinking : bool) (event : json) : string :=
  match verdict_of show_thinking event with
  | Appends d => d
  | _ => ""
  end.

(** The text a stream of events appends, in order. *)
Definition collected (show_thinking : bool) (events : list json) : string :=
  fold_right (fun event rest => appended_text show_thinking event +:+ rest)
             "" events.

(** The event is a completion event with a delta in the thinking phase. *)
Definition is_thinking (event : json) : bool :=
  match delta_of event with
  | Some (_, phase) => eq_str phase "thinking"
  | None => false
  end.

(** The response lets a turn complete: it arrives, with a status that
    [raise_for_status] accepts, and its events are well formed. *)
Definition response_ok (show_thinking : bool) (resp : Response) : bool :=
  match resp with
  | Unreachable => false
  | Answer status lines _ =>
      match raise_for_status status with
      | Ok _ => forallb (well_formed show_thinking) (omap decode_line lines)
      | Raise _ => false
      end
  end.

(** A world in which every turn completes: the chat exists, the flags
    of the features can be iterated, the factory never returns an empty
    identifier, and the endpoint always answers with a response that is
    [response_ok]. *)
Definition healthy (w : World) : Prop :=
  truthy_str (chat_id (state w)) = true
  /\ iterable (_feature_value (state w) "flags" (JArr [])) = true
  /\ (forall n, _uuid_factory (state w) n <> ""%string)
  /\ (forall n payload,
        response_ok (runtime_show_thinking (state w)) (server n payload) = true).

End Loop.

Arguments World : clear implicits.
Arguments M : clear implicits.

(** *** The conversation loop of [run] *)

(** [str.lower] on a character (code points below 256). *)
Definition lower_char (c : ascii) : ascii :=
  let n := nat_of_ascii c in
  if ((65 <=? n) && (n <=? 90)
      || (192 <=? n) && (n <=? 222) && negb (n =? 215))%nat
  then ascii_of_nat (n + 32) else c.

Fixpoint lower (s : string) : string :=
  match s with
  | EmptyString => EmptyString
  | String c rest => String (lower_char c) (lower rest)
  end.

(** [prompt.lower() in {"exit", "quit", "/exit", "/quit"}] *)
Definition is_quit (prompt : string) : bool :=
  existsb (String.eqb (lower prompt)) ["exit"; "quit"; "/exit"; "/quit"]%string.

Section Conversation.
Context {Env : Type} {ext : Externals} {remote : Remote}.

(** *** What the user does *)

(** A second [KeyboardInterrupt], raised while the first is handled,
    before its message is printed or after: it is outside the [try]. *)
Inductive Second :=
| BeforeMessage
| AfterMessage.

(** A [KeyboardInterrupt] raised in the work that follows a line, once
    [after] steps of that work are done.  Raised within a tool it
    leaves the world of the tools as [midway] says: the tool may have
    done a part of its work. *)
Record Interruption := {
  after : nat;
  midway : Env -> Env;
  again : option Second
}.

(** What a call of [input] brings: a line of text, together with the
    interrupt of the work that follows it if there is one, or a
    [KeyboardInterrupt] while the program waits for the line. *)
Inductive Input :=
| Line (text : string) (interrupt : option Interruption)
| Interrupt (again : option Second).

(** What the body of the loop decides. *)
Inductive verb :=
| Continue
| Break.

(** *** A turn that can be interrupted *)

(** A computation carries, beside the world, the interrupt that is
    pending, [None] when none is; an exception is a value of
    [outcome]. *)
Definition I (A : Type) : Type :=
  World Env * option Interruption
  -> outcome A * (World Env * option Interruption).

Definition ret_i {A} (a : A) : I A := fun s => (Returns a, s).

Definition bind_i {A B} (m : I A) (k : A -> I B) : I B :=
  fun s =>
    match m s with
    | (Returns a, s') => k a s'
    | (Raises e, s') => (Raises e, s')
    end.

(** A computation of the loop, taken whole. *)
Definition whole {A} (m : M Env A) : I A :=
  fun s =>
    match m (fst s) with
    | (Ok a, w') => (Returns a, (w', snd s))
    | (Raise e, w') => (Raises (Python e), (w', snd s))
    end.

(** The interrupt with [k] steps to go. *)
Definition later (i : Interruption) (k : nat) : Interruption :=
  {| after := k; midway := midway i; again := again i |}.

(** A step of the loop: an assignment, a [print], the wait for an
    event, a call on the state or the client.  The interrupt that is
    due is raised in its place: an interrupt that arrives while a step
    runs leaves its work undone, or is raised once it is done, in place
    of the step that follows; what a step prints is printed whole. *)
Definition step {A} (m : M Env A) : I A :=
  fun s =>
    match snd s with
    | Some i =>
        match after i with
        | O => (Raises KeyboardInterrupt, (fst s, None))
        | S k => whole m (fst s, Some (later i k))
        end
    | None => whole m s
    end.

Definition with_env (w : World Env) (e : Env) : World Env :=
  {| state := state w; registry := registry w; env := e;
     requests := requests w; stdout := stdout w |}.

(** The call of a tool: the interrupt that is due is raised within it. *)
Definition step_tool {A} (m : M Env A) : I A :=
  fun s =>
    match snd s with
    | Some i =>
        match after i with
        | O => (Raises KeyboardInterrupt,
                (with_env (fst s) (midway i (env (fst s))), None))
        | S k => whole m (fst s, Some (later i k))
        end
    | None => whole m s
    end.

Notation "'let!' x ':=' m 'in' k" := (bind_i m (fun x => k))
  (at level 10, x name, m at level 100, k at level 200).

Fixpoint for_each_i {A} (items : list A) (body : A -> I unit) : I unit :=
  match items with
  | [] => ret_i tt
  | item :: rest => let! _ := body item in for_each_i rest body
  end.

(** [self._uuid_factory()] *)
Definition call_uuid_factory : M Env string :=
  fun w =>
    (Ok (_uuid_factory (state w) (_uuid_calls (state w))),
     {| state := set_turn (state w) (current_user_message_id (state w))
                          (current_assistant_message_id (state w))
                          (current_assistant_content (state w))
                          (S (_uuid_calls (state w)));
        registry := registry w; env := env w; requests := requests w;
        stdout := stdout w |}).

(** [state.begin_turn(prompt)], assignment by assignment. *)
Definition begin_turn_i (prompt : string) : I unit :=
  let! user_message_id := step call_uuid_factory in
  let! assistant_message_id := step call_uuid_factory in
  let! _ := step (modify (fun s =>
      set_turn s (Some user_message_id) (current_assistant_message_id s)
               (current_assistant_content s) (_uuid_calls s))) in
  let! _ := step (modify (fun s =>
      set_turn s (current_user_message_id s) (Some assistant_message_id)
               (current_assistant_content s) (_uuid_calls s))) in
  step (modify (fun s =>
      set_turn s (current_user_message_id s) (current_assistant_message_id s)
               "" (_uuid_calls s))).

(** The body of the [for event in ...] loop, as [handle_event] has it,
    step by step; the first step is the wait for the event. *)
Definition handle_event_i (event : json) : I unit :=
  let! _ := step (ret tt) in
  let! type := whole (lift (py_get event "type" JNull)) in
  if negb (eq_str type "chat:completion") then ret_i tt else
  let! data := whole (lift (py_get event "data" (JObj []))) in
  let! delta := whole (lift (py_get data "delta_content" JNull)) in
  if negb (truthy delta) then ret_i tt else
  let! phase := whole (lift (py_get data "phase" (JStr "answer"))) in
  let! show_thinking := whole (gets runtime_show_thinking) in
  let! _ :=
    if eq_str phase "thinking" && show_thinking then
      let! color := whole (gets runtime_thinking_color) in
      step (_print_thinking delta color)
    else
      let! _ := step (apply_delta delta) in
      step (print [shown delta]) in
  let! phase' := whole (lift (py_get data "phase" JNull)) in
  let! done := whole (lift (py_get data "done" JNull)) in
  if eq_str phase' "done" || is_True done then step (modify finish_turn)
  else ret_i tt.

Definition _stream_current_turn_i (prompt : string) : I unit :=
  let! completion_payload := step (build_payload prompt) in
  let! events := step (send completion_payload) in
  let! _ := for_each_i events handle_event_i in
  let! _ := step (modify finish_turn) in
  step (print [Text nl]).

Definition _run_turn_i (prompt : string) : I unit :=
  let! _ := begin_turn_i prompt in
  _stream_current_turn_i prompt.

Fixpoint run_tool_iterations_i (i : Z) (remaining : nat) (max_iterations : Z)
    : I unit :=
  match remaining with
  | O => ret_i tt
  | S remaining' =>
      let! answer := step_tool dispatch in
      if negb (fst answer) then ret_i tt
      else
        let! _ := step (print [Text (nl +:+ _GRAY +:+ "[iteration "
                                     +:+ str_int (i + 1) +:+ "/"
                                     +:+ str_int max_iterations +:+ "]"
                                     +:+ _RESET +:+ nl)]) in
        let! _ := _run_turn_i (default "" (snd answer)) in
        run_tool_iterations_i (i + 1) remaining' max_iterations
  end.

(** What the body of the loop does with the line [input] returned; the
    first step is the return of [input], before the line is looked at. *)
Definition loop_body (text : string) (max_iterations : Z) : I verb :=
  let! _ := step (ret tt) in
  let prompt := strip text in
  if String.eqb prompt "" then ret_i Continue
  else if is_quit prompt then ret_i Break
  else
    let! _ := _run_turn_i prompt in
    let! _ := run_tool_iterations_i 0 (Z.to_nat max_iterations) max_iterations in
    ret_i Continue.

(** [print(...)] outside the [try], and the prompt of [input]. *)
Definition printed_line (w : World Env) (text : string) : World Env :=
  {| state := state w; registry := registry w; env := env w;
     requests := requests w; stdout := stdout w ++ [Text text] |}.

(** The [except KeyboardInterrupt] clause: its message, and the second
    interrupt if there is one. *)
Definition handle_interrupt (again : option Second) (w : World Env)
    : outcome unit * World Env :=
  let reported := printed_line w (nl +:+ "[stop] interrupted by user" +:+ nl) in
  match again with
  | None => (Returns tt, reported)
  | Some BeforeMessage => (Raises KeyboardInterrupt, w)
  | Some AfterMessage => (Raises KeyboardInterrupt, reported)
  end.

(** The [again] of the interrupt that was raised. *)
Definition second_of (interrupt : option Interruption) : option Second :=
  match interrupt with
  | Some i => again i
  | None => None
  end.

(** The second interrupt that comes with an input, if there is one. *)
Definition second (input : Input) : option Second :=
  match input with
  | Line _ interrupt => second_of interrupt
  | Interrupt again => again
  end.

(** The [while True] loop at the end of [run], over the inputs still to
    come.  It returns when a quit phrase is read; at the end of the
    input [input] raises an [EOFError], which nothing catches.  A
    [KeyboardInterrupt] is caught wherever in the body it is raised,
    and the loop goes on with the world as the interrupt left it. *)
Fixpoint conversation (inputs : list Input) (max_iterations : Z)
    (w : World Env) : outcome unit * World Env :=
  let w := printed_line w (nl +:+ "You: ") in
  match inputs with
  | [] => (Raises EOFError, w)
  | Interrupt again :: rest =>
      match handle_interrupt again w with
      | (Returns _, w') => conversation rest max_iterations w'
      | (Raises e, w') => (Raises e, w')
      end
  | Line text interrupt :: rest =>
      match loop_body text max_iterations (w, interrupt) with
      | (Returns Continue, (w', _)) => conversation rest max_iterations w'
      | (Returns Break, (w', _)) => (Returns tt, w')
      | (Raises KeyboardInterrupt, (w', _)) =>
          match handle_interrupt (second_of interrupt) w' with
          | (Returns _, w'') => conversation rest max_iterations w''
          | (Raises e, w'') => (Raises e, w'')
          end
      | (Raises e, (w', _)) => (Raises e, w')
      end
  end.

(** *** Statements about computations that can be interrupted *)

(** The computation sends at most [k] requests, however it ends. *)
Definition sends {A} (k : nat) (m : I A) : Prop :=
  forall w pending r w' pending',
    m (w, pending) = (r, (w', pending')) ->
    (length (requests w') <= length (requests w) + k)%nat.

(** From a world in which [P] holds the computation returns to one in
    which [Q] holds, or is interrupted in one in which [R] holds; it
    raises nothing else. *)
Definition interruptible {A} (P : World Env -> Prop) (m : I A)
    (Q : A -> World Env -> Prop) (R : World Env -> Prop) : Prop :=
  forall w pending r w' pending',
    P w -> m (w, pending) = (r, (w', pending')) ->
    match r with
    | Returns a => Q a w'
    | Raises KeyboardInterrupt => R w'
    | Raises _ => False
    end.

(** With no interrupt pending, the computation is [m]. *)
Definition agrees {A} (m_i : I A) (m : M Env A) : Prop :=
  forall w, m_i (w, None) = whole m (w, None).

(** A healthy world that shows thinking deltas or not, as [show] says. *)
Definition settled (show : bool) (w : World Env) : Prop :=
  healthy w /\ runtime_show_thinking (state w) = show.

(** The line is interrupted before the loop looks at it. *)
Definition lost (interrupt : option Interruption) : bool :=
  match interrupt with
  | Some i => match after i with O => true | S _ => false end
  | None => false
  end.

(** The lines that start a turn: those read before the loop is left
    that are neither blank nor a quit phrase, and that are not
    interrupted before the turn begins. *)
Fixpoint prompts_before_quit (inputs : list Input) : list string :=
  match inputs with
  | [] => []
  | Interrupt _ :: rest => prompts_before_quit rest
  | Line text interrupt :: rest =>
      let prompt := strip text in
      if lost interrupt || String.eqb prompt "" then prompts_before_quit rest
      else if is_quit prompt then []
      else prompt :: prompts_before_quit rest
  end.

(** The requests sent so far carry identifiers that the factory
    returned, each its own, and none names itself as its parent. *)
Definition requests_distinct (w : World Env) : Prop :=
  ids_allocated (state w)
  /\ fresh_ids (state w)
  /\ Forall (fun p => allocated (state w) (p_id p)
                      /\ p_current_user_message_parent_id p <> p_id p)
            (requests w)
  /\ List.NoDup (map p_id (requests w)).

End Conversation.

Arguments Interruption : clear implicits.
Arguments I : clear implicits.
Arguments Input : clear implicits.

(** *** The configuration read by [run] *)

Definition quotation_mark : string := String (ascii_of_nat 34) EmptyString.

Definition _TOOL_SYSTEM_HINT : string :=
  nl +:+ nl +:+ "AVAILABLE TOOLS:" +:+ nl
  +:+ "1. Shell: <shell>command</shell> - Execute terminal commands." +:+ nl
  +:+ "2. Read File: <read_file>path</read_file> - Read file contents." +:+ nl
  +:+ "3. Write File: <write_file path=" +:+ quotation_mark +:+ "path"
  +:+ quotation_mark +:+ ">content</write_file> - Write to files." +:+ nl
  +:+ "4. Report: <report title=" +:+ quotation_mark +:+ "title"
  +:+ quotation_mark +:+ ">finding</report> - Document findings with auto-IDs."
  +:+ nl
  +:+ nl +:+ "USAGE RULES:" +:+ nl
  +:+ "- Output ONLY one tool tag per response when an action is required." +:+ nl
  +:+ "- Use absolute paths when possible." +:+ nl
  +:+ "- After tool result is returned, analyze the output and continue.".

(** [_load_system_prompt]; [file] is the text of [system.txt], [None]
    when the file does not exist. *)
Definition _load_system_prompt (file : option string) : option string :=
  match file with
  | None => None
  | Some text =>
      let content := strip text in
      if String.eqb content "" then None else Some content
  end.

(** [DEFAULT_FEATURES], imported from [zagent.core.state]. *)
Definition DEFAULT_FEATURES_items : list (string * json) := DEFAULT_FEATURES.

(** [merged.update(raw_features)] *)
Definition dict_update {V} (d raw : list (string * V)) : list (string * V) :=
  fold_left (fun merged entry => dict_set merged (fst entry) (snd entry)) raw d.

Definition _merge_features (config : list (string * json))
    : list (string * json) :=
  let raw_features :=
    match default (JObj []) (dict_get config "features") with
    | JObj fields => fields
    | _ => []
    end in
  dict_update DEFAULT_FEATURES_items raw_features.

(** The arguments [_build_state] passes to [ChatState]. *)
Record StateArguments := {
  a_model : string;
  a_system_prompt : string;
  a_features : list (string * json);
  a_runtime_show_thinking : bool;
  a_runtime_thinking_color : string
}.

Definition _build_state (repr : json -> string) (system_prompt : option string)
    (config : list (string * json)) : StateArguments :=
  let runtime :=
    match default (JObj []) (dict_get config "runtime") with
    | JObj fields => fields
    | _ => []
    end in
  let prompt := strip (default "" system_prompt) in
  let prompt :=
    if negb (String.eqb prompt "") then prompt +:+ _TOOL_SYSTEM_HINT
    else strip _TOOL_SYSTEM_HINT in
  {| a_model := py_str repr (default (JStr "GLM-4-6-API-V1") (dict_get config "model"));
     a_system_prompt := prompt;
     a_features := _merge_features config;
     a_runtime_show_thinking :=
       truthy (default (JBool true) (dict_get runtime "show_thinking"));
     a_runtime_thinking_color :=
       py_str repr (default (JStr "gray") (dict_get runtime "thinking_color")) |}.

(** The last block of [_setup_tools]: when the configuration lists the
    enabled tools, every registered tool is enabled or disabled
    according to the list.  [all_tools] enumerates the set of the names
    of the registered tools, in the order in which Python iterates it. *)
Definition listed (enabled_tools : list json) (tool_name : string) : bool :=
  existsb (fun v => eq_str v tool_name) enabled_tools.

Definition configure_enabled {Env} (reg : ToolRegistry Env)
    (enabled_tools : json) (all_tools : list string) : ToolRegistry Env :=
  match enabled_tools with
  | JArr items =>
      fold_left
        (fun r tool_name =>
           if listed items tool_name then enable r tool_name
           else disable r tool_name)
        all_tools reg
  | _ => reg
  end.

End Cli.

(** ** [zagent/core/auth.py]: the saved credentials *)
Module Auth.
Import Tools.

(** The text [json.dumps(data, indent=2, ensure_ascii=False)] as
    [write_text] encodes it in UTF-8; [None] when the encoding raises a
    [UnicodeEncodeError], which it does when the data holds a lone
    surrogate (a text that [json.loads] has read from an escape may). *)
Class JsonText := {
  dumps_utf8 : json -> option string
}.

(** How [write_text] fails with an [OSError]: when it opens the file,
    which then stays as it is, or later, with the file opened and
    truncated, which then holds [remains]. *)
Inductive WriteFailure :=
| AtOpen (e : string)
| AtWrite (e remains : string).

(** An [AuthConfig] and the file behind it: [_data], the text of the
    file ([None] while it does not exist), the [OSError] that
    [write_text] raises, the one that [chmod] raises and the one that
    [unlink] raises, if any, and what has been printed. *)
Record AuthConfig := {
  _data : json;
  config_file : option string;
  write_error : option WriteFailure;
  chmod_error : option string;
  unlink_error : option string;
  printed : list string
}.

Definition with_data (a : AuthConfig) (data : json) : AuthConfig :=
  {| _data := data; config_file := config_file a;
     write_error := write_error a; chmod_error := chmod_error a;
     unlink_error := unlink_error a; printed := printed a |}.

Definition with_file (a : AuthConfig) (file : option string) : AuthConfig :=
  {| _data := _data a; config_file := file;
     write_error := write_error a; chmod_error := chmod_error a;
     unlink_error := unlink_error a; printed := printed a |}.

Definition with_print (a : AuthConfig) (line : string) : AuthConfig :=
  {| _data := _data a; config_file := config_file a;
     write_error := write_error a; chmod_error := chmod_error a;
     unlink_error := unlink_error a; printed := printed a ++ [line +:+ nl] |}.

(** [_load]: a missing file and a file that is not JSON give [{}]. *)
Definition _load {ext : Externals} (file : option string) : json :=
  match file with
  | None => JObj []
  | Some text =>
      match json_loads text with
      | Some data => data
      | None => JObj []
      end
  end.

(** [AuthConfig(config_path)], for a file and the errors of its file
    system. *)
Definition new_auth_config {ext : Externals} (file : option string)
    (on_write : option WriteFailure) (on_chmod on_unlink : option string)
    : AuthConfig :=
  {| _data := _load file; config_file := file; write_error := on_write;
     chmod_error := on_chmod; unlink_error := on_unlink; printed := [] |}.

(** The warning of [_save]. *)
Definition with_warning (a : AuthConfig) (e : string) : AuthConfig :=
  with_print a ("Warning: Could not save auth config: " +:+ e).

(** [_save]: [write_text] opens the file, which truncates it, encodes
    the text and writes it; then the mode of the file is changed.  An
    [OSError] of either call is reported.  A [UnicodeEncodeError] is not
    caught: it leaves the file empty. *)
Definition _save {text : JsonText} (a : AuthConfig) : outcome unit * AuthConfig :=
  match write_error a with
  | Some (AtOpen e) => (Returns tt, with_warning a e)
  | failure =>
      match dumps_utf8 (_data a) with
      | None => (Raises UnicodeEncodeError, with_file a (Some ""%string))
      | Some encoded =>
          match failure with
          | Some (AtWrite e remains) =>
              (Returns tt, with_warning (with_file a (Some remains)) e)
          | _ =>
              let a := with_file a (Some encoded) in
              match chmod_error a with
              | Some e => (Returns tt, with_warning a e)
              | None => (Returns tt, a)
              end
          end
      end
  end.

(** [del d[key]] *)
Definition dict_del (fields : list (string * json)) (key : string)
    : list (string * json) :=
  List.filter (fun entry => negb (String.eqb (fst entry) key)) fields.

(** [save_auth]; [cookie] is [JNull] for [None].  The item assignment
    raises a [TypeError] unless [_data] is a [dict]. *)
Definition save_auth {text : JsonText} (a : AuthConfig) (token cookie : json)
    : outcome unit * AuthConfig :=
  match _data a with
  | JObj fields =>
      let fields := dict_set fields "token" token in
      let fields :=
        if truthy cookie then dict_set fields "cookie" cookie
        else dict_del fields "cookie" in
      _save (with_data a (JObj fields))
  | _ => (Raises (Python TypeError), a)
  end.

Definition get_token (a : AuthConfig) : result json :=
  py_get (_data a) "token" JNull.

Definition get_cookie (a : AuthConfig) : result json :=
  py_get (_data a) "cookie" JNull.

(** ["token" in self._data]: a key of a [dict], an element of a list, a
    part of a string; a [TypeError] for the other values. *)
Definition has_auth (a : AuthConfig) : result bool :=
  match _data a with
  | JObj fields =>
      Ok (match dict_get fields "token" with Some _ => true | None => false end)
  | JArr items => Ok (existsb (fun v => eq_str v "token") items)
  | JStr s => Ok (match split_at "token" s with Some _ => true | None => false end)
  | _ => Raise TypeError
  end.

(** The second statement of [clear]: the file is removed if it exists. *)
Definition unlink_if_exists (a : AuthConfig) : outcome unit * AuthConfig :=
  match config_file a with
  | None => (Returns tt, a)
  | Some _ =>
      match unlink_error a with
      | None => (Returns tt, with_file a None)
      | Some e => (Raises (OSError e), a)
      end
  end.

(** [clear]: only a [dict] and a list have a method [clear]; the data is
    emptied before the file is touched. *)
Definition clear (a : AuthConfig) : outcome unit * AuthConfig :=
  match _data a with
  | JObj _ => unlink_if_exists (with_data a (JObj []))
  | JArr _ => unlink_if_exists (with_data a (JArr []))
  | _ => (Raises (Python AttributeError), a)
  end.

End Auth.

(** ** Stand-ins for the outside world, used in the examples *)
Module Demo.
Import State Client Tools Cli.

(** An identifier factory: "id-0", "id-1", ... *)
Definition factory (n : nat) : string := "id-" +:+ str_int (Z.of_nat n).

Definition completion (fields : list (string * json)) : json :=
  JObj [("type", JStr "chat:completion"); ("data", JObj fields)].

(** A decoder for the few frames of the examples: ["a:text"] is an
    answer delta, ["t:text"] a thinking delta, ["d:text"] a delta
    flagged done, ["n:1"] a delta that is a number, ["other"] an event
    of another type and ["[1]"] a list; anything else fails to decode. *)
Definition loads (content : string) : option json :=
  if String.prefix "a:" content then
    Some (completion [("delta_content", JStr (string_drop 2 content))])
  else if String.prefix "t:" content then
    Some (completion [("delta_content", JStr (string_drop 2 content));
                      ("phase", JStr "thinking")])
  else if String.prefix "d:" content then
    Some (completion [("delta_content", JStr (string_drop 2 content));
                      ("phase", JStr "answer"); ("done", JBool true)])
  else if String.eqb content "n:1" then
    Some (completion [("delta_content", JNum 1)])
  else if String.eqb content "other" then
    Some (JObj [("type", JStr "ping")])
  else if String.eqb content "[1]" then
    Some (JArr [JNum 1])
  else None.

#[export] Instance externals : Externals := {| json_loads := loads |}.

Definition thinking_event : json :=
  completion [("delta_content", JStr "hmm"); ("phase", JStr "thinking")].

Definition answer_event : json :=
  completion [("delta_content", JStr "Hel")].

(** An endpoint that answers every request with the same response. *)
Definition constant_remote (resp : Response) : Remote :=
  {| server := fun _ _ => resp; localtime := fun _ _ => ""%string |}.

(** A second tool whose trigger overlaps with the echo tool's. *)
Definition loud {Env} : BaseTool Env := {|
  name := "loud";
  description := "Echo in capitals";
  can_handle := EchoTool.can_handle;
  extract_request := EchoTool.extract_request;
  execute := fun request _ env => ("LOUD: " +:+ request, env)
|}.

(** The state of a chat that exists, before its first turn here. *)
Definition chat_state (show_thinking : bool) : ChatState :=
  let s := set_chat_id (new_state factory) (Some "chat-1"%string) in
  {| model := model s; chat_id := chat_id s; user_name := user_name s;
     user_language := user_language s; user_timezone := user_timezone s;
     system_prompt := system_prompt s; features := features s;
     runtime_show_thinking := show_thinking;
     runtime_thinking_color := runtime_thinking_color s;
     current_user_message_id := current_user_message_id s;
     current_user_message_parent_id := current_user_message_parent_id s;
     current_assistant_message_id := current_assistant_message_id s;
     current_assistant_content := current_assistant_content s;
     _uuid_factory := _uuid_factory s; _uuid_calls := _uuid_calls s |}.

(** A world around a chat state, with the echo tool registered. *)
Definition world_of (s : ChatState) : World unit := {|
  state := s;
  registry := register_all empty_registry [EchoTool.tool];
  env := tt;
  requests := [];
  stdout := []
|}.

Definition world (show_thinking : bool) : World unit :=
  world_of (chat_state show_thinking).

(** The same world once [begin_turn] has been called. *)
Definition started (show_thinking : bool) (prompt : string) : World unit :=
  world_of (snd (begin_turn (chat_state show_thinking) prompt)).

(** Responses used in the examples. *)
Definition hello_lines : list string := ["data: a:Hel"; "a:lo"; ""; "data: [DONE]";
                                         "junk"; "t:hmm"; "a:!"]%string.

(** Three answer deltas and no terminal marker; the connection breaks. *)
Definition hello_dropped : Response := Answer 200 hello_lines true.

(** An answer that triggers the echo tool, every time. *)
Definition echo_forever : Response := Answer 200 ["a:<echo>x</echo>"%string] false.

(** A token decoder that knows one padded segment. *)
#[export] Instance codec : TokenCodec := {|
  decode_json := fun text =>
    if String.eqb text "bo==" then Some (JObj [("id", JStr "u-1")]) else None
|}.

(** A serializer and a parser that know one saved configuration. *)
Definition auth_text : Auth.JsonText :=
  {| Auth.dumps_utf8 := fun _ => Some "saved"%string |}.

Definition auth_externals : Externals := {|
  json_loads := fun text =>
    if String.eqb text "saved" then Some (JObj [("token", JStr "t-1")]) else None
|}.

(** The endpoints of the examples. *)
Definition hello : Remote := constant_remote hello_dropped.
Definition echo : Remote := constant_remote echo_forever.
Definition failing : Remote := constant_remote (Answer 500 hello_lines false).
Definition unreachable : Remote := constant_remote Unreachable.

End Demo.

(** * Properties *)

(** ** The primitives agree with the reference implementations *)

Example sha256_abc :
  string_of_list_ascii (Sha256.hexdigest (Sha256.sha256 (bytes_of_string "abc")))
  = "ba7816bf8f01cfea414140de5dae2223b00361a396177a9cb410ff61f20015ad"%string.
Proof. vm_compute. reflexivity. Qed.

Example hmac_rfc4231_2 :
  string_of_list_ascii
    (Sha256.hexdigest (Sha256.hmac (bytes_of_string "Jefe")
                                   (bytes_of_string "what do ya want for nothing?")))
  = "5bdcc146bf60754e6a042426089575c75a003f089d2739839dec58b964ec3843"%string.
Proof. vm_compute. reflexivity. Qed.

Example hmac_long_key :
  string_of_list_ascii
    (Sha256.hexdigest (Sha256.hmac (repeat (byte_of_ascii "k") 70)
                                   (repeat (byte_of_ascii "m") 130)))
  = "1ac6b4fbc8b160b48837dcb6380947d9cccdcc8814d7c3d9561e33bd84cb7884"%string.
Proof. vm_compute. reflexivity. Qed.

(** Values of the deployed implementation for three requests. *)
Example signature_of_hello :
  option_map string_of_ustring
    (Client._generate_signature
       (ustr "requestId,r,timestamp,1700000000000,user_id,u") (ustr "hello")
       1700000000000)
  = Some "a092cf7685033bab7ea7fbc908d653399bf00c2044d9410e5d3e78d6731f93b5"%string.
Proof. vm_compute. reflexivity. Qed.

Example signature_of_e_acute :
  option_map string_of_ustring (Client._generate_signature [] [233] 0)
  = Some "f60ce7ab6a7f5328d11cee040cbd3d5cc063c845ba98640ae51bd886e5192c39"%string.
Proof. vm_compute. reflexivity. Qed.

Example signature_before_epoch :
  option_map string_of_ustring (Client._generate_signature [] [] (-1))
  = Some "12863def1ca4a76c8c2cf0bb26d65f31a91636f4679c9eda41259c0da9f0ab55"%string.
Proof. vm_compute. reflexivity. Qed.

Example base64_of_e_acute :
  option_map string_of_ustring (Client._js_like_base64 [233]) = Some "w6k="%string.
Proof. vm_compute. reflexivity. Qed.

(** ** The chat state *)
Module StateFacts.
Import State.

(** C10: [finish_turn] is idempotent: a second call with no change in
    between leaves the state exactly as the first call left it; in the
    loop, two calls in a row have the same effect on the whole world
    (state, requests sent, output) as one call. *)
Theorem finish_turn_idempotent :
  (forall s : ChatState, finish_turn (finish_turn s) = finish_turn s)
  /\ (forall (Env : Type) (w : Cli.World Env),
        Cli.bind (Cli.modify finish_turn) (fun _ => Cli.modify finish_turn) w
        = Cli.modify finish_turn w).
Proof.
  split.
  - intros s. destruct s; reflexivity.
  - intros Env w. destruct w as [s r e q o]. destruct s; reflexivity.
Qed.

Lemma py_list_iterable (v : json) :
  iterable v = true -> exists items, py_list v = Ok items.
Proof. destruct v; try discriminate; intros _; eexists; reflexivity. Qed.

Lemma py_list_not_iterable (v : json) :
  iterable v = false -> py_list v = Raise TypeError.
Proof. destruct v; try discriminate; reflexivity. Qed.

Lemma build_ok_fields (s : ChatState) (prompt : string) (now : string -> string)
    (p : CompletionPayload) :
  build_completion_payload s prompt now = Ok p ->
  p_id p = current_assistant_message_id s
  /\ p_current_user_message_id p = current_user_message_id s
  /\ p_current_user_message_parent_id p = current_user_message_parent_id s
  /\ p_chat_id p = chat_id s.
Proof.
  unfold build_completion_payload.
  destruct (negb (truthy_str (chat_id s))); [discriminate|].
  destruct (negb (truthy_str (current_user_message_id s))
            || negb (truthy_str (current_assistant_message_id s))); [discriminate|].
  destruct (py_list (_feature_value s "flags" (JArr []))); [|discriminate].
  intros [= <-]. simpl. tauto.
Qed.

(** With the guards passed, the flags decide: the payload is built, with
    the identifiers of the state, or [list(...)] raises. *)
Lemma build_past_the_guards (s : ChatState) (prompt : string)
    (now : string -> string) :
  truthy_str (chat_id s) = true ->
  truthy_str (current_user_message_id s) = true ->
  truthy_str (current_assistant_message_id s) = true ->
  (iterable (_feature_value s "flags" (JArr [])) = false ->
     build_completion_payload s prompt now = Raise TypeError)
  /\ (iterable (_feature_value s "flags" (JArr [])) = true ->
      exists p,
        build_completion_payload s prompt now = Ok p
        /\ p_id p = current_assistant_message_id s
        /\ p_current_user_message_id p = current_user_message_id s
        /\ p_current_user_message_parent_id p = current_user_message_parent_id s
        /\ p_chat_id p = chat_id s).
Proof.
  intros Hc Hu Ha. unfold build_completion_payload. rewrite Hc, Hu, Ha.
  cbn [negb orb]. split; intros Hflags.
  - rewrite (py_list_not_iterable _ Hflags). reflexivity.
  - destruct (py_list_iterable _ Hflags) as [items ->].
    eexists. split; [reflexivity|]. simpl. tauto.
Qed.

Lemma build_after_begin_turn (s : ChatState) (prompt0 prompt : string)
    (now : string -> string) :
  truthy_str (chat_id s) = true ->
  iterable (_feature_value s "flags" (JArr [])) = true ->
  _uuid_factory s (_uuid_calls s) <> ""%string ->
  _uuid_factory s (S (_uuid_calls s)) <> ""%string ->
  exists p,
    build_completion_payload (snd (begin_turn s prompt0)) prompt now = Ok p
    /\ p_id p = Some (snd (fst (begin_turn s prompt0)))
    /\ p_current_user_message_id p = Some (fst (fst (begin_turn s prompt0)))
    /\ p_current_user_message_parent_id p = current_user_message_parent_id s.
Proof.
  intros Hc Hflags Hu Ha. apply String.eqb_neq in Hu, Ha.
  destruct (build_past_the_guards (snd (begin_turn s prompt0)) prompt now)
    as [_ Hbuild].
  - exact Hc.
  - cbn [begin_turn snd current_user_message_id truthy_str]. rewrite Hu. reflexivity.
  - cbn [begin_turn snd current_assistant_message_id truthy_str]. rewrite Ha.
    reflexivity.
  - destruct (Hbuild Hflags) as (p & Hp & Hid & Huser & Hparent & _).
    exists p. split; [exact Hp|]. split; [exact Hid|]. split; [exact Huser|].
    exact Hparent.
Qed.

(** C6 (as the code has it): a completion payload is built only when the
    chat id and both identifiers of the current turn are set.  Before
    [begin_turn] (the identifiers still [None]) or without a chat id the
    call raises the [RuntimeError] of a state precondition.  With the
    three set, the call succeeds exactly when the flags of the features
    can be iterated (they are absent, a list, a string or an object),
    and the payload then carries the assistant-message id, the
    user-message id and the parent link held by the state; flags that
    are null, a boolean or a number make [list(...)] raise a
    [TypeError] after the guards. *)
Theorem build_completion_payload_precondition
    (s : ChatState) (prompt : string) (now : string -> string) :
  (truthy_str (chat_id s) = false ->
     build_completion_payload s prompt now
     = Raise (RuntimeError "chat_id is required before completion"))
  /\ (truthy_str (chat_id s) = true ->
      truthy_str (current_user_message_id s) = false
      \/ truthy_str (current_assistant_message_id s) = false ->
      build_completion_payload s prompt now
      = Raise (RuntimeError "begin_turn must be called before build_completion_payload"))
  /\ (truthy_str (chat_id s) = true ->
      truthy_str (current_user_message_id s) = true ->
      truthy_str (current_assistant_message_id s) = true ->
      (iterable (_feature_value s "flags" (JArr [])) = false ->
         build_completion_payload s prompt now = Raise TypeError)
      /\ (iterable (_feature_value s "flags" (JArr [])) = true ->
          exists p,
            build_completion_payload s prompt now = Ok p
            /\ p_id p = current_assistant_message_id s
            /\ p_current_user_message_id p = current_user_message_id s
            /\ p_current_user_message_parent_id p = current_user_message_parent_id s
            /\ p_chat_id p = chat_id s))
  /\ (truthy_str (chat_id s) = true ->
      iterable (_feature_value s "flags" (JArr [])) = true ->
      _uuid_factory s (_uuid_calls s) <> ""%string ->
      _uuid_factory s (S (_uuid_calls s)) <> ""%string ->
      forall prompt0, exists p,
        build_completion_payload (snd (begin_turn s prompt0)) prompt now = Ok p
        /\ p_id p = Some (snd (fst (begin_turn s prompt0)))
        /\ p_current_user_message_id p = Some (fst (fst (begin_turn s prompt0)))
        /\ p_current_user_message_parent_id p = current_user_message_parent_id s).
Proof.
  split; [|split; [|split]].
  - unfold build_completion_payload. intros ->. reflexivity.
  - unfold build_completion_payload. intros -> [-> | ->]; simpl; [reflexivity|].
    rewrite orb_true_r. reflexivity.
  - intros Hc Hu Ha. apply build_past_the_guards; assumption.
  - intros Hc Hflags Hu Ha prompt0. apply build_after_begin_turn; assumption.
Qed.

Lemma build_completion_payload_precondition_witness :
  build_completion_payload (new_state Demo.factory) "hi" (fun _ => ""%string)
  = Raise (RuntimeError "chat_id is required before completion")
  /\ build_completion_payload (set_chat_id (new_state Demo.factory) (Some "c1"%string))
       "hi" (fun _ => ""%string)
     = Raise (RuntimeError "begin_turn must be called before build_completion_payload")
  /\ exists p,
       build_completion_payload
         (snd (begin_turn (set_chat_id (new_state Demo.factory) (Some "c1"%string)) "hi"))
         "hi" (fun _ => ""%string) = Ok p
       /\ p_id p = Some "id-1"%string
       /\ p_current_user_message_id p = Some "id-0"%string
       /\ p_current_user_message_parent_id p = None.
Proof.
  split; [|split].
  - apply (build_completion_payload_precondition (new_state Demo.factory)).
    reflexivity.
  - apply (build_completion_payload_precondition
             (set_chat_id (new_state Demo.factory) (Some "c1"%string))).
    + reflexivity.
    + left. reflexivity.
  - destruct (build_completion_payload_precondition
                (set_chat_id (new_state Demo.factory) (Some "c1"%string))
                "hi" (fun _ => ""%string)) as (_ & _ & _ & H).
    apply (H eq_refl eq_refl); vm_compute; discriminate.
Defined.

(** The configuration [{"features": {"flags": null}}] reaches the state
    through [_merge_features]; with the chat created and the turn begun,
    both guards pass and the call raises all the same. *)
Lemma null_flags_raise_after_the_guards :
  let config := [("features", JObj [("flags", JNull)])]%string in
  let s :=
    snd (begin_turn
           (set_features (set_chat_id (new_state Demo.factory) (Some "c1"%string))
                         (Cli._merge_features config))
           "hi") in
  truthy_str (chat_id s) = true
  /\ truthy_str (current_user_message_id s) = true
  /\ truthy_str (current_assistant_message_id s) = true
  /\ build_completion_payload s "hi" (fun _ => ""%string) = Raise TypeError.
Proof. repeat split. Qed.

End StateFacts.

(** ** The signature *)
Module ClientFacts.
Import Sha256 Client.

Lemma latin1_round_trip (bs : bytes) : latin1_encode (latin1_decode bs) = Some bs.
Proof.
  induction bs as [|b bs IH]; [reflexivity|].
  change (latin1_decode (b :: bs)) with (Byte.to_N b :: latin1_decode bs).
  cbn [latin1_encode]. rewrite Byte.of_to_N, IH. reflexivity.
Qed.

(** C5 (as the code has it): the byte-reinterpretation step changes
    nothing.  For every action string, ASCII or not, [_js_like_base64]
    is base64 of the UTF-8 bytes, and the signature computed with the
    naive encoding is the signature the code computes. *)
Theorem js_like_base64_is_utf8_base64 (action : ustring) :
  _js_like_base64 action = naive_utf8_base64 action
  /\ forall sorted_payload timestamp_ms,
       _generate_signature sorted_payload action timestamp_ms
       = naive_signature sorted_payload action timestamp_ms.
Proof.
  assert (H : _js_like_base64 action = naive_utf8_base64 action).
  { unfold _js_like_base64, naive_utf8_base64.
    destruct (utf8_encode action) as [bs|]; [|reflexivity].
    rewrite latin1_round_trip. reflexivity. }
  split; [exact H|].
  intros sp ts. unfold _generate_signature, naive_signature.
  rewrite H. reflexivity.
Qed.

(** C5, counterexample: for the non-ASCII action "é" (U+00E9) the two
    encodings coincide, both are "w6k=". *)
Lemma js_like_base64_non_ascii_same :
  Exists (fun c => 128 <= c) [233]
  /\ naive_utf8_base64 [233] = _js_like_base64 [233]
  /\ option_map string_of_ustring (_js_like_base64 [233]) = Some "w6k="%string
  /\ naive_signature [] [233] 0 = _generate_signature [] [233] 0.
Proof.
  split; [constructor; lia|].
  split; [vm_compute; reflexivity|].
  split; vm_compute; reflexivity.
Qed.

(** *** Decimal texts and the window key *)

Lemma to_int_not_nil (z : Z) :
  Z.to_int z <> Decimal.Pos Decimal.Nil /\ Z.to_int z <> Decimal.Neg Decimal.Nil.
Proof.
  destruct z as [|p|p]; simpl; split; try discriminate;
    intros [= Hp]; exact (DecimalPos.Unsigned.to_uint_nonnil p Hp).
Qed.

Lemma str_int_inj (z1 z2 : Z) : str_int z1 = str_int z2 -> z1 = z2.
Proof.
  unfold str_int. intros Heq.
  apply DecimalZ.to_int_inj.
  destruct (to_int_not_nil z1) as [Hp1 Hn1], (to_int_not_nil z2) as [Hp2 Hn2].
  pose proof (NilZero.isi _ Hp1 Hn1) as H1.
  pose proof (NilZero.isi _ Hp2 Hn2) as H2.
  rewrite Heq in H1. congruence.
Qed.

Lemma generate_signature_window_key (sp action : ustring) (ts : Z) :
  _generate_signature sp action ts
  = (d_hex ← window_key ts;
     encoded ← _js_like_base64 action;
     key ← utf8_encode d_hex;
     msg ← utf8_encode (signed_string sp encoded ts);
     Some (hmac_hex key msg)).
Proof.
  unfold _generate_signature, window_key.
  destruct (utf8_encode (ustr SECRET)) as [secret|]; [|reflexivity].
  destruct (utf8_encode (ustr (str_int (window_index ts)))); reflexivity.
Qed.

(** *** The digits of a digest *)

Lemma hex_digit_in (n : N) : In (hex_digit n) hex_alphabet.
Proof.
  unfold hex_digit. apply nth_In.
  change (N.to_nat (n mod 16) < 16)%nat.
  assert (Hlt : n mod 16 < 16) by (apply N.mod_upper_bound; discriminate).
  lia.
Qed.

Lemma hex_digits_spec (k : nat) (n : N) :
  length (hex_digits k n) = k /\ Forall (fun c => In c hex_alphabet) (hex_digits k n).
Proof.
  induction k as [|k [IHl IHf]]; simpl; [split; [reflexivity|constructor]|].
  split; [f_equal; exact IHl|].
  constructor; [apply hex_digit_in|exact IHf].
Qed.

End ClientFacts.

(** ** The tool registry and the tools *)
Module ToolsFacts.
Import Tools.

Section Dispatch.
Context {Env : Type}.
Implicit Types (reg : ToolRegistry Env) (tool : BaseTool Env).

Lemma first_handler_spec (tools : list (BaseTool Env)) (message : string) :
  match first_handler tools message with
  | Some tool =>
      exists before after,
        tools = before ++ tool :: after
        /\ can_handle tool message = true
        /\ Forall (fun t => can_handle t message = false) before
  | None => Forall (fun t => can_handle t message = false) tools
  end.
Proof.
  induction tools as [|t tools IH]; simpl; [constructor|].
  destruct (can_handle t message) eqn:Ht.
  - exists [], tools. repeat split; [exact Ht|constructor].
  - destruct (first_handler tools message) as [tool|].
    + destruct IH as (before & after & -> & Hc & Hb).
      exists (t :: before), after. repeat split; [exact Hc|].
      constructor; assumption.
    + constructor; assumption.
Qed.

Lemma dict_set_fresh {V} (d : list (string * V)) (key : string) (value : V) :
  ~ In key (map fst d) -> dict_set d key value = d ++ [(key, value)].
Proof.
  induction d as [|[k v] d IH]; simpl; [reflexivity|].
  intros Hnot. destruct (String.eqb_spec k key) as [->|Hne].
  - exfalso. apply Hnot. left. reflexivity.
  - rewrite IH; [reflexivity|]. intros Hin. apply Hnot. right. exact Hin.
Qed.

Lemma register_fresh reg tool :
  enabled_registered reg ->
  ~ In (name tool) (keys reg) ->
  enabled_registered (register reg tool true)
  /\ keys (register reg tool true) = keys reg ++ [name tool]
  /\ get_enabled_tools (register reg tool true) = get_enabled_tools reg ++ [tool].
Proof.
  intros Hwf Hfresh.
  unfold enabled_registered, keys, get_enabled_tools, register in *. simpl.
  rewrite (dict_set_fresh _ _ _ Hfresh).
  split; [|split].
  - intros n Hn. rewrite map_app, in_app_iff. simpl.
    apply elem_of_union in Hn as [Hn|Hn].
    + apply elem_of_singleton in Hn. subst n. right. left. reflexivity.
    + left. apply Hwf. exact Hn.
  - rewrite map_app. reflexivity.
  - rewrite List.filter_app, map_app. simpl.
    rewrite bool_decide_eq_true_2 by (apply elem_of_union_l, elem_of_singleton; reflexivity).
    simpl. f_equal. f_equal.
    apply List.filter_ext_in. intros [k v] Hin. simpl.
    apply bool_decide_ext. split.
    + intros Hk. apply elem_of_union in Hk as [Hk|Hk]; [|exact Hk].
      apply elem_of_singleton in Hk. subst k. exfalso. apply Hfresh.
      apply in_map_iff. exists (name tool, v). split; [reflexivity|exact Hin].
    + intros Hk. apply elem_of_union_r. exact Hk.
Qed.

Lemma register_all_fresh (tools : list (BaseTool Env)) reg :
  enabled_registered reg ->
  List.NoDup (map name tools) ->
  (forall t, In t tools -> ~ In (name t) (keys reg)) ->
  get_enabled_tools (register_all reg tools) = get_enabled_tools reg ++ tools.
Proof.
  revert reg. induction tools as [|t tools IH]; intros reg Hwf Hnd Hfresh.
  - simpl. rewrite app_nil_r. reflexivity.
  - inversion Hnd as [|? ? Hnotin Hnd']; subst.
    destruct (register_fresh reg t Hwf) as (Hwf' & Hkeys & Hen).
    { apply Hfresh. left. reflexivity. }
    change (register_all reg (t :: tools))
      with (register_all (register reg t true) tools).
    rewrite IH; [|exact Hwf'|exact Hnd'|].
    + rewrite Hen, <- app_assoc. reflexivity.
    + intros t' Hin. rewrite Hkeys, in_app_iff. intros [Hk|[Hk|[]]].
      * revert Hk. apply Hfresh. right. exact Hin.
      * apply Hnotin. rewrite Hk. apply in_map. exact Hin.
Qed.

(** C8 (as the code has it): [execute_if_applicable] answers
    [(False, None)] and leaves the world alone when no enabled tool
    handles the message, and also when the tool found extracts [None]
    or the empty string; otherwise it runs that tool on the extracted
    request and answers [(True, result)].  The tool found is the first
    enabled tool, in the order of the registry, whose predicate holds,
    and tools registered one after the other under different names
    are tried in the order of their registration. *)
Theorem dispatch_contract reg (message : string) (context : option json)
    (env : Env) :
  match find_tool_for_message reg message with
  | None =>
      Forall (fun t => can_handle t message = false) (get_enabled_tools reg)
      /\ execute_if_applicable reg message context env = ((false, None), env)
  | Some tool =>
      (exists before after,
          get_enabled_tools reg = before ++ tool :: after
          /\ can_handle tool message = true
          /\ Forall (fun t => can_handle t message = false) before)
      /\ match extract_request tool message with
         | None =>
             execute_if_applicable reg message context env = ((false, None), env)
         | Some request =>
             if String.eqb request "" then
               execute_if_applicable reg message context env = ((false, None), env)
             else
               execute_if_applicable reg message context env
               = ((true, Some (fst (execute tool request context env))),
                  snd (execute tool request context env))
         end
  end
  /\ forall tools : list (BaseTool Env),
      List.NoDup (map name tools) ->
      get_enabled_tools (register_all empty_registry tools) = tools.
Proof.
  split.
  - unfold execute_if_applicable, find_tool_for_message.
    pose proof (first_handler_spec (get_enabled_tools reg) message) as Hspec.
    destruct (first_handler (get_enabled_tools reg) message) as [tool|].
    + split; [exact Hspec|].
      destruct (extract_request tool message) as [request|]; [|reflexivity].
      simpl. destruct (String.eqb request ""); simpl; [reflexivity|].
      destruct (execute tool request context env). reflexivity.
    + split; [exact Hspec|reflexivity].
  - intros tools Hnd.
    rewrite register_all_fresh; [reflexivity| |exact Hnd|].
    + intros n Hn. apply not_elem_of_empty in Hn. destruct Hn.
    + intros t _ [].
Qed.

End Dispatch.

(** The two tools are listed in the order of their registration. *)
Lemma dispatch_contract_witness :
  get_enabled_tools (register_all empty_registry [EchoTool.tool (Env := unit); Demo.loud])
  = [EchoTool.tool; Demo.loud].
Proof.
  apply (proj2 (dispatch_contract empty_registry "" None tt)).
  apply List.NoDup_cons; [simpl; intros [Heq|[]]; discriminate Heq|].
  apply List.NoDup_cons; [simpl; tauto|apply List.NoDup_nil].
Defined.

Example dispatch_first_registered :
  execute_if_applicable
    (register_all empty_registry [EchoTool.tool (Env := unit); Demo.loud])
    "say <echo> hi </echo>" None tt
  = ((true, Some (Tools.join nl ["TOOL_RESULT echo"; "request: hi"; "success: yes";
                                 "output:"; "ECHO: hi"]%string)), tt).
Proof. vm_compute. reflexivity. Qed.

(** C8, counterexample: for "<echo> </echo>" the echo tool's predicate
    holds and its extractor yields the empty string, not [None]; the
    tool is not executed all the same. *)
Lemma dispatch_empty_request_not_executed :
  let reg := register_all empty_registry [EchoTool.tool (Env := unit)] in
  option_map name (find_tool_for_message reg "<echo> </echo>") = Some "echo"%string
  /\ can_handle (EchoTool.tool (Env := unit)) "<echo> </echo>" = true
  /\ extract_request (EchoTool.tool (Env := unit)) "<echo> </echo>" = Some ""%string
  /\ execute_if_applicable reg "<echo> </echo>" None tt = ((false, None), tt).
Proof. vm_compute. auto. Qed.

End ToolsFacts.

(** ** Facts about text *)
Module TextFacts.
Import Tools.

Lemma prefix_app (p rest : string) : String.prefix p (p +:+ rest) = true.
Proof.
  induction p as [|c p IH]; [destruct rest; reflexivity|].
  change (String.prefix (String c p) (String c (p +:+ rest)) = true).
  cbn [String.prefix]. destruct (ascii_dec c c); [exact IH|contradiction].
Qed.

Lemma string_drop_app (p rest : string) :
  string_drop (String.length p) (p +:+ rest) = rest.
Proof.
  induction p as [|c p IH]; [destruct rest; reflexivity|exact IH].
Qed.

Lemma prefix_other (c x : ascii) (p s : string) :
  Ascii.eqb x c = false -> String.prefix (String c p) (String x s) = false.
Proof.
  intros Hx. cbn [String.prefix].
  destruct (ascii_dec c x) as [->|]; [|reflexivity].
  rewrite Ascii.eqb_refl in Hx. discriminate.
Qed.

(** The leftmost occurrence of a pattern lies behind a text that is
    free of the first character of the pattern. *)
Lemma split_at_free (c : ascii) (p before rest : string) :
  free_of c before = true ->
  split_at (String c p) (before +:+ String c p +:+ rest) = Some (before, rest).
Proof.
  induction before as [|x before IH]; intros Hfree.
  - change ("" +:+ String c p +:+ rest)%string with (String c p +:+ rest).
    pose proof (prefix_app (String c p) rest) as Hprefix.
    pose proof (string_drop_app (String c p) rest) as Hdrop.
    destruct (String c p +:+ rest) as [|y s] eqn:Hs; [discriminate Hprefix|].
    cbn [split_at]. rewrite Hprefix, Hdrop. reflexivity.
  - cbn [free_of] in Hfree. apply andb_prop in Hfree as [Hx Hbefore].
    apply negb_true_iff in Hx.
    change (String x before +:+ String c p +:+ rest)
      with (String x (before +:+ String c p +:+ rest)).
    cbn [split_at]. rewrite (prefix_other c x p _ Hx), (IH Hbefore). reflexivity.
Qed.

(** *** [str.strip] *)

Lemma lstrip_clean (s : string) : starts_clean (lstrip s).
Proof.
  induction s as [|c s IH]; [exact I|].
  cbn [lstrip]. destruct (is_space c) eqn:Hc; [exact IH|exact Hc].
Qed.

Lemma lstrip_fixed (s : string) : starts_clean s -> lstrip s = s.
Proof. destruct s as [|c s]; [reflexivity|]. cbn. intros ->. reflexivity. Qed.

Lemma rstrip_idem (s : string) : rstrip (rstrip s) = rstrip s.
Proof.
  induction s as [|c s IH]; [reflexivity|].
  cbn [rstrip]. destruct (rstrip s) as [|d kept] eqn:Hs.
  - destruct (is_space c) eqn:Hc; [reflexivity|].
    cbn [rstrip]. rewrite Hc. reflexivity.
  - cbn [rstrip]. cbn [rstrip] in IH. rewrite IH. reflexivity.
Qed.

Lemma rstrip_clean (s : string) : starts_clean s -> starts_clean (rstrip s).
Proof.
  destruct s as [|c s]; [trivial|]. cbn [starts_clean rstrip]. intros Hc.
  destruct (rstrip s); [rewrite Hc|]; exact Hc.
Qed.

Lemma strip_idem (s : string) : strip (strip s) = strip s.
Proof.
  unfold strip. rewrite (lstrip_fixed (rstrip (lstrip s))).
  - apply rstrip_idem.
  - apply rstrip_clean, lstrip_clean.
Qed.


Lemma length_string_app (a b : string) :
  String.length (a +:+ b) = (String.length a + String.length b)%nat.
Proof.
  induction a as [|c a IH]; [reflexivity|].
  change (S (String.length (a +:+ b)) = S (String.length a + String.length b)).
  f_equal. exact IH.
Qed.

Lemma length_string_of_list (l : list ascii) :
  String.length (string_of_list_ascii l) = length l.
Proof. induction l as [|c l IH]; [reflexivity|]. cbn. f_equal. exact IH. Qed.


End TextFacts.

(** ** The report tool *)
Module ReportFacts.
Import Tools Tools.ReportTool.

Example padded_7 : padded 7 = "007"%string /\ format_03d 7 = Returns "007"%string.
Proof. split; reflexivity. Qed.

Example padded_1000 :
  padded 1000 = "1000"%string /\ format_03d 1000 = Returns "1000"%string.
Proof. split; reflexivity. Qed.

Example findall_resumes_after_match :
  findall "### ID: 12### ID: 3 #### ID: 45x### ID: ### ID: 6"
  = ["12"; "3"; "45"; "6"]%string.
Proof. reflexivity. Qed.




(** *** The value of a decimal text *)
















(** *** What the scan finds in an entry *)








(** *** The conversions and their limit *)










(** *** What [execute] writes *)






End ReportFacts.

(** ** The loop *)

Module CliFacts.
Import State Client Tools Cli.

Lemma set_progress_same (s : ChatState) :
  set_progress s (current_assistant_content s) (current_user_message_parent_id s) = s.
Proof. destruct s. reflexivity. Qed.

Lemma string_app_nil_r (s : string) : s +:+ "" = s.
Proof.
  induction s as [|c s IH]; [reflexivity|].
  change (String c (s +:+ "") = String c s). f_equal. exact IH.
Qed.

Lemma string_app_assoc (a b c : string) : (a +:+ b) +:+ c = a +:+ b +:+ c.
Proof.
  induction a as [|x a IH]; [reflexivity|].
  change (String x ((a +:+ b) +:+ c) = String x (a +:+ b +:+ c)). f_equal. exact IH.
Qed.

Section Loop.
Context {Env : Type} {ext : Externals} {remote : Remote}.
Implicit Types (w : World Env) (event : json).

(** *** The primitives of the loop, on a turn in progress *)

Lemma advance_start w :
  w = advance w (current_assistant_content (state w))
                (current_user_message_parent_id (state w)) [].
Proof.
  destruct w as [s r e q o]. unfold advance. simpl.
  rewrite app_nil_r, set_progress_same. reflexivity.
Qed.

Lemma modify_finish w c p out :
  modify finish_turn (advance w c p out)
  = (Ok tt, advance w c (current_assistant_message_id (state w)) out).
Proof. reflexivity. Qed.

Lemma modify_apply w c p out d :
  modify (fun s => apply_assistant_delta s d) (advance w c p out)
  = (Ok tt, advance w (c +:+ d) p out).
Proof. reflexivity. Qed.

Lemma print_advance w c p out items :
  print items (advance w c p out) = (Ok tt, advance w c p (out ++ items)).
Proof. unfold print, advance. simpl. rewrite app_assoc. reflexivity. Qed.

Lemma print_thinking_advance (delta : json) (color : string) w c p out :
  _print_thinking delta color (advance w c p out)
  = (Ok tt, advance w c p (out ++ thinking_text color delta)).
Proof.
  unfold _print_thinking, thinking_text.
  destruct (String.eqb color "gray"); apply print_advance.
Qed.

(** *** One event *)

(** [handle_event] does to a turn in progress what the verdict on the
    event says. *)
Lemma handle_event_verdict event w c p out :
  handle_event event (advance w c p out)
  = match verdict_of (runtime_show_thinking (state w)) event with
    | Fails e => (Raise e, advance w c p out)
    | Skips => (Ok tt, advance w c p out)
    | Thinks delta =>
        (Ok tt, advance w c (closing w event p)
                  (out ++ thinking_text (runtime_thinking_color (state w)) delta))
    | Appends d =>
        (Ok tt, advance w (c +:+ d) (closing w event p) (out ++ [Text d]))
    end.
Proof.
  unfold handle_event, verdict_of, closing, terminal, delta_of.
  destruct event as [| | | |items|fields]; try reflexivity.
  unfold bind at 1. cbn [lift py_get].
  destruct (eq_str (default JNull (dict_get fields "type")) "chat:completion");
    [|reflexivity].
  cbn [negb]. unfold bind at 1. cbn [lift py_get].
  destruct (default (JObj []) (dict_get fields "data")) as [| | | | |data];
    try reflexivity.
  unfold bind at 1. cbn [lift py_get].
  destruct (truthy (default JNull (dict_get data "delta_content"))); [|reflexivity].
  cbn [negb]. unfold bind at 1. cbn [lift py_get]. unfold bind at 1. cbn [gets].
  change (runtime_show_thinking (state (advance w c p out)))
    with (runtime_show_thinking (state w)).
  destruct (eq_str (default (JStr "answer") (dict_get data "phase")) "thinking"
            && runtime_show_thinking (state w)).
  - unfold bind at 1. unfold bind at 1. cbn [gets].
    change (runtime_thinking_color (state (advance w c p out)))
      with (runtime_thinking_color (state w)).
    rewrite print_thinking_advance.
    unfold bind, lift, py_get.
    destruct (eq_str _ "done" || is_True _); reflexivity.
  - unfold bind at 1. unfold apply_delta.
    destruct (default JNull (dict_get data "delta_content")) as [| | |d| |];
      try reflexivity.
    unfold bind at 1. rewrite modify_apply, print_advance.
    unfold bind, lift, py_get.
    destruct (eq_str _ "done" || is_True _); reflexivity.
Qed.

Lemma closing_cases w event (p : option string) :
  closing w event p = p \/ closing w event p = current_assistant_message_id (state w).
Proof. unfold closing. destruct (terminal event); auto. Qed.

(** *** A stream of events *)

Lemma for_each_advance (events : list json) w c p out :
  exists r c' p' out',
    for_each events handle_event (advance w c p out) = (r, advance w c' p' out')
    /\ (p' = p \/ p' = current_assistant_message_id (state w))
    /\ (forallb (well_formed (runtime_show_thinking (state w))) events = true ->
        r = Ok tt)
    /\ (r = Ok tt ->
        c' = c +:+ collected (runtime_show_thinking (state w)) events).
Proof.
  revert c p out. induction events as [|event events IH]; intros c p out.
  - exists (Ok tt), c, p, out. rewrite string_app_nil_r. auto.
  - cbn [for_each forallb collected fold_right]. unfold bind.
    rewrite handle_event_verdict. unfold well_formed at 1, appended_text at 1.
    destruct (verdict_of (runtime_show_thinking (state w)) event) as [e| |delta|d].
    + exists (Raise e), c, p, out.
      split; [reflexivity|]. split; [left; reflexivity|]. split; discriminate.
    + destruct (IH c p out) as (r & c' & p' & out' & Hrun & Hp & Hok & Hc).
      exists r, c', p', out'. auto.
    + destruct (IH c (closing w event p)
                  (out ++ thinking_text (runtime_thinking_color (state w)) delta))
        as (r & c' & p' & out' & Hrun & Hp & Hok & Hc).
      exists r, c', p', out'. split; [exact Hrun|]. split; [|auto].
      destruct Hp as [-> | ->]; [apply closing_cases|right; reflexivity].
    + destruct (IH (c +:+ d) (closing w event p) (out ++ [Text d]))
        as (r & c' & p' & out' & Hrun & Hp & Hok & Hc).
      exists r, c', p', out'. split; [exact Hrun|]. split; [|split; [exact Hok|]].
      * destruct Hp as [-> | ->]; [apply closing_cases|right; reflexivity].
      * intros Hr. rewrite (Hc Hr). apply string_app_assoc.
Qed.

(** *** A turn *)

(** What [_stream_current_turn] leaves behind, whether it returns or
    raises: only the content and the parent link of the state change; a
    payload that could be built has been sent; and if the call returns,
    [finish_turn] has set the parent link and the content is what the
    events received have added. *)
Lemma stream_current_turn_inv (prompt : string) w r w' :
  _stream_current_turn prompt w = (r, w') ->
  exists c p,
    state w' = set_progress (state w) c p
    /\ registry w' = registry w
    /\ env w' = env w
    /\ (r = Ok tt -> p = current_assistant_message_id (state w))
    /\ ((exists e,
            build_completion_payload (state w) prompt
              (localtime (length (requests w))) = Raise e
            /\ r = Raise e /\ requests w' = requests w)
        \/ exists payload,
             build_completion_payload (state w) prompt
               (localtime (length (requests w))) = Ok payload
             /\ requests w' = requests w ++ [payload]
             /\ forall status lines dropped,
                  server (length (requests w)) payload = Answer status lines dropped ->
                  raise_for_status status = Ok tt ->
                  (forallb (well_formed (runtime_show_thinking (state w)))
                           (omap decode_line lines) = true -> r = Ok tt)
                  /\ (r = Ok tt ->
                      c = current_assistant_content (state w)
                          +:+ collected (runtime_show_thinking (state w))
                                        (omap decode_line lines))).
Proof.
  unfold _stream_current_turn. unfold bind at 1. unfold build_payload.
  destruct (build_completion_payload _ _ _) as [payload|e] eqn:Hbuild.
  - unfold bind at 1. unfold send. fold (sent w payload).
    destruct (stream_completion _) as [events|e] eqn:Hstream.
    + destruct (for_each_advance events (sent w payload)
                  (current_assistant_content (state (sent w payload)))
                  (current_user_message_parent_id (state (sent w payload))) [])
        as (r1 & c & p & out & Hrun & _ & Hok & Hc).
      rewrite <- advance_start in Hrun. unfold bind at 1. rewrite Hrun.
      assert (Hanswer : forall status lines dropped,
                 server (length (requests w)) payload = Answer status lines dropped ->
                 raise_for_status status = Ok tt ->
                 events = omap decode_line lines).
      { intros status lines dropped Hserver Hstatus.
        rewrite Hserver in Hstream. unfold stream_completion in Hstream.
        rewrite Hstatus in Hstream. destruct dropped; congruence. }
      destruct r1 as [[]|e].
      * unfold bind at 1. rewrite modify_finish, print_advance.
        intros [= <- <-]. eexists c, _.
        split; [reflexivity|]. split; [reflexivity|]. split; [reflexivity|].
        split; [reflexivity|]. right. exists payload.
        split; [reflexivity|]. split; [reflexivity|].
        intros status lines dropped Hserver Hstatus.
        rewrite <- (Hanswer _ _ _ Hserver Hstatus). auto.
      * intros [= <- <-]. exists c, p.
        split; [reflexivity|]. split; [reflexivity|]. split; [reflexivity|].
        split; [discriminate|]. right. exists payload.
        split; [reflexivity|]. split; [reflexivity|].
        intros status lines dropped Hserver Hstatus.
        rewrite <- (Hanswer _ _ _ Hserver Hstatus).
        split; [exact Hok|discriminate].
    + intros [= <- <-].
      exists (current_assistant_content (state w)),
             (current_user_message_parent_id (state w)).
      split; [symmetry; apply set_progress_same|].
      split; [reflexivity|]. split; [reflexivity|]. split; [discriminate|].
      right. exists payload. split; [reflexivity|]. split; [reflexivity|].
      intros status lines dropped Hserver Hstatus.
      rewrite Hserver in Hstream. unfold stream_completion in Hstream.
      rewrite Hstatus in Hstream. destruct dropped; discriminate.
  - intros [= <- <-].
    exists (current_assistant_content (state w)),
           (current_user_message_parent_id (state w)).
    split; [symmetry; apply set_progress_same|].
    split; [reflexivity|]. split; [reflexivity|]. split; [discriminate|].
    left. exists e. auto.
Qed.

(** [_run_turn] is [begin_turn] followed by [_stream_current_turn]. *)
Lemma run_turn_begin (prompt : string) w :
  _run_turn prompt w
  = _stream_current_turn prompt
      {| state := snd (begin_turn (state w) prompt); registry := registry w;
         env := env w; requests := requests w; stdout := stdout w |}.
Proof. reflexivity. Qed.

Lemma run_turn_inv (prompt : string) w r w' :
  _run_turn prompt w = (r, w') ->
  let s1 := snd (begin_turn (state w) prompt) in
  exists c p,
    state w' = set_progress s1 c p
    /\ registry w' = registry w
    /\ env w' = env w
    /\ (r = Ok tt -> p = current_assistant_message_id s1)
    /\ ((r <> Ok tt /\ requests w' = requests w)
        \/ exists payload,
             build_completion_payload s1 prompt (localtime (length (requests w)))
               = Ok payload
             /\ requests w' = requests w ++ [payload]).
Proof.
  rewrite run_turn_begin. intros Hrun s1.
  destruct (stream_current_turn_inv _ _ _ _ Hrun)
    as (c & p & Hstate & Hreg & Henv & Hp & Hreq).
  exists c, p. split; [exact Hstate|]. split; [exact Hreg|]. split; [exact Henv|].
  split; [exact Hp|].
  destruct Hreq as [(e & _ & -> & Hnone) | (payload & Hbuild & Hsent & _)].
  - left. split; [discriminate|exact Hnone].
  - right. exists payload. split; assumption.
Qed.

Lemma response_ok_inv (show : bool) (resp : Response) :
  response_ok show resp = true ->
  exists status lines dropped,
    resp = Answer status lines dropped
    /\ raise_for_status status = Ok tt
    /\ forallb (well_formed show) (omap decode_line lines) = true.
Proof.
  destruct resp as [|status lines dropped]; [discriminate|]. simpl.
  destruct (raise_for_status status) as [[]|] eqn:Hstatus; [|discriminate].
  intros Hwf. exists status, lines, dropped. auto.
Qed.

Lemma healthy_state w w' :
  chat_id (state w') = chat_id (state w) ->
  features (state w') = features (state w) ->
  _uuid_factory (state w') = _uuid_factory (state w) ->
  runtime_show_thinking (state w') = runtime_show_thinking (state w) ->
  healthy w -> healthy w'.
Proof. unfold healthy, _feature_value. intros -> -> -> ->. auto. Qed.

(** A turn in a healthy world completes. *)
Lemma run_turn_healthy (prompt : string) w :
  healthy w ->
  exists w' payload status lines dropped,
    _run_turn prompt w = (Ok tt, w')
    /\ healthy w'
    /\ requests w' = requests w ++ [payload]
    /\ server (length (requests w)) payload = Answer status lines dropped
    /\ current_assistant_content (state w')
       = collected (runtime_show_thinking (state w)) (omap decode_line lines).
Proof.
  intros Hw. pose proof Hw as (Hchat & Hflags & Hfactory & Hserver).
  destruct (StateFacts.build_after_begin_turn (state w) prompt prompt
              (localtime (length (requests w))) Hchat Hflags
              (Hfactory _) (Hfactory _))
    as (payload & Hpayload & _).
  destruct (response_ok_inv _ _ (Hserver (length (requests w)) payload))
    as (status & lines & dropped & Hresp & Hstatus & Hwf).
  destruct (_run_turn prompt w) as [r w'] eqn:Hrun.
  pose proof Hrun as Hinv. rewrite run_turn_begin in Hinv.
  apply stream_current_turn_inv in Hinv
    as (c & p & Hstate & _ & _ & _
        & [(e & Hbad & _) | (payload' & Hbuild & Hreq & Hanswer)]).
  - cbn [state requests] in Hbad. congruence.
  - cbn [state requests] in *. rewrite Hpayload in Hbuild. injection Hbuild as <-.
    destruct (Hanswer _ _ _ Hresp Hstatus) as [Hok Hc].
    specialize (Hok Hwf). subst r. exists w', payload, status, lines, dropped.
    split; [reflexivity|].
    split; [revert Hw; apply healthy_state; rewrite Hstate; reflexivity|].
    split; [exact Hreq|]. split; [exact Hresp|].
    rewrite Hstate, (Hc eq_refl). reflexivity.
Qed.

(** *** Thinking deltas *)

Lemma verdict_of_delta (show : bool) event (delta phase : json) :
  delta_of event = Some (delta, phase) ->
  verdict_of show event
  = if eq_str phase "thinking" && show then Thinks delta
    else match delta with
         | JStr d => Appends d
         | _ => Fails TypeError
         end.
Proof.
  unfold verdict_of. intros Hdelta. rewrite Hdelta.
  unfold delta_of in Hdelta. destruct event as [| | | | |fields]; try discriminate.
  destruct (eq_str _ "chat:completion"); [|discriminate].
  destruct (default (JObj []) (dict_get fields "data")); try discriminate.
  reflexivity.
Qed.

Lemma verdict_of_no_delta (show : bool) event :
  delta_of event = None ->
  verdict_of show event = Skips \/ verdict_of show event = Fails AttributeError.
Proof.
  unfold verdict_of. intros Hdelta. rewrite Hdelta.
  destruct event as [| | | | |fields]; auto.
  destruct (eq_str _ "chat:completion"); auto.
  destruct (default (JObj []) (dict_get fields "data")); auto.
Qed.

Lemma appended_text_thinking event :
  is_thinking event = true -> appended_text true event = ""%string.
Proof.
  unfold is_thinking, appended_text.
  destruct (delta_of event) as [[delta phase]|] eqn:Hdelta; [|discriminate].
  intros Hphase. rewrite (verdict_of_delta _ _ _ _ Hdelta), Hphase. reflexivity.
Qed.

Lemma collected_without_thinking (events : list json) :
  collected true events
  = collected true (List.filter (fun event => negb (is_thinking event)) events).
Proof.
  induction events as [|event events IH]; [reflexivity|].
  cbn [collected fold_right List.filter].
  destruct (is_thinking event) eqn:Hthinking; cbn [negb].
  - rewrite (appended_text_thinking _ Hthinking). exact IH.
  - cbn [collected fold_right]. f_equal. exact IH.
Qed.

(** C3 (as the code has it): with [runtime_show_thinking] on, an event
    whose phase is "thinking" has its delta displayed and the accumulated
    content is left as it was; the content changes only for an event
    whose phase is not "thinking", and then by that event's delta
    appended at the end; so after a stream of events the content is what
    it would be had the thinking events not been in the stream. *)
Theorem thinking_delta_never_appended event w :
  runtime_show_thinking (state w) = true ->
  (forall delta,
      delta_of event = Some (delta, JStr "thinking") ->
      exists w',
        handle_event event w = (Ok tt, w')
        /\ current_assistant_content (state w') = current_assistant_content (state w)
        /\ stdout w'
           = stdout w ++ thinking_text (runtime_thinking_color (state w)) delta)
  /\ (forall r w',
        handle_event event w = (r, w') ->
        current_assistant_content (state w') <> current_assistant_content (state w) ->
        exists d phase,
          delta_of event = Some (JStr d, phase)
          /\ eq_str phase "thinking" = false
          /\ current_assistant_content (state w')
             = current_assistant_content (state w) +:+ d)
  /\ (forall events w',
        for_each events handle_event w = (Ok tt, w') ->
        current_assistant_content (state w')
        = current_assistant_content (state w)
          +:+ collected true
                (List.filter (fun event => negb (is_thinking event)) events)).
Proof.
  intros Hshow.
  pose proof (handle_event_verdict event w (current_assistant_content (state w))
                (current_user_message_parent_id (state w)) []) as Hrun.
  rewrite <- advance_start, Hshow in Hrun. split; [|split].
  - intros delta Hdelta.
    rewrite (verdict_of_delta _ _ _ _ Hdelta) in Hrun. cbn in Hrun.
    eexists. split; [exact Hrun|]. split; reflexivity.
  - intros r w' Hrun' Hne. rewrite Hrun in Hrun'.
    destruct (delta_of event) as [[delta phase]|] eqn:Hdelta.
    + rewrite (verdict_of_delta _ _ _ _ Hdelta), andb_true_r in Hrun'.
      destruct (eq_str phase "thinking") eqn:Hphase;
        [injection Hrun' as <- <-; contradiction|].
      destruct delta as [| | |d| |]; try (injection Hrun' as <- <-; contradiction).
      injection Hrun' as <- <-. exists d, phase. auto.
    + destruct (verdict_of_no_delta true event Hdelta) as [Hv|Hv];
        rewrite Hv in Hrun'; injection Hrun' as <- <-; contradiction.
  - intros events w' Hstream.
    destruct (for_each_advance events w (current_assistant_content (state w))
                (current_user_message_parent_id (state w)) [])
      as (r & c & p & out & Hrun' & _ & _ & Hc).
    rewrite <- advance_start, Hstream in Hrun'. injection Hrun' as <- ->.
    rewrite Hshow in Hc. cbn. rewrite (Hc eq_refl).
    f_equal. apply collected_without_thinking.
Qed.

(** The statuses [raise_for_status] rejects are those from 400 to 599. *)
Lemma raise_for_status_cases (status : Z) :
  ((400 <= status < 600)%Z -> raise_for_status status = Raise (HTTPError status))
  /\ ((status < 400 \/ 600 <= status)%Z -> raise_for_status status = Ok tt).
Proof.
  unfold raise_for_status. split; intros Hstatus.
  - replace (400 <=? status)%Z with true by (symmetry; apply Z.leb_le; lia).
    replace (status <? 600)%Z with true by (symmetry; apply Z.ltb_lt; lia).
    reflexivity.
  - destruct Hstatus as [Hlow | Hhigh].
    + replace (400 <=? status)%Z with false by (symmetry; apply Z.leb_gt; lia).
      reflexivity.
    + replace (status <? 600)%Z with false by (symmetry; apply Z.ltb_ge; lia).
      rewrite andb_false_r. reflexivity.
Qed.

(** A response that makes [stream_completion] raise ends the turn right
    after the request: nothing is printed and the state is untouched. *)
Lemma stream_current_turn_raises (prompt : string) w payload (e : exn) :
  build_completion_payload (state w) prompt (localtime (length (requests w)))
    = Ok payload ->
  stream_completion (server (length (requests w)) payload) = Raise e ->
  _stream_current_turn prompt w = (Raise e, sent w payload).
Proof.
  intros Hbuild Hraise. unfold _stream_current_turn, bind, build_payload.
  rewrite Hbuild. unfold send. rewrite Hraise. reflexivity.
Qed.

(** An exception of the first turn leaves the tool loops. *)
Lemma first_turn_exception_propagates (prompt : string) (max_iterations : Z)
    w w' (e : exn) :
  _run_turn prompt w = (Raise e, w') ->
  _run_turn_with_tools prompt max_iterations w = (Raise e, w')
  /\ run_prompt prompt max_iterations w = (Raise e, w').
Proof.
  intros Hrun. unfold _run_turn_with_tools, run_prompt, bind. rewrite Hrun.
  split; reflexivity.
Qed.

(** C4 (as the code has it): when the connection breaks while the
    response is being read, the event sequence ends there without an
    exception, as it does when the connection closes; with well-formed
    events the turn returns, the content accumulated from the lines
    received is kept, and [finish_turn] has set the parent link.  When
    the connection cannot be made, or the response has a status from
    400 to 599, the call raises before any event is consumed: the turn
    ends with that exception, the request sent, nothing printed and the
    state as it was, so [finish_turn] has not run; and the exception
    leaves [_run_turn], which has called [begin_turn] before, and the
    tool loops.  Every other status, 2xx or not, is accepted. *)
Theorem midstream_failure_ends_turn_quietly (prompt : string) w payload :
  build_completion_payload (state w) prompt (localtime (length (requests w)))
    = Ok payload ->
  (forall status lines,
      server (length (requests w)) payload = Answer status lines true ->
      raise_for_status status = Ok tt ->
      forallb (well_formed (runtime_show_thinking (state w)))
              (omap decode_line lines) = true ->
      stream_completion (Answer status lines true) = Ok (omap decode_line lines)
      /\ stream_completion (Answer status lines true)
         = stream_completion (Answer status lines false)
      /\ exists w',
          _stream_current_turn prompt w = (Ok tt, w')
          /\ current_assistant_content (state w')
             = current_assistant_content (state w)
               +:+ collected (runtime_show_thinking (state w))
                             (omap decode_line lines)
          /\ current_user_message_parent_id (state w')
             = current_assistant_message_id (state w))
  /\ (server (length (requests w)) payload = Unreachable ->
      exists w',
        _stream_current_turn prompt w = (Raise ConnectionError, w')
        /\ state w' = state w
        /\ stdout w' = stdout w
        /\ requests w' = requests w ++ [payload])
  /\ (forall status lines dropped,
        server (length (requests w)) payload = Answer status lines dropped ->
        (400 <= status < 600)%Z ->
        exists w',
          _stream_current_turn prompt w = (Raise (HTTPError status), w')
          /\ state w' = state w
          /\ stdout w' = stdout w
          /\ requests w' = requests w ++ [payload])
  /\ (forall status, (status < 400 \/ 600 <= status)%Z ->
        raise_for_status status = Ok tt)
  /\ (forall prompt0 max_iterations w0 w' e,
        _stream_current_turn prompt0
          {| state := snd (begin_turn (state w0) prompt0);
             registry := registry w0; env := env w0;
             requests := requests w0; stdout := stdout w0 |}
        = (Raise e, w') ->
        _run_turn prompt0 w0 = (Raise e, w')
        /\ _run_turn_with_tools prompt0 max_iterations w0 = (Raise e, w')
        /\ run_prompt prompt0 max_iterations w0 = (Raise e, w')).
Proof.
  intros Hbuild. split; [|split; [|split; [|split]]].
  - intros status lines Hserver Hstatus Hwf.
    split; [unfold stream_completion; rewrite Hstatus; reflexivity|].
    split; [reflexivity|].
    destruct (_stream_current_turn prompt w) as [r w'] eqn:Hrun.
    destruct (stream_current_turn_inv _ _ _ _ Hrun)
      as (c & p & Hstate & _ & _ & Hp
          & [(e & Hbad & _) | (payload' & Hbuild' & _ & Hanswer)]); [congruence|].
    rewrite Hbuild in Hbuild'. injection Hbuild' as <-.
    destruct (Hanswer _ _ _ Hserver Hstatus) as [Hok Hc].
    specialize (Hok Hwf). subst r. exists w'. split; [reflexivity|].
    rewrite Hstate, (Hc eq_refl), (Hp eq_refl). split; reflexivity.
  - intros Hserver. exists (sent w payload).
    split; [|repeat split].
    apply stream_current_turn_raises; [exact Hbuild|].
    rewrite Hserver. reflexivity.
  - intros status lines dropped Hserver Hstatus. exists (sent w payload).
    split; [|repeat split].
    apply stream_current_turn_raises; [exact Hbuild|].
    rewrite Hserver. unfold stream_completion.
    rewrite (proj1 (raise_for_status_cases status) Hstatus). reflexivity.
  - intros status. apply raise_for_status_cases.
  - intros prompt0 max_iterations w0 w' e Hstream.
    rewrite <- run_turn_begin in Hstream. split; [exact Hstream|].
    apply first_turn_exception_propagates, Hstream.
Qed.

(** C1: [finish_turn] followed by [begin_turn] leaves as parent link the
    assistant-message identifier of the turn that was finished.  A turn
    that returns has called [finish_turn], terminal event or not, so that
    its parent link is the identifier its [begin_turn] allocated;
    [begin_turn] of the next turn keeps it and the completion payload of
    the next turn carries it.  In a healthy world every turn returns,
    whatever events its stream held and whether its connection closed or
    broke, and the link is threaded from each turn to the next. *)
Theorem parent_link_threading (prompt1 prompt2 : string) w :
  let assistant_id := snd (fst (begin_turn (state w) prompt1)) in
  (forall content parent,
      current_user_message_parent_id
        (snd (begin_turn
                (finish_turn
                   (set_progress (snd (begin_turn (state w) prompt1)) content parent))
                prompt2))
      = Some assistant_id)
  /\ (forall w1,
        _run_turn prompt1 w = (Ok tt, w1) ->
        current_user_message_parent_id (state w1) = Some assistant_id
        /\ current_user_message_parent_id (snd (begin_turn (state w1) prompt2))
           = Some assistant_id
        /\ forall r w2 payload2,
             _run_turn prompt2 w1 = (r, w2) ->
             requests w2 = requests w1 ++ [payload2] ->
             p_current_user_message_parent_id payload2 = Some assistant_id)
  /\ (healthy w ->
      exists w1 w2 payload1 payload2,
        _run_turn prompt1 w = (Ok tt, w1)
        /\ _run_turn prompt2 w1 = (Ok tt, w2)
        /\ requests w2 = requests w ++ [payload1; payload2]
        /\ p_id payload1 = Some assistant_id
        /\ p_current_user_message_parent_id payload2 = Some assistant_id).
Proof.
  intros assistant_id.
  assert (Hone : forall w1,
             _run_turn prompt1 w = (Ok tt, w1) ->
             current_user_message_parent_id (state w1) = Some assistant_id
             /\ current_user_message_parent_id (snd (begin_turn (state w1) prompt2))
                = Some assistant_id
             /\ forall r w2 payload2,
                  _run_turn prompt2 w1 = (r, w2) ->
                  requests w2 = requests w1 ++ [payload2] ->
                  p_current_user_message_parent_id payload2 = Some assistant_id).
  { intros w1 Hrun1.
    destruct (run_turn_inv _ _ _ _ Hrun1) as (c & p & Hstate1 & _ & _ & Hp & _).
    rewrite (Hp eq_refl) in Hstate1.
    assert (Hparent : current_user_message_parent_id (state w1) = Some assistant_id)
      by (rewrite Hstate1; reflexivity).
    split; [exact Hparent|]. split; [exact Hparent|].
    intros r w2 payload2 Hrun2 Hreq2.
    destruct (run_turn_inv _ _ _ _ Hrun2)
      as (_ & _ & _ & _ & _ & _ & [[_ Hsame] | (payload & Hbuild & Hreq)]).
    - rewrite Hsame in Hreq2. apply (f_equal (@length _)) in Hreq2.
      rewrite length_app in Hreq2. simpl in Hreq2. lia.
    - rewrite Hreq in Hreq2. apply app_inv_head in Hreq2. injection Hreq2 as <-.
      apply StateFacts.build_ok_fields in Hbuild as (_ & _ & -> & _).
      exact Hparent. }
  split; [reflexivity|]. split; [exact Hone|].
  intros Hw.
  destruct (run_turn_healthy prompt1 w Hw)
    as (w1 & payload1 & ? & ? & ? & Hrun1 & Hw1 & Hreq1 & _).
  destruct (run_turn_healthy prompt2 w1 Hw1)
    as (w2 & payload2 & ? & ? & ? & Hrun2 & _ & Hreq2 & _).
  exists w1, w2, payload1, payload2.
  split; [exact Hrun1|]. split; [exact Hrun2|].
  split; [rewrite Hreq2, Hreq1, <- app_assoc; reflexivity|].
  destruct (Hone w1 Hrun1) as (_ & _ & Hpayload2).
  split; [|exact (Hpayload2 _ _ _ Hrun2 Hreq2)].
  destruct (run_turn_inv _ _ _ _ Hrun1)
    as (_ & _ & _ & _ & _ & _ & [[Hbad _] | (payload & Hbuild & Hreq)]);
    [contradiction|].
  rewrite Hreq in Hreq1. apply app_inv_head in Hreq1. injection Hreq1 as <-.
  apply StateFacts.build_ok_fields in Hbuild as (-> & _). reflexivity.
Qed.

(** *** The tool loop *)

(** A turn begins once and sends at most one request. *)
Lemma run_turn_counts (prompt : string) w r w' :
  _run_turn prompt w = (r, w') ->
  _uuid_calls (state w') = S (S (_uuid_calls (state w)))
  /\ (length (requests w') <= S (length (requests w)))%nat.
Proof.
  intros Hrun.
  destruct (run_turn_inv _ _ _ _ Hrun)
    as (c & p & -> & _ & _ & _ & [[_ ->] | (payload & _ & ->)]).
  - split; [reflexivity|lia].
  - split; [reflexivity|]. rewrite length_app. simpl. lia.
Qed.

Lemma dispatch_frame w :
  exists answer w',
    dispatch w = (Ok answer, w')
    /\ state w' = state w /\ requests w' = requests w.
Proof.
  unfold dispatch. destruct (execute_if_applicable _ _ _ _) as [answer env'].
  exists answer. eexists. split; [reflexivity|]. split; reflexivity.
Qed.

Lemma tool_iterations_counts (n : nat) w r w' :
  tool_iterations n w = (r, w') ->
  (_uuid_calls (state w') <= _uuid_calls (state w) + 2 * n)%nat
  /\ (length (requests w') <= length (requests w) + n)%nat.
Proof.
  revert w. induction n as [|n IH]; intros w.
  - intros [= _ <-]. lia.
  - cbn [tool_iterations]. unfold bind at 1.
    destruct (dispatch_frame w) as ([executed result] & w1 & -> & Hs1 & Hreq1).
    rewrite <- Hs1, <- Hreq1. clear Hs1 Hreq1.
    destruct executed; cbn [negb]; [|intros [= _ <-]; lia].
    unfold bind at 1.
    destruct (_run_turn _ w1) as [[[]|e] w2] eqn:Hturn;
      apply run_turn_counts in Hturn as [Hcalls Hreq].
    + intros Hrest. apply IH in Hrest. lia.
    + intros [= _ <-]. lia.
Qed.

Lemma run_tool_iterations_counts (n : nat) (i max_iterations : Z) w r w' :
  run_tool_iterations i n max_iterations w = (r, w') ->
  (_uuid_calls (state w') <= _uuid_calls (state w) + 2 * n)%nat
  /\ (length (requests w') <= length (requests w) + n)%nat.
Proof.
  revert i w. induction n as [|n IH]; intros i w.
  - intros [= _ <-]. lia.
  - cbn [run_tool_iterations]. unfold bind at 1.
    destruct (dispatch_frame w) as ([executed result] & w1 & -> & Hs1 & Hreq1).
    rewrite <- Hs1, <- Hreq1. clear Hs1 Hreq1.
    destruct executed; cbn [negb]; [|intros [= _ <-]; lia].
    unfold bind at 1. cbn [print]. unfold bind at 1.
    match goal with
    | |- context [_run_turn ?pr ?w0] =>
        destruct (_run_turn pr w0) as [[[]|e] w2] eqn:Hturn
    end; apply run_turn_counts in Hturn as [Hcalls Hreq]; cbn in Hcalls, Hreq.
    + intros Hrest. apply IH in Hrest. lia.
    + intros [= _ <-]. lia.
Qed.

Lemma tool_iterations_healthy (n : nat) w :
  healthy w -> exists w', tool_iterations n w = (Ok tt, w') /\ healthy w'.
Proof.
  revert w. induction n as [|n IH]; intros w Hw.
  - exists w. split; [reflexivity|exact Hw].
  - cbn [tool_iterations]. unfold bind at 1.
    destruct (dispatch_frame w) as ([executed result] & w1 & -> & Hs1 & _).
    assert (Hw1 : healthy w1)
      by (revert Hw; apply healthy_state; rewrite Hs1; reflexivity).
    destruct executed; cbn [negb]; [|exists w1; split; [reflexivity|exact Hw1]].
    unfold bind at 1.
    destruct (run_turn_healthy (default ""%string result) w1 Hw1)
      as (w2 & ? & ? & ? & ? & -> & Hw2 & _).
    apply IH, Hw2.
Qed.

Lemma run_tool_iterations_healthy (n : nat) (i max_iterations : Z) w :
  healthy w ->
  exists w', run_tool_iterations i n max_iterations w = (Ok tt, w') /\ healthy w'.
Proof.
  revert i w. induction n as [|n IH]; intros i w Hw.
  - exists w. split; [reflexivity|exact Hw].
  - cbn [run_tool_iterations]. unfold bind at 1.
    destruct (dispatch_frame w) as ([executed result] & w1 & -> & Hs1 & _).
    assert (Hw1 : healthy w1)
      by (revert Hw; apply healthy_state; rewrite Hs1; reflexivity).
    destruct executed; cbn [negb]; [|exists w1; split; [reflexivity|exact Hw1]].
    unfold bind at 1. cbn [print]. unfold bind at 1.
    match goal with
    | |- context [_run_turn ?pr ?w0] =>
        assert (Hw0 : healthy w0)
          by (revert Hw1; apply healthy_state; reflexivity);
        destruct (run_turn_healthy pr w0 Hw0)
          as (w2 & ? & ? & ? & ? & -> & Hw2 & _)
    end.
    apply IH, Hw2.
Qed.

(** C2: for one human turn the tool loop begins at most
    [1 + max_iterations] turns, the turn for the prompt and one for each
    tool-triggered iteration, and so sends at most that many completion
    requests, however often the content would trigger a tool again; and
    in a healthy world it returns normally, also when it stops at the
    cap.  This holds for [_run_turn_with_tools] and for the loop of
    [run]. *)
Theorem tool_iterations_capped (prompt : string) (max_iterations : Z) w :
  (forall r w',
      _run_turn_with_tools prompt max_iterations w = (r, w')
      \/ run_prompt prompt max_iterations w = (r, w') ->
      (_uuid_calls (state w')
       <= _uuid_calls (state w) + 2 * (1 + Z.to_nat max_iterations))%nat
      /\ (length (requests w')
          <= length (requests w) + 1 + Z.to_nat max_iterations)%nat)
  /\ (healthy w ->
      (exists w', _run_turn_with_tools prompt max_iterations w = (Ok tt, w'))
      /\ (exists w', run_prompt prompt max_iterations w = (Ok tt, w'))).
Proof.
  split.
  - intros r w' [Hrun | Hrun]; revert Hrun.
    + unfold _run_turn_with_tools. unfold bind at 1.
      destruct (_run_turn prompt w) as [[[]|e] w1] eqn:Hturn;
        apply run_turn_counts in Hturn as [Hcalls Hreq].
      * intros Hloop. apply tool_iterations_counts in Hloop. lia.
      * intros [= _ <-]. lia.
    + unfold run_prompt. unfold bind at 1.
      destruct (_run_turn prompt w) as [[[]|e] w1] eqn:Hturn;
        apply run_turn_counts in Hturn as [Hcalls Hreq].
      * intros Hloop. apply run_tool_iterations_counts in Hloop. lia.
      * intros [= _ <-]. lia.
  - intros Hw.
    destruct (run_turn_healthy prompt w Hw) as (w1 & ? & ? & ? & ? & Hturn & Hw1 & _).
    split.
    + unfold _run_turn_with_tools. unfold bind at 1. rewrite Hturn.
      destruct (tool_iterations_healthy (Z.to_nat max_iterations) w1 Hw1)
        as (w' & Hloop & _).
      exists w'. exact Hloop.
    + unfold run_prompt. unfold bind at 1. rewrite Hturn.
      destruct (run_tool_iterations_healthy (Z.to_nat max_iterations) 0
                  max_iterations w1 Hw1)
        as (w' & Hloop & _).
      exists w'. exact Hloop.
Qed.

End Loop.

(** *** The theorems at work *)

Example stream_hello :
  let '(r, w) := _run_turn (ext := Demo.externals) (remote := Demo.hello)
                   "hi" (Demo.world true) in
  r = Ok tt
  /\ current_assistant_content (state w) = "Hello!"%string
  /\ current_user_message_parent_id (state w) = Some "id-1"%string
  /\ stdout w = [Text "Hel"; Text "lo"; Text _GRAY; Text "hmm"; Text _RESET;
                 Text "!"; Text nl]%string.
Proof. vm_compute. auto. Qed.

Lemma demo_healthy (show_thinking : bool) (resp : Response) (w : World unit) :
  response_ok (ext := Demo.externals) show_thinking resp = true ->
  state w = Demo.chat_state show_thinking ->
  healthy (ext := Demo.externals) (remote := Demo.constant_remote resp) w.
Proof.
  intros Hresp Hstate. unfold healthy. rewrite Hstate.
  split; [reflexivity|]. split; [reflexivity|].
  split; [|intros n payload; exact Hresp].
  intros n.
  change (String "i" (String "d" (String "-" (str_int (Z.of_nat n)))) <> ""%string).
  discriminate.
Qed.

Lemma parent_link_threading_witness :
  healthy (ext := Demo.externals) (remote := Demo.hello) (Demo.world true)
  /\ current_user_message_parent_id
       (snd (begin_turn
               (finish_turn
                  (set_progress (snd (begin_turn (state (Demo.world true)) "first"))
                     "Hello!" None))
               "second"))
     = Some "id-1"%string
  /\ exists w1 w2 payload1 payload2,
       _run_turn (ext := Demo.externals) (remote := Demo.hello) "first" (Demo.world true)
       = (Ok tt, w1)
       /\ _run_turn (ext := Demo.externals) (remote := Demo.hello) "second" w1 = (Ok tt, w2)
       /\ requests w2 = requests (Demo.world true) ++ [payload1; payload2]
       /\ p_id payload1 = Some "id-1"%string
       /\ p_current_user_message_parent_id payload2 = Some "id-1"%string
       /\ current_user_message_parent_id (state w1) = Some "id-1"%string
       /\ current_user_message_parent_id (snd (begin_turn (state w1) "second"))
          = Some "id-1"%string.
Proof.
  assert (Hw : healthy (ext := Demo.externals) (remote := Demo.hello) (Demo.world true))
    by (apply (demo_healthy true); reflexivity).
  destruct (parent_link_threading (ext := Demo.externals) (remote := Demo.hello)
              "first" "second" (Demo.world true)) as (Hstate & Hone & Htwo).
  split; [exact Hw|]. split; [exact (Hstate "Hello!"%string None)|].
  destruct (Htwo Hw) as (w1 & w2 & payload1 & payload2 & Hrun1 & Hrun2 & Hreq & Hid & Hp).
  destruct (Hone w1 Hrun1) as (Hparent & Hbegin & _).
  exists w1, w2, payload1, payload2.
  split; [exact Hrun1|]. split; [exact Hrun2|]. split; [exact Hreq|].
  split; [exact Hid|]. split; [exact Hp|]. split; [exact Hparent|exact Hbegin].
Defined.

Lemma tool_iterations_capped_witness :
  healthy (ext := Demo.externals) (remote := Demo.echo) (Demo.world true)
  /\ (let w' := snd (_run_turn_with_tools (ext := Demo.externals) (remote := Demo.echo)
                       "hi" 3 (Demo.world true)) in
      (_uuid_calls (state w')
       <= _uuid_calls (state (Demo.world true)) + 2 * (1 + Z.to_nat 3))%nat
      /\ (length (requests w')
          <= length (requests (Demo.world true)) + 1 + Z.to_nat 3)%nat)
  /\ (let w' := snd (run_prompt (ext := Demo.externals) (remote := Demo.echo)
                       "hi" 3 (Demo.world true)) in
      (_uuid_calls (state w')
       <= _uuid_calls (state (Demo.world true)) + 2 * (1 + Z.to_nat 3))%nat
      /\ (length (requests w')
          <= length (requests (Demo.world true)) + 1 + Z.to_nat 3)%nat)
  /\ (exists w',
        _run_turn_with_tools (ext := Demo.externals) (remote := Demo.echo)
          "hi" 3 (Demo.world true)
        = (Ok tt, w'))
  /\ (exists w',
        run_prompt (ext := Demo.externals) (remote := Demo.echo) "hi" 3 (Demo.world true)
        = (Ok tt, w')).
Proof.
  assert (Hw : healthy (ext := Demo.externals) (remote := Demo.echo) (Demo.world true))
    by (apply (demo_healthy true); reflexivity).
  destruct (tool_iterations_capped (ext := Demo.externals) (remote := Demo.echo)
              "hi" 3 (Demo.world true)) as (Hcap & Hok).
  split; [exact Hw|].
  split; [exact (Hcap _ _ (or_introl (surjective_pairing _)))|].
  split; [exact (Hcap _ _ (or_intror (surjective_pairing _)))|].
  exact (Hok Hw).
Defined.

(** The cap is reached: the echo is triggered by every answer, and the
    loop stops after three iterations, four requests in all, with the
    last answer still asking for the tool. *)
Example tool_iterations_stop_at_cap :
  let '(r, w) := _run_turn_with_tools (ext := Demo.externals) (remote := Demo.echo)
                   "hi" 3 (Demo.world true) in
  r = Ok tt
  /\ length (requests w) = 4%nat
  /\ _uuid_calls (state w) = 8%nat
  /\ map p_current_user_message_parent_id (requests w)
     = [None; Some "id-1"; Some "id-3"; Some "id-5"]%string
  /\ fst (fst (execute_if_applicable (registry w)
                 (current_assistant_content (state w)) None (env w))) = true.
Proof. vm_compute. auto. Qed.

Example demo_stream_returns :
  fst (for_each [Demo.answer_event; Demo.thinking_event; Demo.answer_event]
         handle_event (Demo.world true))
  = Ok tt.
Proof. vm_compute. reflexivity. Qed.

Lemma thinking_delta_never_appended_witness :
  (exists w',
      handle_event Demo.thinking_event (Demo.world true) = (Ok tt, w')
      /\ current_assistant_content (state w') = ""%string
      /\ stdout w' = [Text _GRAY; Text "hmm"; Text _RESET]%string)
  /\ (exists d phase,
        delta_of Demo.answer_event = Some (JStr d, phase)
        /\ eq_str phase "thinking" = false
        /\ current_assistant_content
             (state (snd (handle_event Demo.answer_event (Demo.world true))))
           = ("" +:+ d)%string)
  /\ (exists w',
        for_each [Demo.answer_event; Demo.thinking_event; Demo.answer_event]
          handle_event (Demo.world true)
        = (Ok tt, w')
        /\ current_assistant_content (state w')
           = ("" +:+ collected true [Demo.answer_event; Demo.answer_event])%string).
Proof.
  split; [|split].
  - destruct (thinking_delta_never_appended Demo.thinking_event (Demo.world true) eq_refl)
      as (Hthinking & _).
    exact (Hthinking (JStr "hmm") eq_refl).
  - destruct (thinking_delta_never_appended Demo.answer_event (Demo.world true) eq_refl)
      as (_ & Hanswer & _).
    apply (Hanswer _ _ (surjective_pairing _)).
    vm_compute. discriminate.
  - destruct (thinking_delta_never_appended Demo.answer_event (Demo.world true) eq_refl)
      as (_ & _ & Hstream).
    pose proof demo_stream_returns as Hok.
    destruct (for_each _ handle_event (Demo.world true)) as [r w'] eqn:Hrun.
    cbn [fst] in Hok. subst r. exists w'. split; [reflexivity|].
    exact (Hstream _ _ Hrun).
Defined.

(** C3, counterexample: with [runtime_show_thinking] off, the delta of a
    thinking-phase event is appended to the accumulated content. *)
Lemma thinking_appended_when_not_shown :
  runtime_show_thinking (state (Demo.world false)) = false
  /\ delta_of Demo.thinking_event = Some (JStr "hmm", JStr "thinking")%string
  /\ current_assistant_content (state (Demo.world false)) = ""%string
  /\ (let '(r, w') := handle_event Demo.thinking_event (Demo.world false) in
      r = Ok tt
      /\ current_assistant_content (state w') = "hmm"%string
      /\ stdout w' = [Text "hmm"%string]).
Proof. vm_compute. repeat split. Qed.

Lemma midstream_failure_ends_turn_quietly_witness :
  (exists w',
     _stream_current_turn (ext := Demo.externals) (remote := Demo.hello)
       "hi" (Demo.started true "hi") = (Ok tt, w')
     /\ current_assistant_content (state w')
        = ("" +:+ collected true
                    (omap (decode_line (ext := Demo.externals)) Demo.hello_lines))%string
     /\ current_user_message_parent_id (state w') = Some "id-1"%string)
  /\ (exists w',
        _stream_current_turn (ext := Demo.externals) (remote := Demo.failing)
          "hi" (Demo.started true "hi") = (Raise (HTTPError 500), w')
        /\ state w' = state (Demo.started true "hi")).
Proof.
  assert (Hbuild : exists payload,
             build_completion_payload (state (Demo.started true "hi")) "hi"
               (localtime (Remote := Demo.hello) (length (requests (Demo.started true "hi"))))
             = Ok payload)
    by (eexists; reflexivity).
  destruct Hbuild as [payload Hbuild]. split.
  - destruct (midstream_failure_ends_turn_quietly (ext := Demo.externals)
                (remote := Demo.hello) "hi" (Demo.started true "hi") payload Hbuild)
      as (Hquiet & _).
    destruct (Hquiet 200%Z Demo.hello_lines eq_refl eq_refl eq_refl)
      as (_ & _ & Hturn).
    exact Hturn.
  - destruct (midstream_failure_ends_turn_quietly (ext := Demo.externals)
                (remote := Demo.failing) "hi" (Demo.started true "hi") payload Hbuild)
      as (_ & _ & Hstatus & _).
    destruct (Hstatus 500%Z Demo.hello_lines false eq_refl ltac:(lia))
      as (w' & Hrun & Hstate & _).
    exists w'. split; assumption.
Defined.

(** C4, counterexample: a response with status 500, and an endpoint
    that cannot be reached, make the turn raise; [finish_turn] has not
    run (the parent link is not the assistant-message id), and the
    exception leaves the tool loop as well. *)
Lemma transport_errors_propagate :
  (let '(r, w) := _run_turn (ext := Demo.externals) (remote := Demo.failing)
                    "hi" (Demo.world true) in
   r = Raise (HTTPError 500)
   /\ current_assistant_message_id (state w) = Some "id-1"%string
   /\ current_user_message_parent_id (state w) = None)
  /\ (let '(r, w) := _run_turn (ext := Demo.externals)
                       (remote := Demo.unreachable)
                       "hi" (Demo.world true) in
      r = Raise ConnectionError
      /\ current_user_message_parent_id (state w) = None)
  /\ fst (_run_turn_with_tools (ext := Demo.externals) (remote := Demo.failing)
            "hi" 3 (Demo.world true))
     = Raise (HTTPError 500).
Proof. vm_compute. auto. Qed.

End CliFacts.

(** ** Beyond the specification: the chat state *)
Module StateMore.
Import State.

Lemma allocated_mono (s s' : ChatState) (id : option string) :
  _uuid_factory s' = _uuid_factory s ->
  (_uuid_calls s <= _uuid_calls s')%nat ->
  allocated s id -> allocated s' id.
Proof.
  intros Hf Hc. destruct id as [i|]; [|trivial].
  intros (k & Hk & ->). exists k. rewrite Hf. split; [lia|reflexivity].
Qed.

(** X1: The new-chat payload has its own precondition: only the user-message
    identifier is required.  Before [begin_turn] the call raises the
    [RuntimeError] of the guard.  After [begin_turn], whether or not a
    chat exists, the flags of the features decide: when they can be
    iterated the call succeeds, the payload lists them, and the one
    message of the history is the user message of the turn, without
    parent, whatever parent link the state holds; when they are null, a
    boolean or a number the call raises a [TypeError]. *)
Theorem build_new_chat_payload_contents (s : ChatState) (prompt : string)
    (now1 now2 : Z) :
  (truthy_str (current_user_message_id s) = false ->
     build_new_chat_payload s prompt now1 now2
     = Raise (RuntimeError "begin_turn must be called before build_new_chat_payload"))
  /\ (_uuid_factory s (_uuid_calls s) <> ""%string ->
      forall prompt0,
        (iterable (_feature_value s "flags" (JArr [])) = false ->
           build_new_chat_payload (snd (begin_turn s prompt0)) prompt now1 now2
           = Raise TypeError)
        /\ (iterable (_feature_value s "flags" (JArr [])) = true ->
            exists p message,
              let user_id := fst (fst (begin_turn s prompt0)) in
              build_new_chat_payload (snd (begin_turn s prompt0)) prompt now1 now2
              = Ok p
              /\ py_list (_feature_value s "flags" (JArr [])) = Ok (n_flags p)
              /\ n_messages p = [(user_id, message)]
              /\ n_currentId p = user_id
              /\ h_id message = user_id
              /\ h_parentId message = None
              /\ h_content message = prompt
              /\ h_timestamp message = now2
              /\ n_timestamp p = (now1 * 1000)%Z
              /\ n_id p = ""%string)).
Proof.
  split.
  - unfold build_new_chat_payload, truthy_str.
    destruct (current_user_message_id s) as [user_id|]; [|reflexivity].
    destruct (String.eqb user_id ""); [reflexivity|discriminate].
  - intros Hid prompt0. set (s1 := snd (begin_turn s prompt0)).
    assert (Huser : current_user_message_id s1
                    = Some (_uuid_factory s (_uuid_calls s))) by reflexivity.
    assert (Hsame : _feature_value s1 "flags" (JArr [])
                    = _feature_value s "flags" (JArr [])) by reflexivity.
    unfold build_new_chat_payload. rewrite Huser, Hsame.
    apply String.eqb_neq in Hid. rewrite Hid.
    split; intros Hflags.
    + rewrite (StateFacts.py_list_not_iterable _ Hflags). reflexivity.
    + destruct (StateFacts.py_list_iterable _ Hflags) as [items Hitems].
      rewrite Hitems. eexists _, _. cbn. repeat split.
Qed.

Lemma build_new_chat_payload_contents_witness :
  build_new_chat_payload (new_state Demo.factory) "hi" 7 8
  = Raise (RuntimeError "begin_turn must be called before build_new_chat_payload")
  /\ exists p message,
       build_new_chat_payload (snd (begin_turn (new_state Demo.factory) "hi")) "hi" 7 8
       = Ok p
       /\ n_flags p = []
       /\ n_messages p = [("id-0"%string, message)]
       /\ h_parentId message = None
       /\ n_timestamp p = 7000%Z.
Proof.
  destruct (build_new_chat_payload_contents (new_state Demo.factory) "hi" 7 8)
    as [Hbefore Hafter].
  split; [apply Hbefore; reflexivity|].
  destruct (Hafter ltac:(discriminate) "hi"%string) as [_ Hbuilt].
  destruct (Hbuilt eq_refl)
    as (p & message & Hp & Hflags & Hm & _ & _ & Hparent & _ & _ & Hts & _).
  exists p, message. split; [exact Hp|]. split; [|auto].
  injection Hflags as <-. reflexivity.
Defined.

(** The flags of the configuration are a number: the chat cannot be
    created. *)
Example new_chat_with_numeric_flags :
  let config := [("features", JObj [("flags", JNum 3)])]%string in
  let s := set_features (new_state Demo.factory) (Cli._merge_features config) in
  build_new_chat_payload (snd (begin_turn s "hi")) "hi" 7 8 = Raise TypeError.
Proof. reflexivity. Qed.

Lemma allocated_neq (s : ChatState) (id : option string) (k : nat) :
  fresh_ids s -> allocated s id -> (_uuid_calls s <= k)%nat ->
  id <> Some (_uuid_factory s k).
Proof.
  intros Hfresh Hid Hk. destruct id as [i|]; [|discriminate].
  destruct Hid as (j & Hj & ->). intros [= Heq].
  apply Hfresh in Heq. lia.
Qed.

(** X2: Identifiers never clash.  Every identifier a state holds was
    returned by an earlier call of the factory, a property that holds of
    a new state and that every operation keeps; so, with a factory that
    never repeats itself, the turn [begin_turn] opens has a user-message
    identifier and an assistant-message identifier that differ from each
    other and from the parent link, and no completion payload names a
    message as its own parent. *)
Theorem identifiers_never_clash (s : ChatState) (prompt : string) :
  (forall factory, ids_allocated (new_state factory))
  /\ (ids_allocated s ->
      ids_allocated (snd (begin_turn s prompt))
      /\ ids_allocated (finish_turn s)
      /\ (forall delta, ids_allocated (apply_assistant_delta s delta))
      /\ (forall chat, ids_allocated (set_chat_id s chat)))
  /\ (ids_allocated s -> fresh_ids s ->
      let s' := snd (begin_turn s prompt) in
      current_user_message_id s' <> current_assistant_message_id s'
      /\ current_user_message_parent_id s' <> current_assistant_message_id s'
      /\ current_user_message_parent_id s' <> current_user_message_id s'
      /\ forall now p,
           build_completion_payload s' prompt now = Ok p ->
           p_current_user_message_parent_id p <> p_id p
           /\ p_current_user_message_id p <> p_id p).
Proof.
  split; [|split].
  - intros factory. repeat split.
  - intros (Huser & Hparent & Hassistant). split; [|split; [|split]].
    + split; [|split].
      * exists (_uuid_calls s). cbn. split; [lia|reflexivity].
      * revert Hparent. apply allocated_mono; cbn; [reflexivity|lia].
      * exists (S (_uuid_calls s)). cbn. split; [lia|reflexivity].
    + split; [exact Huser|]. split; [exact Hassistant|exact Hassistant].
    + intros delta. split; [exact Huser|]. split; [exact Hparent|exact Hassistant].
    + intros chat. split; [exact Huser|]. split; [exact Hparent|exact Hassistant].
  - intros (_ & Hparent & _) Hfresh s'.
    assert (Hids : current_user_message_id s' <> current_assistant_message_id s').
    { cbn. intros [= Heq]. apply Hfresh in Heq. lia. }
    assert (Hlink : current_user_message_parent_id s' <> current_assistant_message_id s').
    { cbn. apply allocated_neq; [exact Hfresh|exact Hparent|lia]. }
    split; [exact Hids|]. split; [exact Hlink|].
    split; [cbn; apply allocated_neq; [exact Hfresh|exact Hparent|lia]|].
    intros now p Hbuild.
    apply StateFacts.build_ok_fields in Hbuild as (-> & -> & -> & _).
    split; [exact Hlink|exact Hids].
Qed.

Lemma demo_factory_fresh (s : ChatState) :
  _uuid_factory s = Demo.factory -> fresh_ids s.
Proof.
  intros Hf i j. rewrite Hf. unfold Demo.factory. intros Heq.
  assert (Hstr : str_int (Z.of_nat i) = str_int (Z.of_nat j)).
  { change (String "i" (String "d" (String "-" (str_int (Z.of_nat i))))
            = String "i" (String "d" (String "-" (str_int (Z.of_nat j))))) in Heq.
    congruence. }
  apply ClientFacts.str_int_inj in Hstr. lia.
Qed.

Lemma identifiers_never_clash_witness :
  let s1 := finish_turn (snd (begin_turn (new_state Demo.factory) "one")) in
  let s2 := snd (begin_turn s1 "two") in
  ids_allocated s1 /\ fresh_ids s1
  /\ ids_allocated s2
  /\ current_user_message_parent_id s2 = Some "id-1"%string
  /\ current_user_message_parent_id s2 <> current_assistant_message_id s2
  /\ current_user_message_id s2 <> current_assistant_message_id s2.
Proof.
  intros s1 s2.
  destruct (identifiers_never_clash (new_state Demo.factory) "one")
    as (Hnew & Hkeep & _).
  destruct (Hkeep (Hnew _)) as (Hbegin & _).
  destruct (identifiers_never_clash (snd (begin_turn (new_state Demo.factory) "one")) "one")
    as (_ & Hkeep1 & _).
  destruct (Hkeep1 Hbegin) as (_ & Hs1 & _).
  assert (Hfresh : fresh_ids s1) by (apply demo_factory_fresh; reflexivity).
  destruct (identifiers_never_clash s1 "two") as (_ & Hkeep2 & Hdistinct).
  destruct (Hkeep2 Hs1) as (Hs2 & _).
  destruct (Hdistinct Hs1 Hfresh) as (Hids & Hlink & _).
  split; [exact Hs1|]. split; [exact Hfresh|]. split; [exact Hs2|].
  split; [reflexivity|]. split; [exact Hlink|exact Hids].
Defined.

End StateMore.

(** ** Beyond the specification: the client *)
Module ClientMore.
Import Sha256 State Client.

(** *** Frames *)

Lemma decode_line_data {ext : Externals} (content : string) :
  String.prefix "data: " content = false ->
  decode_line ("data: " +:+ content) = decode_line content.
Proof.
  intros Hprefix. unfold decode_line.
  change (String.eqb ("data: " +:+ content) "") with false.
  change (String.prefix "data: " ("data: " +:+ content))
    with (String.prefix "" content).
  change (string_drop 6 ("data: " +:+ content)) with content.
  rewrite Hprefix.
  destruct content as [|c content]; reflexivity.
Qed.

(** X3: The framing of the stream.  A line may carry the prefix ["data: "]
    or not, the event is the same; and a blank line or the marker
    [[DONE]] neither yields an event nor ends the stream: the lines that
    follow it are decoded as if it were not there.  The events never
    outnumber the lines. *)
Theorem stream_framing {ext : Externals} (status : Z) (lines : list string)
    (dropped : bool) :
  (Forall (fun line => String.prefix "data: " line = false) lines ->
     stream_completion (Answer status (map (String.append "data: ") lines) dropped)
     = stream_completion (Answer status lines dropped))
  /\ (forall before after marker,
        In marker [""; "[DONE]"; "data: "; "data: [DONE]"]%string ->
        lines = before ++ marker :: after ->
        stream_completion (Answer status lines dropped)
        = stream_completion (Answer status (before ++ after) dropped))
  /\ (forall events,
        stream_completion (Answer status lines dropped) = Ok events ->
        (length events <= length lines)%nat).
Proof.
  assert (Hevents : forall ls ls',
             omap decode_line ls = omap decode_line ls' ->
             stream_completion (Answer status ls dropped)
             = stream_completion (Answer status ls' dropped)).
  { intros ls ls' Heq. unfold stream_completion. rewrite Heq. reflexivity. }
  split; [|split].
  - intros Hlines. apply Hevents.
    induction Hlines as [|line ls Hline _ IH]; [reflexivity|].
    cbn [map omap list_omap]. change (String.append "data: " line) with ("data: " +:+ line).
    rewrite (decode_line_data line Hline), IH. reflexivity.
  - intros before after marker Hmarker ->. apply Hevents.
    rewrite !omap_app. f_equal. cbn [omap list_omap].
    assert (Hnone : decode_line marker = None).
    { destruct Hmarker as [<- | [<- | [<- | [<- | []]]]]; reflexivity. }
    rewrite Hnone. reflexivity.
  - intros events. unfold stream_completion.
    destruct (raise_for_status status); [|discriminate].
    intros Hok.
    assert (events = omap decode_line lines) as -> by (destruct dropped; congruence).
    clear Hok. induction lines as [|line ls IH]; [simpl; lia|].
    cbn [omap list_omap]. destruct (decode_line line); simpl in *; lia.
Qed.

Lemma stream_framing_witness :
  stream_completion (ext := Demo.externals)
    (Answer 200 (map (String.append "data: ") ["a:x"; "other"]%string) false)
  = stream_completion (ext := Demo.externals) (Answer 200 ["a:x"; "other"]%string false)
  /\ stream_completion (ext := Demo.externals)
       (Answer 200 ["a:x"; "data: [DONE]"; "a:y"]%string true)
     = stream_completion (ext := Demo.externals) (Answer 200 ["a:x"; "a:y"]%string true)
  /\ (length [Demo.completion [("delta_content", JStr "x")]] <= 2)%nat.
Proof.
  destruct (stream_framing (ext := Demo.externals) 200 ["a:x"; "other"]%string false)
    as (Hdata & _ & _).
  destruct (stream_framing (ext := Demo.externals) 200
              ["a:x"; "data: [DONE]"; "a:y"]%string true) as (_ & Hdone & _).
  destruct (stream_framing (ext := Demo.externals) 200 ["a:x"; "junk"]%string true)
    as (_ & _ & Hcount).
  split; [|split].
  - apply Hdata. repeat constructor.
  - apply (Hdone ["a:x"%string] ["a:y"%string] "data: [DONE]"%string).
    + right. right. right. left. reflexivity.
    + reflexivity.
  - apply (Hcount [Demo.completion [("delta_content", JStr "x")]]). reflexivity.
Defined.

(** *** The signature is defined on what can be encoded *)

Lemma utf8_encode_cp_encodable (c : N) :
  encodable c = true -> exists bs, utf8_encode_cp c = Some bs.
Proof.
  unfold encodable, utf8_encode_cp. intros Hc.
  destruct (N.ltb_spec c 0x80); [eauto|].
  destruct (N.ltb_spec c 0x800); [eauto|].
  destruct (N.ltb_spec c 0x10000).
  - destruct (N.leb_spec 0xD800 c); [|eauto].
    destruct (N.leb_spec c 0xDFFF); [|eauto].
    exfalso. revert Hc.
    destruct (N.ltb_spec c 0xD800); [lia|].
    destruct (N.ltb_spec 0xDFFF c); [lia|]. discriminate.
  - destruct (N.ltb_spec c 0x110000); [eauto|].
    exfalso. revert Hc.
    destruct (N.ltb_spec c 0xD800); [lia|].
    destruct (N.ltb_spec 0xDFFF c); discriminate.
Qed.

Lemma utf8_encode_cp_not_encodable (c : N) :
  encodable c = false -> utf8_encode_cp c = None.
Proof.
  unfold encodable, utf8_encode_cp. intros Hc.
  destruct (N.ltb_spec c 0xD800) as [Hlo|Hlo]; [discriminate|].
  destruct (N.ltb_spec c 0x80); [lia|].
  destruct (N.ltb_spec c 0x800); [lia|].
  destruct (N.ltb_spec c 0x10000).
  - destruct (N.leb_spec 0xD800 c); [|lia].
    destruct (N.leb_spec c 0xDFFF); [reflexivity|].
    revert Hc. destruct (N.ltb_spec 0xDFFF c); [|lia].
    destruct (N.ltb_spec c 0x110000); [discriminate|lia].
  - destruct (N.ltb_spec c 0x110000); [|reflexivity].
    revert Hc. destruct (N.ltb_spec 0xDFFF c); [discriminate|lia].
Qed.

Lemma utf8_encode_defined (text : ustring) :
  forallb encodable text = true -> exists bs, utf8_encode text = Some bs.
Proof.
  induction text as [|c text IH]; [eexists; reflexivity|].
  cbn [forallb utf8_encode]. intros [Hc Htext]%andb_prop.
  destruct (utf8_encode_cp_encodable c Hc) as [bs ->].
  destruct (IH Htext) as [bs' ->]. eauto.
Qed.

Lemma utf8_encode_undefined (text : ustring) :
  forallb encodable text = false -> utf8_encode text = None.
Proof.
  induction text as [|c text IH]; [discriminate|].
  cbn [forallb utf8_encode]. intros Hfalse.
  destruct (encodable c) eqn:Hc.
  - rewrite (IH Hfalse). destruct (utf8_encode_cp c); reflexivity.
  - rewrite (utf8_encode_cp_not_encodable c Hc). reflexivity.
Qed.

Lemma encodable_small (c : N) : c < 256 -> encodable c = true.
Proof.
  intros Hc. unfold encodable.
  destruct (N.ltb_spec c 0xD800); [reflexivity|lia].
Qed.

Lemma encodable_ascii (l : list ascii) : forallb encodable (map N_of_ascii l) = true.
Proof.
  induction l as [|a l IH]; [reflexivity|].
  cbn [map forallb]. rewrite IH, andb_true_r.
  apply encodable_small, N_ascii_bounded.
Qed.

Lemma encodable_bytes (bs : bytes) : forallb encodable (map Byte.to_N bs) = true.
Proof.
  induction bs as [|b bs IH]; [reflexivity|].
  cbn [map forallb]. rewrite IH, andb_true_r.
  apply encodable_small. pose proof (Byte.to_N_bounded b). lia.
Qed.

Lemma encodable_ustr (s : string) : forallb encodable (ustr s) = true.
Proof. apply encodable_ascii. Qed.

Lemma js_like_base64_defined (action : ustring) :
  forallb encodable action = true ->
  exists encoded,
    _js_like_base64 action = Some encoded /\ forallb encodable encoded = true.
Proof.
  intros Haction. unfold _js_like_base64.
  destruct (utf8_encode_defined action Haction) as [bs ->].
  rewrite ClientFacts.latin1_round_trip.
  eexists. split; [reflexivity|]. apply encodable_bytes.
Qed.

Lemma js_like_base64_undefined (action : ustring) :
  forallb encodable action = false -> _js_like_base64 action = None.
Proof.
  intros Haction. unfold _js_like_base64.
  rewrite (utf8_encode_undefined action Haction). reflexivity.
Qed.

Lemma signed_string_encodable (sp encoded : ustring) (ts : Z) :
  forallb encodable (signed_string sp encoded ts)
  = forallb encodable sp && forallb encodable encoded.
Proof.
  unfold signed_string. rewrite !forallb_app, !encodable_ustr.
  rewrite !andb_true_l, andb_true_r. reflexivity.
Qed.

Lemma generate_signature_shape (sorted_payload action : ustring) (ts : Z)
    (signature : ustring) :
  _generate_signature sorted_payload action ts = Some signature ->
  exists d, signature = map N_of_ascii (hexdigest d).
Proof.
  rewrite ClientFacts.generate_signature_window_key.
  destruct (window_key ts) as [d_hex|]; [|discriminate].
  destruct (_js_like_base64 action) as [encoded|]; [|discriminate].
  cbv beta iota zeta delta [mbind option_bind].
  destruct (utf8_encode d_hex) as [key|]; [|discriminate].
  destruct (utf8_encode (signed_string sorted_payload encoded ts)) as [msg|];
    [|discriminate].
  intros [= <-]. eexists. reflexivity.
Qed.

Lemma generate_signature_some (sorted_payload action : ustring) (ts : Z) :
  forallb encodable sorted_payload = true ->
  forallb encodable action = true ->
  exists d,
    _generate_signature sorted_payload action ts
    = Some (map N_of_ascii (hexdigest d)).
Proof.
  intros Hsp Haction.
  destruct (_generate_signature sorted_payload action ts) as [signature|] eqn:Hsig.
  - destruct (generate_signature_shape _ _ _ _ Hsig) as [d ->]. eauto.
  - exfalso. revert Hsig. rewrite ClientFacts.generate_signature_window_key.
    unfold window_key.
    destruct (utf8_encode_defined _ (encodable_ustr SECRET)) as [secret ->].
    destruct (utf8_encode_defined _ (encodable_ustr (str_int (window_index ts))))
      as [wtext ->].
    cbv beta iota zeta delta [mbind option_bind].
    destruct (js_like_base64_defined action Haction) as (encoded & -> & Hencoded).
    destruct (utf8_encode_defined (hmac_hex secret wtext) (encodable_ascii _))
      as [key ->].
    destruct (utf8_encode_defined (signed_string sorted_payload encoded ts))
      as [msg ->]; [|discriminate].
    rewrite signed_string_encodable, Hsp, Hencoded. reflexivity.
Qed.

Lemma hexdigest_text (d : digest) :
  length (map N_of_ascii (hexdigest d)) = 64%nat
  /\ Forall (fun c => exists digit, In digit hex_alphabet /\ c = N_of_ascii digit)
            (map N_of_ascii (hexdigest d)).
Proof.
  rewrite length_map. unfold hexdigest. split.
  - assert (Hlen : forall n, length (hex_digits 8 n) = 8%nat)
      by (intros n; apply ClientFacts.hex_digits_spec).
    rewrite !length_app, !Hlen. reflexivity.
  - apply Forall_map. rewrite !Forall_app.
    repeat split;
      (eapply List.Forall_impl; [|apply ClientFacts.hex_digits_spec]);
      intros digit Hdigit; exists digit; auto.
Qed.

(** X4: The signature is defined exactly on the texts that have a UTF-8
    encoding: if the payload summary and the action hold no lone
    surrogate the call returns, and its value is the hexadecimal text of
    a digest, 64 digits; if one of them holds a lone surrogate the call
    raises [UnicodeEncodeError], whatever the timestamp. *)
Theorem generate_signature_defined (sorted_payload action : ustring) (ts : Z) :
  (forallb encodable sorted_payload && forallb encodable action = true ->
     exists d,
       _generate_signature sorted_payload action ts
       = Some (map N_of_ascii (hexdigest d)))
  /\ (forallb encodable sorted_payload && forallb encodable action = false ->
      _generate_signature sorted_payload action ts = None)
  /\ (forall signature,
        _generate_signature sorted_payload action ts = Some signature ->
        length signature = 64%nat
        /\ Forall (fun c => exists digit, In digit hex_alphabet /\ c = N_of_ascii digit)
                  signature).
Proof.
  split; [|split].
  - intros [Hsp Haction]%andb_prop. apply generate_signature_some; assumption.
  - intros Hbad. rewrite ClientFacts.generate_signature_window_key.
    destruct (window_key ts) as [d_hex|]; [|reflexivity].
    cbv beta iota zeta delta [mbind option_bind].
    destruct (forallb encodable action) eqn:Haction.
    + destruct (js_like_base64_defined action Haction) as (encoded & -> & Hencoded).
      destruct (utf8_encode d_hex); [|reflexivity].
      rewrite utf8_encode_undefined; [reflexivity|].
      rewrite signed_string_encodable, Hencoded, andb_true_r.
      rewrite andb_true_r in Hbad. exact Hbad.
    + rewrite (js_like_base64_undefined action Haction). reflexivity.
  - intros signature Hsig.
    destruct (generate_signature_shape _ _ _ _ Hsig) as [d ->].
    apply hexdigest_text.
Qed.

Lemma generate_signature_defined_witness :
  (exists d,
      _generate_signature (ustr "summary") [233; 0x1F600] 0
      = Some (map N_of_ascii (hexdigest d)))
  /\ _generate_signature (ustr "summary") [0xD800] 0 = None
  /\ forall signature,
       _generate_signature [] [] 0 = Some signature -> length signature = 64%nat.
Proof.
  destruct (generate_signature_defined (ustr "summary") [233; 0x1F600] 0)
    as (Hok & _ & _).
  destruct (generate_signature_defined (ustr "summary") [0xD800] 0) as (_ & Hbad & _).
  destruct (generate_signature_defined [] [] 0) as (_ & _ & Hshape).
  split; [apply Hok; reflexivity|]. split; [apply Hbad; reflexivity|].
  intros signature Hsig. apply (Hshape signature Hsig).
Defined.

(** *** Chat identifiers *)

Lemma read_json_inv (reply : Reply) (data : json) :
  read_json reply = Returns data ->
  exists status,
    reply = Replied status (Some data) /\ raise_for_status status = Ok tt.
Proof.
  unfold read_json. destruct reply as [|status body]; [discriminate|].
  destruct (raise_for_status status) as [[]|] eqn:Hstatus; [|discriminate].
  destruct body as [body|]; [|discriminate].
  intros [= ->]. exists status. auto.
Qed.

(** X5: A chat identifier obtained from the endpoint is never empty.
    [create_chat] returns only a value that is true in the sense of
    Python, read from the key ["id"] of a JSON object sent with a status
    that is not an error; [latest_chat_id] returns only a string that is
    not empty, read from the first entry of a JSON list.  So the guards
    of [build_completion_payload] let the turn pass that [run] streams
    once the chat is created: the payload is built when the flags of
    the features can be iterated, and otherwise the call raises the
    [TypeError] of the flags, not a [RuntimeError]. *)
Theorem chat_id_from_endpoint (reply : Reply) :
  (forall chat, create_chat reply = Returns chat ->
     truthy chat = true
     /\ exists status fields,
          reply = Replied status (Some (JObj fields))
          /\ raise_for_status status = Ok tt
          /\ dict_get fields "id" = Some chat)
  /\ (forall chat, latest_chat_id reply = Returns (Some chat) ->
        chat <> ""%string
        /\ exists status fields rest,
             reply = Replied status (Some (JArr (JObj fields :: rest)))
             /\ raise_for_status status = Ok tt
             /\ dict_get fields "id" = Some (JStr chat))
  /\ (forall chat s prompt now,
        create_chat reply = Returns (JStr chat)
        \/ latest_chat_id reply = Returns (Some chat) ->
        _uuid_factory s (_uuid_calls s) <> ""%string ->
        _uuid_factory s (S (_uuid_calls s)) <> ""%string ->
        let s' := set_chat_id (snd (begin_turn s prompt)) (Some chat) in
        (iterable (_feature_value s "flags" (JArr [])) = false ->
           build_completion_payload s' prompt now = Raise TypeError)
        /\ (iterable (_feature_value s "flags" (JArr [])) = true ->
            exists p,
              build_completion_payload s' prompt now = Ok p
              /\ p_chat_id p = Some chat
              /\ p_current_user_message_parent_id p
                 = current_user_message_parent_id s)).
Proof.
  assert (Hcreate : forall chat, create_chat reply = Returns chat ->
             truthy chat = true
             /\ exists status fields,
                  reply = Replied status (Some (JObj fields))
                  /\ raise_for_status status = Ok tt
                  /\ dict_get fields "id" = Some chat).
  { intros chat. unfold create_chat.
    destruct (read_json reply) as [data|] eqn:Hread; [|discriminate].
    apply read_json_inv in Hread as (status & -> & Hstatus).
    destruct data as [| | | | |fields]; try discriminate. cbn [py_get].
    destruct (dict_get fields "id") as [v|] eqn:Hid; cbn [default from_option id];
      [|discriminate].
    destruct (truthy v) eqn:Hv; cbn [negb]; [|discriminate].
    intros [= <-]. split; [exact Hv|]. exists status, fields. auto. }
  assert (Hlatest : forall chat, latest_chat_id reply = Returns (Some chat) ->
             chat <> ""%string
             /\ exists status fields rest,
                  reply = Replied status (Some (JArr (JObj fields :: rest)))
                  /\ raise_for_status status = Ok tt
                  /\ dict_get fields "id" = Some (JStr chat)).
  { intros chat. unfold latest_chat_id.
    destruct (read_json reply) as [data|] eqn:Hread; [|discriminate].
    apply read_json_inv in Hread as (status & -> & Hstatus).
    destruct data as [| | | |[|first rest]|]; try discriminate.
    destruct first as [| | | | |fields]; try discriminate. cbn [py_get].
    destruct (dict_get fields "id") as [[| | |c| |]|] eqn:Hid;
      cbn [default from_option id]; try discriminate.
    destruct (String.eqb c "") eqn:Hc; [discriminate|].
    intros [= <-]. split; [apply String.eqb_neq, Hc|].
    exists status, fields, rest. auto. }
  split; [exact Hcreate|]. split; [exact Hlatest|].
  intros chat s prompt now Hchat Huser Hassistant.
  assert (Hne : chat <> ""%string).
  { destruct Hchat as [Hc | Hc].
    - apply Hcreate in Hc as [Htrue _]. cbn in Htrue.
      intros ->. discriminate.
    - apply Hlatest in Hc as [Hne _]. exact Hne. }
  intros s'. apply String.eqb_neq in Hne, Huser, Hassistant.
  destruct (StateFacts.build_past_the_guards s' prompt now) as [Hraise Hbuild].
  - cbn [s' set_chat_id chat_id truthy_str]. rewrite Hne. reflexivity.
  - cbn [s' set_chat_id begin_turn snd current_user_message_id truthy_str].
    rewrite Huser. reflexivity.
  - cbn [s' set_chat_id begin_turn snd current_assistant_message_id truthy_str].
    rewrite Hassistant. reflexivity.
  - split; [exact Hraise|]. intros Hflags.
    destruct (Hbuild Hflags) as (p & Hp & _ & _ & Hparent & Hchat').
    exists p. split; [exact Hp|]. split; [exact Hchat'|exact Hparent].
Qed.

Lemma chat_id_from_endpoint_witness :
  truthy (JStr "c-9") = true
  /\ exists p,
       build_completion_payload
         (set_chat_id (snd (begin_turn (new_state Demo.factory) "hi"))
            (Some "c-9"%string))
         "hi" (fun _ => ""%string) = Ok p
       /\ p_chat_id p = Some "c-9"%string
       /\ p_current_user_message_parent_id p = None.
Proof.
  destruct (chat_id_from_endpoint
              (Replied 200 (Some (JObj [("id", JStr "c-9")]%string))))
    as (Hcreate & _ & Hbuild).
  split; [apply (Hcreate (JStr "c-9") eq_refl)|].
  apply (Hbuild "c-9"%string (new_state Demo.factory) "hi"%string (fun _ => ""%string));
    [left; reflexivity|discriminate|discriminate|reflexivity].
Defined.

(** A reply that is no JSON object with a usable identifier makes
    [create_chat] raise, each case with its own exception. *)
Example create_chat_failures :
  create_chat NoReply = Raises (Python ConnectionError)
  /\ create_chat (Replied 401 (Some (JObj [("id", JStr "c")]%string)))
     = Raises (Python (HTTPError 401))
  /\ create_chat (Replied 200 None) = Raises JSONDecodeError
  /\ create_chat (Replied 200 (Some (JArr []))) = Raises (Python AttributeError)
  /\ create_chat (Replied 200 (Some (JObj [("id", JStr "")]%string)))
     = Raises (Python (RuntimeError "create_chat response missing id"))
  /\ create_chat (Replied 200 (Some (JObj [])))
     = Raises (Python (RuntimeError "create_chat response missing id"))
  /\ latest_chat_id (Replied 200 (Some (JArr []))) = Returns None
  /\ latest_chat_id (Replied 200 (Some (JArr [JNum 5]))) = Raises (Python AttributeError)
  /\ latest_chat_id (Replied 200 (Some (JArr [JObj [("id", JNum 5)]%string])))
     = Returns None.
Proof. repeat split. Qed.

(** *** The user identifier of a token *)

Lemma split_char_free (sep : ascii) (s : string) :
  free_of sep s = true -> split_char sep s = [s].
Proof.
  induction s as [|c s IH]; [reflexivity|].
  cbn [free_of split_char]. intros [Hc Hs]%andb_prop.
  apply negb_true_iff in Hc. rewrite Hc, (IH Hs). reflexivity.
Qed.

Lemma split_char_app (sep : ascii) (s rest : string) :
  free_of sep s = true ->
  split_char sep (s +:+ String sep rest) = s :: split_char sep rest.
Proof.
  induction s as [|c s IH].
  - intros _. change (split_char sep (String sep rest) = "" :: split_char sep rest)%string.
    cbn [split_char]. rewrite Ascii.eqb_refl. reflexivity.
  - cbn [free_of]. intros [Hc Hs]%andb_prop. apply negb_true_iff in Hc.
    change (split_char sep (String c (s +:+ String sep rest))
            = String c s :: split_char sep rest).
    cbn [split_char]. rewrite Hc, (IH Hs). reflexivity.
Qed.

(** X6: The user identifier is read from the second segment of the token
    and from nothing else.  A token without a dot gives the empty
    identifier, without the decoder being called; otherwise the text
    handed to the base64 decoder is the second segment padded with [=]
    to a length that is a multiple of four, and what precedes the first
    dot and what follows the second has no influence on the result. *)
Theorem user_id_of_token {codec : TokenCodec} (header body : string) :
  (forall token, free_of "." token = true ->
     _extract_user_id_from_token token = JStr "")
  /\ (String.length (body +:+ token_padding body) mod 4 = 0)%nat
  /\ (free_of "." header = true -> free_of "." body = true ->
      let user_id :=
        match decode_json (body +:+ token_padding body) with
        | Some (JObj fields) => default (JStr "") (dict_get fields "id")
        | _ => JStr ""
        end in
      _extract_user_id_from_token (header +:+ "." +:+ body) = user_id
      /\ forall tail,
           _extract_user_id_from_token (header +:+ "." +:+ body +:+ "." +:+ tail)
           = user_id).
Proof.
  split; [|split].
  - intros token Hfree. unfold _extract_user_id_from_token.
    rewrite (split_char_free _ _ Hfree). reflexivity.
  - rewrite TextFacts.length_string_app. unfold token_padding.
    rewrite TextFacts.length_string_of_list, repeat_length.
    assert (Hmod : (0 <= (- Z.of_nat (String.length body)) mod 4 < 4)%Z)
      by (apply Z.mod_pos_bound; lia).
    assert (Hz : ((Z.of_nat (String.length body)
                   + (- Z.of_nat (String.length body)) mod 4) mod 4 = 0)%Z).
    { rewrite Z.add_mod_idemp_r by lia.
      replace (Z.of_nat (String.length body) + - Z.of_nat (String.length body))%Z
        with 0%Z by lia. reflexivity. }
    apply Nat2Z.inj. rewrite Nat2Z.inj_mod, Nat2Z.inj_add, Z2Nat.id by lia.
    exact Hz.
  - intros Hheader Hbody user_id.
    assert (Hsecond : forall pieces,
               (match nth_error (header :: body :: pieces) 1 with
                | None => JStr ""
                | Some payload =>
                    match decode_json (payload +:+ token_padding payload) with
                    | None => JStr ""
                    | Some decoded =>
                        match py_get decoded "id" (JStr "") with
                        | Ok found => found
                        | Raise _ => JStr ""
                        end
                    end
                end) = user_id).
    { intros pieces. cbn [nth_error]. unfold user_id.
      destruct (decode_json _) as [[| | | | |fields]|]; reflexivity. }
    split.
    + unfold _extract_user_id_from_token.
      change (header +:+ "." +:+ body) with (header +:+ String "." body).
      rewrite (split_char_app _ _ _ Hheader), (split_char_free _ _ Hbody).
      apply Hsecond.
    + intros tail. unfold _extract_user_id_from_token.
      change (header +:+ "." +:+ body +:+ "." +:+ tail)
        with (header +:+ String "." (body +:+ String "." tail)).
      rewrite (split_char_app _ _ _ Hheader), (split_char_app _ _ _ Hbody).
      apply Hsecond.
Qed.

Lemma user_id_of_token_witness :
  _extract_user_id_from_token (codec := Demo.codec) "no dots here" = JStr ""
  /\ (String.length ("bo" +:+ token_padding "bo") mod 4 = 0)%nat
  /\ _extract_user_id_from_token (codec := Demo.codec) "header.bo" = JStr "u-1"
  /\ _extract_user_id_from_token (codec := Demo.codec) "other.bo.signature"
     = JStr "u-1".
Proof.
  destruct (user_id_of_token (codec := Demo.codec) "header" "bo")
    as (Hnone & Hlen & Hsame).
  destruct (user_id_of_token (codec := Demo.codec) "other" "bo") as (_ & _ & Hother).
  split; [apply Hnone; reflexivity|]. split; [exact Hlen|].
  split.
  - apply (Hsame eq_refl eq_refl).
  - apply (Hother eq_refl eq_refl).
Defined.

(** *** What is signed *)

Lemma build_ok_prompt (s : ChatState) (prompt : string) (now : string -> string)
    (p : CompletionPayload) :
  build_completion_payload s prompt now = Ok p ->
  p_signature_prompt p = prompt /\ p_messages p = [("user"%string, prompt)].
Proof.
  unfold build_completion_payload.
  destruct (negb (truthy_str (chat_id s))); [discriminate|].
  destruct (negb (truthy_str (current_user_message_id s))
            || negb (truthy_str (current_assistant_message_id s)));
    [discriminate|].
  destruct (py_list (_feature_value s "flags" (JArr []))); [|discriminate].
  intros [= <-]. split; reflexivity.
Qed.

(** X7: The signature header of a completion request.  For a payload built
    by [build_completion_payload] the text that is signed as the action
    is the prompt of the turn, also when the prompt is empty and the
    fallback to the first message is taken; the call does not raise, and
    the header is the signature of that prompt, 64 hexadecimal digits,
    over the summary of request identifier, timestamp and user
    identifier, at the timestamp of the request. *)
Theorem x_signature_signs_the_prompt {codec : TokenCodec} (repr : json -> string)
    (s : ChatState) (prompt : string) (now : string -> string)
    (p : CompletionPayload) (token request_id : string) (ts : Z) :
  build_completion_payload s prompt now = Ok p ->
  signature_content p = Returns prompt
  /\ exists signature,
       x_signature repr token request_id ts p = Returns signature
       /\ _generate_signature
            (ustr (sorted_payload_text request_id ts
                     (py_str repr (_extract_user_id_from_token token))))
            (ustr prompt) ts
          = Some signature
       /\ length signature = 64%nat.
Proof.
  intros Hbuild. apply build_ok_prompt in Hbuild as [Hprompt Hmessages].
  assert (Hcontent : signature_content p = Returns prompt).
  { unfold signature_content. rewrite Hprompt, Hmessages.
    destruct (String.eqb prompt "") eqn:Hempty; reflexivity. }
  split; [exact Hcontent|].
  destruct (generate_signature_some
              (ustr (sorted_payload_text request_id ts
                       (py_str repr (_extract_user_id_from_token token))))
              (ustr prompt) ts (encodable_ustr _) (encodable_ustr _)) as [d Hsig].
  exists (map N_of_ascii (hexdigest d)).
  split; [|split; [exact Hsig|apply hexdigest_text]].
  unfold x_signature. rewrite Hcontent, Hsig. reflexivity.
Qed.

Lemma x_signature_signs_the_prompt_witness :
  exists p signature,
    build_completion_payload
      (set_chat_id (snd (begin_turn (new_state Demo.factory) "")) (Some "c"%string))
      "" (fun _ => ""%string) = Ok p
    /\ signature_content p = Returns ""%string
    /\ x_signature (codec := Demo.codec) (fun _ => ""%string) "h.bo.s" "r-1" 1700000000000 p
       = Returns signature
    /\ length signature = 64%nat.
Proof.
  eexists.
  destruct (x_signature_signs_the_prompt (codec := Demo.codec) (fun _ => ""%string)
              (set_chat_id (snd (begin_turn (new_state Demo.factory) "")) (Some "c"%string))
              "" (fun _ => ""%string) _ "h.bo.s" "r-1" 1700000000000 eq_refl)
    as (Hcontent & signature & Hheader & _ & Hlen).
  exists signature. split; [reflexivity|]. split; [exact Hcontent|].
  split; [exact Hheader|exact Hlen].
Defined.

End ClientMore.

(** ** Beyond the specification: the echo tool *)
Module EchoMore.
Import Tools.

Lemma echo_search_tag (before text after : string) :
  free_of "<" before = true -> free_of "<" text = true ->
  EchoTool.search (before +:+ "<echo>" +:+ text +:+ "</echo>" +:+ after)
  = Some text.
Proof.
  intros Hbefore Htext. unfold EchoTool.search.
  rewrite (TextFacts.split_at_free "<" "echo>" before _ Hbefore).
  rewrite (TextFacts.split_at_free "<" "/echo>" text after Htext). reflexivity.
Qed.

(** X12: The echo tool reads its tag back.  Its predicate holds of a message
    exactly when its extractor finds a request; the request is the
    stripped text of the tag, so stripping it again changes nothing; a
    message that holds the tag around a text, with no other [<] before
    the closing tag, gives that text stripped; and dispatching on such a
    message in a registry that holds the echo tool runs it, unless the
    stripped text is empty. *)
Theorem echo_reads_its_tag (message : string) :
  (EchoTool.can_handle message = true
   <-> exists request, EchoTool.extract_request message = Some request)
  /\ (forall request,
        EchoTool.extract_request message = Some request -> strip request = request)
  /\ (forall before text after,
        free_of "<" before = true -> free_of "<" text = true ->
        message = before +:+ "<echo>" +:+ text +:+ "</echo>" +:+ after ->
        EchoTool.extract_request message = Some (strip text)
        /\ forall (Env : Type) (env : Env),
             execute_if_applicable (register_all empty_registry [EchoTool.tool])
               message None env
             = if String.eqb (strip text) "" then ((false, None), env)
               else ((true,
                      Some (join nl ["TOOL_RESULT echo";
                                     "request: " +:+ strip text;
                                     "success: yes";
                                     "output:" +:+ nl +:+ "ECHO: " +:+ strip text]%string)),
                     env)).
Proof.
  split; [|split].
  - unfold EchoTool.can_handle, EchoTool.extract_request.
    destruct (EchoTool.search message) as [group1|].
    + split; [eauto|reflexivity].
    + split; [discriminate|intros [request [=]]].
  - unfold EchoTool.extract_request. intros request.
    destruct (EchoTool.search message) as [group1|]; [|discriminate].
    intros [= <-]. apply TextFacts.strip_idem.
  - intros before text after Hbefore Htext ->.
    assert (Hsearch := echo_search_tag before text after Hbefore Htext).
    assert (Hrequest : EchoTool.extract_request
                         (before +:+ "<echo>" +:+ text +:+ "</echo>" +:+ after)
                       = Some (strip text))
      by (unfold EchoTool.extract_request; rewrite Hsearch; reflexivity).
    split; [exact Hrequest|].
    intros Env env. unfold execute_if_applicable, find_tool_for_message.
    change (get_enabled_tools (register_all empty_registry [EchoTool.tool (Env := Env)]))
      with (map snd
              (List.filter
                 (fun entry : string * BaseTool Env =>
                    bool_decide (fst entry ∈ ({[ "echo"%string ]} ∪ ∅ : gset string)))
                 [("echo"%string, EchoTool.tool)])).
    cbn [List.filter fst].
    rewrite bool_decide_eq_true_2
      by (apply elem_of_union; left; apply elem_of_singleton; reflexivity).
    cbn [map snd first_handler]. cbn [can_handle EchoTool.tool].
    unfold EchoTool.can_handle. rewrite Hsearch.
    cbn [extract_request EchoTool.tool]. rewrite Hrequest. cbn [truthy_str].
    destruct (String.eqb (strip text) ""); reflexivity.
Qed.

Lemma echo_reads_its_tag_witness :
  EchoTool.extract_request "say <echo> hi </echo> now" = Some "hi"%string
  /\ execute_if_applicable (register_all empty_registry [EchoTool.tool])
       "say <echo> hi </echo> now" None tt
     = ((true,
         Some (join nl ["TOOL_RESULT echo"; "request: hi"; "success: yes";
                        "output:" +:+ nl +:+ "ECHO: hi"]%string)), tt).
Proof.
  destruct (echo_reads_its_tag "say <echo> hi </echo> now") as (_ & _ & Htag).
  destruct (Htag "say "%string " hi "%string " now"%string eq_refl eq_refl eq_refl)
    as [Hrequest Hrun].
  split; [exact Hrequest|]. exact (Hrun unit tt).
Defined.

End EchoMore.

(** ** Beyond the specification: the registry *)
Module ToolsMore.
Import Tools.

Lemma dict_lookup_set_same {V} (d : list (string * V)) (key : string) (value : V) :
  dict_lookup (dict_set d key value) key = Some value.
Proof.
  induction d as [|[k v] d IH]; cbn [dict_set dict_lookup].
  - rewrite String.eqb_refl. reflexivity.
  - destruct (String.eqb k key) eqn:Hk; cbn [dict_lookup]; rewrite Hk; auto.
Qed.

Lemma dict_lookup_set_other {V} (d : list (string * V)) (key other : string)
    (value : V) :
  other <> key ->
  dict_lookup (dict_set d key value) other = dict_lookup d other.
Proof.
  intros Hother. induction d as [|[k v] d IH]; cbn [dict_set dict_lookup].
  - destruct (String.eqb_spec key other); [congruence|reflexivity].
  - destruct (String.eqb_spec k key) as [->|Hk]; cbn [dict_lookup].
    + destruct (String.eqb_spec key other); [congruence|reflexivity].
    + rewrite IH. reflexivity.
Qed.

Lemma dict_set_present {V} (d : list (string * V)) (key : string) (value : V) :
  In key (map fst d) -> map fst (dict_set d key value) = map fst d.
Proof.
  induction d as [|[k v] d IH]; [intros []|].
  cbn [dict_set map fst]. destruct (String.eqb_spec k key) as [->|Hk].
  - reflexivity.
  - intros [Heq|Hin]; [contradiction|]. cbn [map fst]. f_equal. exact (IH Hin).
Qed.

Lemma dict_lookup_registered {V} (d : list (string * V)) (key : string) :
  In key (map fst d) <-> exists v, dict_lookup d key = Some v.
Proof.
  induction d as [|[k v] d IH]; cbn [map fst dict_lookup In].
  - split; [intros []|intros [v [=]]].
  - destruct (String.eqb_spec k key) as [->|Hk].
    + split; eauto.
    + rewrite <- IH. split; [intros [?|?]; [contradiction|assumption]|auto].
Qed.

Lemma dict_set_Forall {V} (P : string * V -> Prop) (d : list (string * V))
    (key : string) (value : V) :
  Forall P d -> P (key, value) -> Forall P (dict_set d key value).
Proof.
  intros Hd Hnew. induction Hd as [|[k v] d Hkv Hd IH]; cbn [dict_set].
  - constructor; [exact Hnew|constructor].
  - destruct (String.eqb_spec k key) as [->|Hk]; constructor; auto.
Qed.

Section Registry.
Context {Env : Type}.
Implicit Types (reg : ToolRegistry Env) (tool : BaseTool Env).

Lemma keys_register_present reg tool (enabled : bool) :
  In (name tool) (keys reg) -> keys (register reg tool enabled) = keys reg.
Proof. apply dict_set_present. Qed.

Lemma keys_register_fresh reg tool (enabled : bool) :
  ~ In (name tool) (keys reg) ->
  keys (register reg tool enabled) = keys reg ++ [name tool].
Proof.
  intros Hout. unfold keys, register. cbn [_tools].
  rewrite (ToolsFacts.dict_set_fresh _ _ _ Hout), map_app. reflexivity.
Qed.

(** X8: [register] is an insertion into an ordered dictionary, and
    [get_tool] the lookup.  A tool registered is found under its name,
    the other names keep their tools; a name registered again keeps its
    place in the order, which is the order of dispatch, while a new name
    goes last; and registering a tool as not enabled does not disable a
    name that is enabled already. *)
Theorem register_then_get_tool reg tool (enabled : bool) :
  get_tool (register reg tool enabled) (name tool) = Some tool
  /\ (forall other, other <> name tool ->
        get_tool (register reg tool enabled) other = get_tool reg other)
  /\ (In (name tool) (keys reg) -> keys (register reg tool enabled) = keys reg)
  /\ (~ In (name tool) (keys reg) ->
      keys (register reg tool enabled) = keys reg ++ [name tool])
  /\ (forall n, n ∈ _enabled_tools reg -> n ∈ _enabled_tools (register reg tool enabled))
  /\ (get_tool reg (name tool) = None -> enabled = false ->
      enabled_registered reg ->
      name tool ∉ _enabled_tools (register reg tool enabled)).
Proof.
  split; [|split; [|split; [|split; [|split]]]].
  - apply dict_lookup_set_same.
  - intros other Hother. apply dict_lookup_set_other, Hother.
  - apply keys_register_present.
  - apply keys_register_fresh.
  - intros n Hn. unfold register. cbn [_enabled_tools].
    destruct enabled; set_solver.
  - intros Hnone -> Hreg Hin. cbn [register _enabled_tools] in Hin.
    apply Hreg, dict_lookup_registered in Hin as [v Hv].
    unfold get_tool in Hnone. congruence.
Qed.

(** *** What the registry maintains *)

Lemma keys_enable reg (n : string) : keys (enable reg n) = keys reg.
Proof. unfold enable. destruct (dict_lookup _ _); reflexivity. Qed.

Lemma tools_enable reg (n : string) : _tools (enable reg n) = _tools reg.
Proof. unfold enable. destruct (dict_lookup _ _); reflexivity. Qed.

Lemma enabled_enable reg (n m : string) :
  m ∈ _enabled_tools (enable reg n)
  <-> (m = n /\ In n (keys reg)) \/ m ∈ _enabled_tools reg.
Proof.
  unfold enable.
  destruct (dict_lookup (_tools reg) n) as [tool|] eqn:Hlookup; cbn [_enabled_tools].
  - assert (Hin : In n (keys reg)) by (apply dict_lookup_registered; eauto).
    rewrite elem_of_union, elem_of_singleton. tauto.
  - assert (~ In n (keys reg)).
    { intros [v Hv]%dict_lookup_registered. congruence. }
    tauto.
Qed.

Lemma enabled_disable reg (n m : string) :
  m ∈ _enabled_tools (disable reg n) <-> m <> n /\ m ∈ _enabled_tools reg.
Proof.
  unfold disable. cbn [_enabled_tools].
  rewrite elem_of_difference, elem_of_singleton. tauto.
Qed.

(** X9: The registry stays consistent.  The empty registry is consistent,
    and [register], [enable] and [disable] keep it so: only registered
    names are enabled, no name is registered twice, every tool sits
    under its own name.  Enabling a name that is not registered changes
    nothing, and enabling a registered name again after disabling it
    gives back the set of enabled names there was. *)
Theorem registry_stays_consistent reg :
  consistent (empty_registry (Env := Env))
  /\ (consistent reg ->
      (forall tool enabled, consistent (register reg tool enabled))
      /\ (forall n, consistent (enable reg n))
      /\ (forall n, consistent (disable reg n)))
  /\ (forall n, ~ In n (keys reg) -> enable reg n = reg)
  /\ (forall n, n ∈ _enabled_tools reg -> In n (keys reg) ->
        _enabled_tools (enable (disable reg n) n) = _enabled_tools reg).
Proof.
  split; [|split; [|split]].
  - split; [intros n Hn; set_solver|]. split; constructor.
  - intros (Henabled & Hnodup & Hkeyed). split; [|split].
    + intros tool enabled.
      assert (Hkeys : forall n, In n (keys reg) -> In n (keys (register reg tool enabled))).
      { intros n Hn. destruct (in_dec string_dec (name tool) (keys reg)) as [Hin|Hout].
        - rewrite (keys_register_present _ _ _ Hin). exact Hn.
        - rewrite (keys_register_fresh _ _ _ Hout). apply in_or_app. auto. }
      assert (Hnew : In (name tool) (keys (register reg tool enabled))).
      { apply dict_lookup_registered. exists tool. apply dict_lookup_set_same. }
      split; [|split].
      * intros n Hn. unfold register in Hn. cbn [_enabled_tools] in Hn.
        destruct enabled.
        -- apply elem_of_union in Hn as [Hn%elem_of_singleton|Hn];
             [subst n; exact Hnew|auto].
        -- auto.
      * destruct (in_dec string_dec (name tool) (keys reg)) as [Hin|Hout].
        -- rewrite (keys_register_present _ _ _ Hin). exact Hnodup.
        -- rewrite (keys_register_fresh _ _ _ Hout).
           apply List.NoDup_app; [exact Hnodup|repeat constructor; intros []|].
           intros n Hn [<-|[]]. contradiction.
      * apply dict_set_Forall; [exact Hkeyed|reflexivity].
    + intros n. split; [|split].
      * intros m Hm. rewrite keys_enable.
        apply enabled_enable in Hm as [[-> Hin]|Hm]; auto.
      * rewrite keys_enable. exact Hnodup.
      * unfold keyed_by_name. rewrite tools_enable. exact Hkeyed.
    + intros n. split; [|split; [exact Hnodup|exact Hkeyed]].
      intros m Hm. apply enabled_disable in Hm as [_ Hm]. auto.
  - intros n Hout. unfold enable.
    destruct (dict_lookup (_tools reg) n) as [tool|] eqn:Hlookup; [|reflexivity].
    exfalso. apply Hout, dict_lookup_registered. eauto.
  - intros n Hn Hin. apply set_eq. intros m.
    rewrite enabled_enable, enabled_disable.
    change (keys (disable reg n)) with (keys reg).
    split; [intros [[-> _]|[_ Hm]]; assumption|].
    intros Hm. destruct (string_dec m n) as [->|Hne]; auto.
Qed.

(** *** Dispatch and the enabled names *)

Lemma get_enabled_tools_In reg tool :
  In tool (get_enabled_tools reg)
  <-> exists key, In (key, tool) (_tools reg) /\ key ∈ _enabled_tools reg.
Proof.
  unfold get_enabled_tools. rewrite in_map_iff. split.
  - intros ([key tool'] & Hsnd & [Hin Hkey]%filter_In). cbn in Hsnd, Hkey. subst tool'.
    exists key. split; [exact Hin|]. apply bool_decide_eq_true in Hkey. exact Hkey.
  - intros (key & Hin & Hkey). exists (key, tool). split; [reflexivity|].
    apply filter_In. split; [exact Hin|]. apply bool_decide_eq_true. exact Hkey.
Qed.

Lemma find_tool_enabled reg (message : string) tool :
  find_tool_for_message reg message = Some tool ->
  can_handle tool message = true
  /\ exists key, In (key, tool) (_tools reg) /\ key ∈ _enabled_tools reg.
Proof.
  unfold find_tool_for_message. intros Hfind.
  pose proof (ToolsFacts.first_handler_spec (get_enabled_tools reg) message) as Hspec.
  rewrite Hfind in Hspec. destruct Hspec as (before & after & Hlist & Hcan & _).
  split; [exact Hcan|]. apply get_enabled_tools_In.
  rewrite Hlist. apply in_or_app. right. left. reflexivity.
Qed.

(** X10: Dispatch touches the world only through an enabled tool.  When
    [execute_if_applicable] reports that nothing was executed, there is
    no result and the world of the tools is as it was; when it reports
    an execution, the tool that ran is registered under an enabled name,
    its predicate holds of the message and the request it ran on is the
    one it extracted, not empty.  A tool registered under a name that
    has been disabled is therefore never run. *)
Theorem dispatch_runs_enabled_tools_only reg (message : string)
    (context : option json) (env env' : Env) (executed : bool)
    (result : option string) :
  execute_if_applicable reg message context env = ((executed, result), env') ->
  (executed = false -> result = None /\ env' = env)
  /\ (executed = true ->
      exists key tool request,
        In (key, tool) (_tools reg)
        /\ key ∈ _enabled_tools reg
        /\ can_handle tool message = true
        /\ extract_request tool message = Some request
        /\ request <> ""%string
        /\ result = Some (fst (execute tool request context env))
        /\ env' = snd (execute tool request context env)
        /\ (keyed_by_name reg -> name tool = key)
        /\ (forall reg0 n, reg = disable reg0 n -> key <> n)).
Proof.
  unfold execute_if_applicable.
  destruct (find_tool_for_message reg message) as [tool|] eqn:Hfind.
  - apply find_tool_enabled in Hfind as (Hcan & key & Hin & Hkey).
    destruct (extract_request tool message) as [request|] eqn:Hrequest;
      cbn [truthy_str negb].
    + destruct (String.eqb_spec request "") as [->|Hne]; cbn [negb].
      * intros [= <- <- <-]. split; [auto|discriminate].
      * cbn [default from_option id].
        destruct (execute tool request context env) as [text env1] eqn:Hrun.
        intros [= <- <- <-]. split; [discriminate|].
        intros _. exists key, tool, request. rewrite Hrun. cbn [fst snd].
        repeat (split; [assumption || reflexivity|]). split.
        -- intros Hkeyed. unfold keyed_by_name in Hkeyed.
           rewrite List.Forall_forall in Hkeyed.
           specialize (Hkeyed _ Hin). cbn in Hkeyed. congruence.
        -- intros reg0 n ->. apply enabled_disable in Hkey as [Hne' _]. exact Hne'.
    + intros [= <- <- <-]. split; [auto|discriminate].
  - intros [= <- <- <-]. split; [auto|discriminate].
Qed.

(** *** The list of enabled tools of the configuration *)

Lemma configure_step_tools reg (items : list json) (all_tools : list string) :
  _tools (fold_left
            (fun r tool_name =>
               if Cli.listed items tool_name then enable r tool_name
               else disable r tool_name)
            all_tools reg)
  = _tools reg.
Proof.
  revert reg. induction all_tools as [|m rest IH]; intros reg; [reflexivity|].
  cbn [fold_left]. rewrite IH.
  destruct (Cli.listed items m); [apply tools_enable|reflexivity].
Qed.

Lemma configure_step_enabled (items : list json) (all_tools : list string) reg
    (n : string) :
  (forall m, In m all_tools -> In m (keys reg)) ->
  let reg' :=
    fold_left
      (fun r tool_name =>
         if Cli.listed items tool_name then enable r tool_name
         else disable r tool_name)
      all_tools reg in
  (In n all_tools -> (n ∈ _enabled_tools reg' <-> Cli.listed items n = true))
  /\ (~ In n all_tools -> (n ∈ _enabled_tools reg' <-> n ∈ _enabled_tools reg)).
Proof.
  revert reg. induction all_tools as [|m rest IH]; intros reg Hreg reg'.
  - split; [intros []|tauto].
  - cbn [fold_left] in reg'.
    set (reg1 := if Cli.listed items m then enable reg m else disable reg m) in *.
    assert (Hkeys : keys reg1 = keys reg).
    { unfold reg1. destruct (Cli.listed items m); [apply keys_enable|reflexivity]. }
    assert (Hm : m ∈ _enabled_tools reg1 <-> Cli.listed items m = true).
    { unfold reg1. destruct (Cli.listed items m) eqn:Hlisted.
      - rewrite enabled_enable. split; [reflexivity|].
        intros _. left. split; [reflexivity|]. apply Hreg. left. reflexivity.
      - rewrite enabled_disable. split; [intros [[] _]; reflexivity|discriminate]. }
    assert (Hother : n <> m -> (n ∈ _enabled_tools reg1 <-> n ∈ _enabled_tools reg)).
    { intros Hne. unfold reg1. destruct (Cli.listed items m).
      - rewrite enabled_enable. split; [intros [[-> _]|?]; [contradiction|assumption]|auto].
      - rewrite enabled_disable. tauto. }
    destruct (IH reg1) as [Hin Hout].
    { intros k Hk. rewrite Hkeys. apply Hreg. right. exact Hk. }
    fold reg' in Hin, Hout.
    destruct (in_dec string_dec n rest) as [Hrest|Hrest].
    + split; [intros _; apply Hin, Hrest|].
      intros Hnot. exfalso. apply Hnot. right. exact Hrest.
    + destruct (string_dec n m) as [->|Hne].
      * split; [intros _; rewrite (Hout Hrest); exact Hm|].
        intros Hnot. exfalso. apply Hnot. left. reflexivity.
      * split; [intros [Heq|Hr]; [congruence|contradiction]|].
        intros _. rewrite (Hout Hrest). apply Hother, Hne.
Qed.

(** X11: The list of enabled tools of the configuration is an allow-list.
    When the configuration gives a list, then after [_setup_tools] the
    enabled tools are exactly the registered tools whose names are in
    the list, whatever was enabled before and in whatever order Python
    goes through the set of names; names in the list that are not
    registered have no effect and no tool is added or removed.  When
    the entry is not a list the registry is left as it is. *)
Theorem configure_enabled_is_allow_list reg (enabled_tools : json)
    (all_tools : list string) :
  consistent reg ->
  (forall n, In n all_tools
             <-> In n (map (fun entry => name (snd entry)) (_tools reg))) ->
  let reg' := Cli.configure_enabled reg enabled_tools all_tools in
  _tools reg' = _tools reg
  /\ consistent reg'
  /\ (forall items, enabled_tools = JArr items ->
        forall n, n ∈ _enabled_tools reg'
                  <-> In n (keys reg) /\ Cli.listed items n = true)
  /\ ((forall items, enabled_tools <> JArr items) -> reg' = reg).
Proof.
  intros (Henabled & Hnodup & Hkeyed) Hall reg'.
  assert (Hnames : map (fun entry => name (snd entry)) (_tools reg) = keys reg).
  { unfold keys. apply map_ext_in. intros entry Hentry.
    unfold keyed_by_name in Hkeyed. rewrite List.Forall_forall in Hkeyed.
    symmetry. apply Hkeyed, Hentry. }
  rewrite Hnames in Hall.
  destruct enabled_tools as [| | | |items|];
    try (split; [reflexivity|]; split; [repeat split; assumption|];
         split; [discriminate|reflexivity]).
  unfold Cli.configure_enabled in reg'.
  assert (Htools : _tools reg' = _tools reg) by apply configure_step_tools.
  assert (Hset : forall n, n ∈ _enabled_tools reg'
                           <-> In n (keys reg) /\ Cli.listed items n = true).
  { intros n.
    destruct (configure_step_enabled items all_tools reg n) as [Hin Hout].
    { intros m Hm. apply Hall, Hm. }
    fold reg' in Hin, Hout.
    destruct (in_dec string_dec n all_tools) as [Hn|Hn].
    - rewrite (Hin Hn). split; [intros Hl; split; [apply Hall, Hn|exact Hl]|tauto].
    - rewrite (Hout Hn). split.
      + intros He. exfalso. apply Hn, Hall, Henabled, He.
      + intros [Hk _]. exfalso. apply Hn, Hall, Hk. }
  split; [exact Htools|]. split; [|split].
  - split; [|split].
    + intros n Hn. unfold keys. rewrite Htools. apply Hset in Hn as [Hk _]. exact Hk.
    + unfold keys. rewrite Htools. exact Hnodup.
    + unfold keyed_by_name. rewrite Htools. exact Hkeyed.
  - intros items' [= <-]. exact Hset.
  - intros Hnot. exfalso. apply (Hnot items). reflexivity.
Qed.

End Registry.

Lemma register_then_get_tool_witness :
  let reg := register_all empty_registry [EchoTool.tool (Env := unit); Demo.loud] in
  let quiet_echo : BaseTool unit := {|
    name := "echo"; description := "replacement";
    can_handle := fun _ => false; extract_request := fun _ => None;
    execute := fun _ _ env => (""%string, env) |} in
  option_map description (get_tool (register reg quiet_echo false) "echo")
  = Some "replacement"%string
  /\ option_map description (get_tool (register reg quiet_echo false) "loud")
     = Some "Echo in capitals"%string
  /\ keys (register reg quiet_echo false) = ["echo"; "loud"]%string
  /\ "echo"%string ∈ _enabled_tools (register reg quiet_echo false).
Proof.
  intros reg quiet_echo.
  destruct (register_then_get_tool reg quiet_echo false)
    as (Hget & Hother & Hkeys & _ & Henabled & _).
  split; [change "echo"%string with (name quiet_echo); rewrite Hget; reflexivity|].
  split; [rewrite (Hother "loud"%string); [reflexivity|discriminate]|].
  split; [apply Hkeys; left; reflexivity|].
  apply Henabled. cbn. apply elem_of_union. right.
  apply elem_of_union. left. apply elem_of_singleton. reflexivity.
Defined.

Lemma registry_stays_consistent_witness :
  let reg :=
    register (register empty_registry (EchoTool.tool (Env := unit)) true)
             Demo.loud true in
  consistent reg
  /\ consistent (disable reg "echo")
  /\ enable reg "nobody" = reg
  /\ _enabled_tools (enable (disable reg "echo") "echo") = _enabled_tools reg.
Proof.
  intros reg.
  destruct (registry_stays_consistent (empty_registry (Env := unit)))
    as (Hempty & Hkeep0 & _).
  destruct (Hkeep0 Hempty) as (Hregister0 & _).
  destruct (registry_stays_consistent
              (register empty_registry (EchoTool.tool (Env := unit)) true))
    as (_ & Hkeep1 & _).
  destruct (Hkeep1 (Hregister0 EchoTool.tool true)) as (Hregister1 & _).
  destruct (registry_stays_consistent reg) as (_ & Hkeep & Hunknown & Hback).
  destruct (Hkeep (Hregister1 Demo.loud true)) as (_ & _ & Hdisable).
  split; [exact (Hregister1 Demo.loud true)|]. split; [apply Hdisable|].
  split.
  - apply Hunknown. cbn. intros [Heq|[Heq|[]]]; discriminate Heq.
  - apply Hback.
    + cbn. apply elem_of_union. right. apply elem_of_union. left.
      apply elem_of_singleton. reflexivity.
    + cbn. left. reflexivity.
Defined.

Example loud_runs_when_echo_is_disabled :
  execute_if_applicable
    (disable (register_all empty_registry [EchoTool.tool (Env := unit); Demo.loud])
             "echo")
    "<echo>x</echo>" None tt
  = ((true, Some "LOUD: x"%string), tt).
Proof. vm_compute. reflexivity. Qed.

Lemma dispatch_runs_enabled_tools_only_witness :
  let reg :=
    disable (register_all empty_registry [EchoTool.tool (Env := unit); Demo.loud])
            "echo" in
  exists key tool request,
    In (key, tool) (_tools reg)
    /\ key ∈ _enabled_tools reg
    /\ key <> "echo"%string
    /\ extract_request tool "<echo>x</echo>" = Some request
    /\ Some "LOUD: x"%string = Some (fst (execute tool request None tt)).
Proof.
  intros reg.
  destruct (dispatch_runs_enabled_tools_only reg "<echo>x</echo>" None tt tt true
              (Some "LOUD: x"%string) loud_runs_when_echo_is_disabled)
    as (_ & Hrun).
  destruct (Hrun eq_refl)
    as (key & tool & request & Hin & Hkey & _ & Hrequest & _ & Hresult & _ & _ & Hdisabled).
  exists key, tool, request.
  split; [exact Hin|]. split; [exact Hkey|].
  split; [apply (Hdisabled _ "echo"%string eq_refl)|].
  split; [exact Hrequest|exact Hresult].
Defined.

Lemma demo_registry_consistent :
  consistent (register (register empty_registry (EchoTool.tool (Env := unit)) true)
                       Demo.loud true).
Proof.
  split; [|split].
  - intros n Hn. cbn in Hn.
    apply elem_of_union in Hn as [Hn%elem_of_singleton|Hn];
      [subst n; right; left; reflexivity|].
    apply elem_of_union in Hn as [Hn%elem_of_singleton|Hn];
      [subst n; left; reflexivity|].
    apply not_elem_of_empty in Hn. destruct Hn.
  - cbn. apply List.NoDup_cons; [intros [Heq|[]]; discriminate Heq|].
    apply List.NoDup_cons; [intros []|apply List.NoDup_nil].
  - repeat constructor.
Qed.

Lemma configure_enabled_is_allow_list_witness :
  let reg :=
    register (register empty_registry (EchoTool.tool (Env := unit)) true)
             Demo.loud true in
  let reg' :=
    Cli.configure_enabled reg (JArr [JStr "loud"; JStr "shell"; JNum 3])
      ["loud"; "echo"]%string in
  _tools reg' = _tools reg
  /\ ("loud"%string ∈ _enabled_tools reg')
  /\ ("echo"%string ∉ _enabled_tools reg')
  /\ ("shell"%string ∉ _enabled_tools reg').
Proof.
  intros reg reg'.
  destruct (configure_enabled_is_allow_list reg
              (JArr [JStr "loud"; JStr "shell"; JNum 3]) ["loud"; "echo"]%string
              demo_registry_consistent)
    as (Htools & _ & Hset & _).
  { intros n. cbn. tauto. }
  split; [exact Htools|]. split; [|split].
  - apply (Hset _ eq_refl). split; [right; left; reflexivity|reflexivity].
  - intros Hin. apply (Hset _ eq_refl) in Hin as [_ Hlisted]. discriminate Hlisted.
  - intros Hin. apply (Hset _ eq_refl) in Hin as [[Heq|[Heq|[]]] _]; discriminate Heq.
Defined.

End ToolsMore.

(** ** Beyond the specification: the report tool *)
Module ReportMore.
Import Tools Tools.ReportTool.

(** *** The report tool: from the tag to the file *)









(** A title with a [|] in it is cut there: the rest of the title goes
    into the finding. *)
Example report_title_with_bar :
  let message := "<report title='a|b'>c</report>"%string in
  extract_request message = Some "a|b|c"%string
  /\ report_file
       (snd (execute "a|b|c" "2024-05-01 10:00:00"
               {| report_file := None; printed := [] |}))
     = Some (HEADER +:+ entry_text "001" "a" "2024-05-01 10:00:00" "b|c").
Proof. vm_compute. auto. Qed.

(** *** Identifiers of the report *)



(** A marker of 4301 digits in the report: the tool reports the failure
    of the conversion, and the report stays as it is. *)
Example report_stuck_on_a_long_marker :
  let env :=
    {| report_file :=
         Some ("### ID: " +:+ string_of_list_ascii (repeat "1"%char (N.to_nat 4301)));
       printed := [] |} in
  execute "X|finding" "2024-05-01 10:00:00" env
  = (join nl ["TOOL_RESULT report"; "request: X"; "success: no";
              "error:" +:+ nl +:+ int_limit_message (N.to_nat 4301)]%string,
     env).
Proof. vm_compute. reflexivity. Qed.

End ReportMore.

(** ** Beyond the specification: the loop *)
Module LoopMore.
Import State Client Tools Cli.

Section Loop.
Context {Env : Type} {ext : Externals} {remote : Remote}.
Implicit Types (w : World Env) (event : json).

(** *** Events that carry no text *)

(** X15: Only an event with text touches the world.  An event without a
    delta that is true in the sense of Python leaves the world as it is,
    also when it carries the flag [done] or the phase ["done"]: it is
    skipped, or the handler raises because the event or its data is no
    object.  And the parent link changes in the loop only at an event
    that carries a delta together with a terminal signal. *)
Theorem events_without_text_change_nothing event w :
  (delta_of event = None ->
     handle_event event w = (Ok tt, w)
     \/ handle_event event w = (Raise AttributeError, w))
  /\ (forall r w',
        handle_event event w = (r, w') ->
        current_user_message_parent_id (state w')
        <> current_user_message_parent_id (state w) ->
        terminal event = true
        /\ current_user_message_parent_id (state w')
           = current_assistant_message_id (state w))
  /\ (forall events,
        Forall (fun e => delta_of e = None) events ->
        exists r, for_each events handle_event w = (r, w)).
Proof.
  assert (Hnone : forall e w0,
             delta_of e = None ->
             handle_event e w0 = (Ok tt, w0)
             \/ handle_event e w0 = (Raise AttributeError, w0)).
  { intros e w0 Hdelta.
    pose proof (CliFacts.handle_event_verdict e w0 (current_assistant_content (state w0))
                  (current_user_message_parent_id (state w0)) []) as Hrun.
    rewrite <- CliFacts.advance_start in Hrun.
    destruct (CliFacts.verdict_of_no_delta (runtime_show_thinking (state w0)) e Hdelta)
      as [Hv|Hv]; rewrite Hv in Hrun; auto. }
  split; [apply Hnone|]. split.
  - intros r w' Hrun Hlink.
    pose proof (CliFacts.handle_event_verdict event w (current_assistant_content (state w))
                  (current_user_message_parent_id (state w)) []) as Hverdict.
    rewrite <- CliFacts.advance_start, Hrun in Hverdict.
    unfold closing in Hverdict.
    destruct (verdict_of (runtime_show_thinking (state w)) event);
      injection Hverdict as -> ->; try contradiction;
      cbn [advance state set_progress current_user_message_parent_id] in Hlink |- *;
      destruct (terminal event); try contradiction; auto.
  - intros events Hevents. induction Hevents as [|e events He _ [r IH]].
    + exists (Ok tt). reflexivity.
    + cbn [for_each]. unfold bind.
      destruct (Hnone e w He) as [-> | ->]; [exists r; exact IH|eauto].
Qed.

(** *** Identifiers along the loop *)

Lemma stream_current_turn_link (prompt : string) w r w' :
  _stream_current_turn prompt w = (r, w') ->
  current_user_message_parent_id (state w')
  = current_user_message_parent_id (state w)
  \/ current_user_message_parent_id (state w')
     = current_assistant_message_id (state w).
Proof.
  unfold _stream_current_turn. unfold bind at 1. unfold build_payload.
  destruct (build_completion_payload _ _ _) as [payload|e]; [|intros [= _ <-]; auto].
  unfold bind at 1. unfold send. fold (sent w payload).
  destruct (stream_completion _) as [events|e]; [|intros [= _ <-]; auto].
  destruct (CliFacts.for_each_advance events (sent w payload)
              (current_assistant_content (state (sent w payload)))
              (current_user_message_parent_id (state (sent w payload))) [])
    as (r1 & c & p & out & Hrun & Hp & _).
  rewrite <- CliFacts.advance_start in Hrun. unfold bind at 1. rewrite Hrun.
  destruct r1 as [[]|e].
  - unfold bind at 1. rewrite CliFacts.modify_finish, CliFacts.print_advance.
    intros [= _ <-]. right. reflexivity.
  - intros [= _ <-]. exact Hp.
Qed.

Lemma set_progress_allocated (s : ChatState) (c : string) (p : option string) :
  ids_allocated s ->
  p = current_user_message_parent_id s \/ p = current_assistant_message_id s ->
  ids_allocated (set_progress s c p).
Proof.
  intros (Huser & Hparent & Hassistant) [-> | ->];
    (split; [exact Huser|split; [|exact Hassistant]]); assumption.
Qed.

Lemma begin_turn_allocated (s : ChatState) (prompt : string) :
  ids_allocated s -> ids_allocated (snd (begin_turn s prompt)).
Proof.
  intros (Huser & Hparent & Hassistant). split; [|split].
  - exists (_uuid_calls s). cbn. split; [lia|reflexivity].
  - revert Hparent. apply StateMore.allocated_mono; cbn; [reflexivity|lia].
  - exists (S (_uuid_calls s)). cbn. split; [lia|reflexivity].
Qed.

Lemma run_turn_distinct (prompt : string) w r w' :
  _run_turn prompt w = (r, w') -> requests_distinct w -> requests_distinct w'.
Proof.
  intros Hrun (Hids & Hfresh & Hreqs & Hnodup).
  pose proof Hrun as Hlink. rewrite CliFacts.run_turn_begin in Hlink.
  apply stream_current_turn_link in Hlink. cbn [state] in Hlink.
  destruct (CliFacts.run_turn_inv _ _ _ _ Hrun) as (c & p & Hstate & _ & _ & _ & Hsent).
  set (s1 := snd (begin_turn (state w) prompt)) in *.
  assert (Hp : p = current_user_message_parent_id s1
               \/ p = current_assistant_message_id s1)
    by (rewrite Hstate in Hlink; exact Hlink).
  assert (Hids' : ids_allocated (state w')).
  { rewrite Hstate. apply set_progress_allocated; [|exact Hp].
    apply begin_turn_allocated, Hids. }
  assert (Hfresh' : fresh_ids (state w')) by (rewrite Hstate; exact Hfresh).
  assert (Hmono : forall id, allocated (state w) id -> allocated (state w') id).
  { intros id. apply StateMore.allocated_mono; rewrite Hstate; cbn; [reflexivity|lia]. }
  assert (Hold : Forall (fun q => allocated (state w') (p_id q)
                                  /\ p_current_user_message_parent_id q <> p_id q)
                        (requests w)).
  { eapply List.Forall_impl; [|exact Hreqs]. intros q [Hq Hne]. auto. }
  unfold requests_distinct.
  destruct Hsent as [[_ Hsame] | (payload & Hbuild & Hsame)]; rewrite Hsame.
  - split; [exact Hids'|]. split; [exact Hfresh'|]. split; assumption.
  - apply StateFacts.build_ok_fields in Hbuild as (Hid & _ & Hparent & _).
    assert (Hnew : p_id payload = Some (_uuid_factory (state w) (S (_uuid_calls (state w)))))
      by (rewrite Hid; reflexivity).
    split; [exact Hids'|]. split; [exact Hfresh'|]. split.
    + apply Forall_app. split; [exact Hold|]. constructor; [|constructor]. split.
      * rewrite Hnew, Hstate. exists (S (_uuid_calls (state w))). cbn.
        split; [lia|reflexivity].
      * rewrite Hnew, Hparent. cbn.
        apply StateMore.allocated_neq; [exact Hfresh|apply Hids|lia].
    + rewrite map_app. cbn [map]. apply List.NoDup_app; [exact Hnodup| |].
      * constructor; [intros []|constructor].
      * intros id Hin [<-|[]]. apply in_map_iff in Hin as (q & Hq & Hin).
        rewrite List.Forall_forall in Hreqs. destruct (Hreqs q Hin) as [Halloc _].
        rewrite Hq, Hnew in Halloc.
        revert Halloc. intros (k & Hk & Heq). apply Hfresh in Heq. lia.
Qed.

Lemma dispatch_distinct w answer w' :
  dispatch w = (Ok answer, w') -> requests_distinct w -> requests_distinct w'.
Proof.
  unfold dispatch. destruct (execute_if_applicable _ _ _ _) as [a env'].
  intros [= _ <-]. auto.
Qed.

Lemma tool_iterations_distinct (n : nat) w r w' :
  tool_iterations n w = (r, w') -> requests_distinct w -> requests_distinct w'.
Proof.
  revert w. induction n as [|n IH]; intros w; [intros [= _ <-]; auto|].
  cbn [tool_iterations]. unfold bind at 1.
  destruct (dispatch w) as [[[executed result]|e] w1] eqn:Hdispatch.
  - intros Hrun Hw. apply (dispatch_distinct _ _ _ Hdispatch) in Hw. revert Hrun.
    destruct executed; cbn [negb]; [|intros [= _ <-]; exact Hw].
    unfold bind at 1.
    destruct (_run_turn (default ""%string result) w1) as [[[]|e] w2] eqn:Hturn;
      apply (run_turn_distinct _ _ _ _ Hturn) in Hw.
    + intros Hrest. apply (IH _ Hrest Hw).
    + intros [= _ <-]. exact Hw.
  - exfalso. revert Hdispatch. unfold dispatch.
    destruct (execute_if_applicable _ _ _ _). discriminate.
Qed.

Lemma run_tool_iterations_distinct (n : nat) (i max_iterations : Z) w r w' :
  run_tool_iterations i n max_iterations w = (r, w') ->
  requests_distinct w -> requests_distinct w'.
Proof.
  revert i w. induction n as [|n IH]; intros i w; [intros [= _ <-]; auto|].
  cbn [run_tool_iterations]. unfold bind at 1.
  destruct (dispatch w) as [[[executed result]|e] w1] eqn:Hdispatch.
  - intros Hrun Hw. apply (dispatch_distinct _ _ _ Hdispatch) in Hw. revert Hrun.
    destruct executed; cbn [negb]; [|intros [= _ <-]; exact Hw].
    unfold bind at 1. cbn [print]. unfold bind at 1.
    match goal with
    | |- context [_run_turn ?pr ?w0] =>
        destruct (_run_turn pr w0) as [[[]|e] w2] eqn:Hturn;
        apply (run_turn_distinct _ _ _ _ Hturn) in Hw
    end.
    + intros Hrest. apply (IH _ _ Hrest Hw).
    + intros [= _ <-]. exact Hw.
  - exfalso. revert Hdispatch. unfold dispatch.
    destruct (execute_if_applicable _ _ _ _). discriminate.
Qed.

(** X16: No two completion requests share an identifier.  With a factory
    that never repeats itself, the requests sent in the course of a turn
    and of its tool iterations have assistant-message identifiers that
    differ from those of all earlier requests and from one another, and
    none of them names its own identifier as its parent; this holds from
    a new state on, and whether the calls return or raise. *)
Theorem requests_never_share_an_identifier (prompt : string) (max_iterations : Z) w :
  (ids_allocated (state w) -> fresh_ids (state w) -> requests w = [] ->
     requests_distinct w)
  /\ (requests_distinct w ->
      forall r w',
        _run_turn prompt w = (r, w')
        \/ _run_turn_with_tools prompt max_iterations w = (r, w')
        \/ run_prompt prompt max_iterations w = (r, w') ->
        requests_distinct w'
        /\ List.NoDup (map p_id (requests w'))
        /\ Forall (fun p => p_current_user_message_parent_id p <> p_id p) (requests w')).
Proof.
  split.
  - intros Hids Hfresh Hnone. split; [exact Hids|]. split; [exact Hfresh|].
    rewrite Hnone. split; constructor.
  - intros Hw r w' Hrun.
    assert (Hw' : requests_distinct w').
    { destruct Hrun as [Hrun | [Hrun | Hrun]].
      - apply (run_turn_distinct _ _ _ _ Hrun Hw).
      - revert Hrun. unfold _run_turn_with_tools. unfold bind at 1.
        destruct (_run_turn prompt w) as [[[]|e] w1] eqn:Hturn;
          apply (run_turn_distinct _ _ _ _ Hturn) in Hw.
        + intros Hloop. apply (tool_iterations_distinct _ _ _ _ Hloop Hw).
        + intros [= _ <-]. exact Hw.
      - revert Hrun. unfold run_prompt. unfold bind at 1.
        destruct (_run_turn prompt w) as [[[]|e] w1] eqn:Hturn;
          apply (run_turn_distinct _ _ _ _ Hturn) in Hw.
        + intros Hloop. apply (run_tool_iterations_distinct _ _ _ _ _ _ Hloop Hw).
        + intros [= _ <-]. exact Hw. }
    split; [exact Hw'|]. destruct Hw' as (_ & _ & Hreqs & Hnodup).
    split; [exact Hnodup|].
    eapply List.Forall_impl; [|exact Hreqs]. intros q [_ Hne]. exact Hne.
Qed.

(** *** The turn under interrupts: the requests *)

Lemma sends_ret {A} (k : nat) (a : A) : sends (Env := Env) k (ret_i a).
Proof. intros w pending r w' pending' [= <- <- <-]. lia. Qed.

Lemma sends_bind {A B} (k1 k2 : nat) (m : I Env A) (f : A -> I Env B) :
  sends k1 m -> (forall a, sends k2 (f a)) -> sends (k1 + k2) (bind_i m f).
Proof.
  intros Hm Hf w pending r w' pending'. unfold bind_i.
  destruct (m (w, pending)) as [[a|e] [w1 pending1]] eqn:Hrun; apply Hm in Hrun.
  - intros Hk. apply Hf in Hk. lia.
  - intros [= <- <- <-]. lia.
Qed.

Lemma sends_whole {A} (k : nat) (m : M Env A) :
  (forall w r w', m w = (r, w') ->
     (length (requests w') <= length (requests w) + k)%nat) ->
  sends k (whole m).
Proof.
  intros Hm w pending r w' pending'. unfold whole. cbn [fst snd].
  destruct (m w) as [[a|e] w1] eqn:Hrun; apply Hm in Hrun;
    intros [= <- <- <-]; exact Hrun.
Qed.

Lemma sends_step {A} (k : nat) (m : M Env A) :
  (forall w r w', m w = (r, w') ->
     (length (requests w') <= length (requests w) + k)%nat) ->
  sends k (step m).
Proof.
  intros Hm w pending r w' pending'. unfold step. cbn [fst snd].
  destruct pending as [i|]; [destruct (after i)|].
  - intros [= <- <- <-]. lia.
  - apply (sends_whole k m Hm).
  - apply (sends_whole k m Hm).
Qed.

Lemma sends_step_tool {A} (k : nat) (m : M Env A) :
  (forall w r w', m w = (r, w') ->
     (length (requests w') <= length (requests w) + k)%nat) ->
  sends k (step_tool m).
Proof.
  intros Hm w pending r w' pending'. unfold step_tool. cbn [fst snd].
  destruct pending as [i|]; [destruct (after i)|].
  - intros [= <- <- <-]. cbn. lia.
  - apply (sends_whole k m Hm).
  - apply (sends_whole k m Hm).
Qed.

Lemma sends_for_each {A} (items : list A) (body : A -> I Env unit) :
  (forall item, sends 0 (body item)) -> sends 0 (for_each_i items body).
Proof.
  intros Hbody. induction items as [|item rest IH]; cbn [for_each_i].
  - apply sends_ret.
  - apply (sends_bind 0 0); [apply Hbody | intros _; exact IH].
Qed.

(** A computation that sends nothing. *)
Ltac no_request :=
  let w := fresh "w" in
  intros w ? ?;
  first
    [ unfold lift, ret, gets, modify, print, call_uuid_factory, build_payload;
      intros [= <- <-]; cbn [requests]; lia
    | unfold _print_thinking; destruct (String.eqb _ _); unfold print;
      intros [= <- <-]; cbn [requests]; lia
    | unfold apply_delta;
      match goal with |- context [match ?d with JNull => _ | _ => _ end] =>
        destruct d end;
      unfold lift, modify; intros [= <- <-]; cbn [requests]; lia
    | destruct (CliFacts.dispatch_frame w) as (? & ? & -> & _ & Hsame);
      intros [= <- <-]; rewrite Hsame; lia ].

Ltac sends_steps :=
  repeat first
    [ apply sends_ret
    | apply (sends_bind 0 0); [|intros ?]
    | apply sends_whole; no_request
    | apply sends_step; no_request
    | apply sends_step_tool; no_request
    | match goal with |- sends _ (if ?b then _ else _) => destruct b end ].

Lemma handle_event_i_sends event : sends (Env := Env) 0 (handle_event_i event).
Proof. unfold handle_event_i. sends_steps. Qed.

Lemma begin_turn_i_sends (prompt : string) : sends (Env := Env) 0 (begin_turn_i prompt).
Proof. unfold begin_turn_i. sends_steps. Qed.

Lemma send_adds_one (payload : CompletionPayload) w r w' :
  send payload w = (r, w') ->
  (length (requests w') <= length (requests w) + 1)%nat.
Proof.
  unfold send. intros [= <- <-]. cbn [requests]. rewrite length_app. cbn. lia.
Qed.

Lemma stream_current_turn_i_sends (prompt : string) :
  sends (Env := Env) 1 (_stream_current_turn_i prompt).
Proof.
  unfold _stream_current_turn_i.
  apply (sends_bind 0 1); [apply sends_step; no_request|]. intros payload.
  apply (sends_bind 1 0); [apply sends_step, send_adds_one|]. intros events.
  apply (sends_bind 0 0); [apply sends_for_each, handle_event_i_sends|].
  intros _. sends_steps.
Qed.

Lemma run_turn_i_sends (prompt : string) : sends (Env := Env) 1 (_run_turn_i prompt).
Proof.
  unfold _run_turn_i.
  apply (sends_bind 0 1); [apply begin_turn_i_sends|].
  intros _. apply stream_current_turn_i_sends.
Qed.

Lemma run_tool_iterations_i_sends (i : Z) (n : nat) (max_iterations : Z) :
  sends (Env := Env) n (run_tool_iterations_i i n max_iterations).
Proof.
  revert i. induction n as [|n IH]; intros i; cbn [run_tool_iterations_i].
  - apply sends_ret.
  - apply (sends_bind 0 (S n)); [apply sends_step_tool; no_request|].
    intros answer. destruct (negb (fst answer)); [apply sends_ret|].
    apply (sends_bind 0 (S n)); [apply sends_step; no_request|]. intros _.
    apply (sends_bind 1 n); [apply run_turn_i_sends|]. intros _. apply IH.
Qed.

Lemma loop_body_sends (text : string) (max_iterations : Z) :
  sends (Env := Env)
        (if String.eqb (strip text) "" then 0
         else if is_quit (strip text) then 0
         else 1 + Z.to_nat max_iterations)
        (loop_body text max_iterations).
Proof.
  unfold loop_body. cbn zeta.
  destruct (String.eqb (strip text) ""); [sends_steps|].
  destruct (is_quit (strip text)); [sends_steps|].
  apply (sends_bind 0 (1 + Z.to_nat max_iterations)); [apply sends_step; no_request|].
  intros _.
  apply (sends_bind 1 (Z.to_nat max_iterations)); [apply run_turn_i_sends|].
  intros _.
  replace (Z.to_nat max_iterations) with (Z.to_nat max_iterations + 0)%nat
    at 1 by lia.
  apply sends_bind; [apply run_tool_iterations_i_sends|].
  intros _. apply sends_ret.
Qed.

(** *** The turn when no interrupt is pending *)

Lemma agrees_ret {A} (a : A) : agrees (Env := Env) (ret_i a) (ret a).
Proof. intros w. reflexivity. Qed.

Lemma agrees_whole {A} (m : M Env A) : agrees (whole m) m.
Proof. intros w. reflexivity. Qed.

Lemma agrees_step {A} (m : M Env A) : agrees (step m) m.
Proof. intros w. reflexivity. Qed.

Lemma agrees_step_tool {A} (m : M Env A) : agrees (step_tool m) m.
Proof. intros w. reflexivity. Qed.

Lemma agrees_bind {A B} (m_i : I Env A) (m : M Env A) (k_i : A -> I Env B)
    (k : A -> M Env B) :
  agrees m_i m -> (forall a, agrees (k_i a) (k a)) ->
  agrees (bind_i m_i k_i) (bind m k).
Proof.
  intros Hm Hk w. unfold bind_i. rewrite Hm. unfold whole, bind. cbn [fst snd].
  destruct (m w) as [[a|e] w1]; [|reflexivity].
  rewrite Hk. reflexivity.
Qed.

(** The wait for an event, or for the line, changes nothing. *)
Lemma agrees_tick {A} (m_i : I Env A) (m : M Env A) :
  agrees m_i m -> agrees (bind_i (step (ret tt)) (fun _ => m_i)) m.
Proof. intros Hm w. exact (Hm w). Qed.

Lemma agrees_for_each {A} (items : list A) (body_i : A -> I Env unit)
    (body : A -> M Env unit) :
  (forall item, agrees (body_i item) (body item)) ->
  agrees (for_each_i items body_i) (for_each items body).
Proof.
  intros Hbody. induction items as [|item rest IH].
  - apply agrees_ret.
  - apply agrees_bind; [apply Hbody | intros _; exact IH].
Qed.

Ltac agrees_steps :=
  repeat first
    [ apply agrees_ret | apply agrees_whole | apply agrees_step
    | apply agrees_step_tool
    | apply agrees_bind; [|intros ?]
    | match goal with |- agrees (if ?b then _ else _) _ => destruct b end ].

Lemma handle_event_i_agrees event :
  agrees (Env := Env) (handle_event_i event) (handle_event event).
Proof. unfold handle_event_i, handle_event. apply agrees_tick. agrees_steps. Qed.

(** The assignments of [begin_turn], one after the other, are [begin_turn]. *)
Lemma begin_turn_i_agrees (prompt : string) :
  agrees (Env := Env) (begin_turn_i prompt)
         (modify (fun s => snd (begin_turn s prompt))).
Proof. intros w. reflexivity. Qed.

Lemma run_turn_i_agrees (prompt : string) :
  agrees (Env := Env) (_run_turn_i prompt) (_run_turn prompt).
Proof.
  unfold _run_turn_i, _run_turn, _stream_current_turn_i, _stream_current_turn.
  apply agrees_bind; [apply begin_turn_i_agrees|]. intros _.
  apply agrees_bind; [apply agrees_step|]. intros payload.
  apply agrees_bind; [apply agrees_step|]. intros events.
  apply agrees_bind; [apply agrees_for_each, handle_event_i_agrees|].
  intros _. agrees_steps.
Qed.

Lemma run_tool_iterations_i_agrees (i : Z) (n : nat) (max_iterations : Z) :
  agrees (Env := Env) (run_tool_iterations_i i n max_iterations)
         (run_tool_iterations i n max_iterations).
Proof.
  revert i. induction n as [|n IH]; intros i;
    cbn [run_tool_iterations_i run_tool_iterations].
  - apply agrees_ret.
  - apply agrees_bind; [apply agrees_step_tool|]. intros [executed result].
    cbn [fst snd]. destruct (negb executed); [apply agrees_ret|].
    apply agrees_bind; [apply agrees_step|]. intros _.
    apply agrees_bind; [apply run_turn_i_agrees|]. intros _. apply IH.
Qed.

(** A line that nothing interrupts is handled as [run_prompt] handles
    its prompt. *)
Lemma loop_body_uninterrupted (text : string) (max_iterations : Z) w :
  String.eqb (strip text) "" = false ->
  is_quit (strip text) = false ->
  loop_body text max_iterations (w, None)
  = match run_prompt (strip text) max_iterations w with
    | (Ok _, w') => (Returns Continue, (w', None))
    | (Raise e, w') => (Raises (Python e), (w', None))
    end.
Proof.
  intros Hblank Hquit.
  assert (Hbody : agrees (Env := Env) (loop_body text max_iterations)
            (bind (_run_turn (strip text)) (fun _ =>
             bind (run_tool_iterations 0 (Z.to_nat max_iterations) max_iterations)
                  (fun _ => ret Continue)))).
  { unfold loop_body. cbn zeta. rewrite Hblank, Hquit. apply agrees_tick.
    apply agrees_bind; [apply run_turn_i_agrees|]. intros _.
    apply agrees_bind; [apply run_tool_iterations_i_agrees|]. intros _.
    apply agrees_ret. }
  rewrite Hbody. unfold whole, run_prompt, bind, ret. cbn [fst snd].
  destruct (_run_turn _ w) as [[[]|e] w1]; [|reflexivity].
  destruct (run_tool_iterations _ _ _ w1) as [[[]|e] w2]; reflexivity.
Qed.

(** *** The turn under interrupts in a healthy world *)

Lemma interruptible_ret {A} (P : World Env -> Prop) (Q : A -> World Env -> Prop)
    (R : World Env -> Prop) (a : A) :
  (forall w, P w -> Q a w) -> interruptible P (ret_i a) Q R.
Proof. intros H w pending r w' pending' HP [= <- <- <-]. auto. Qed.

Lemma interruptible_bind {A B} (P : World Env -> Prop) (m : I Env A)
    (Q' : A -> World Env -> Prop) (f : A -> I Env B)
    (Q : B -> World Env -> Prop) (R : World Env -> Prop) :
  interruptible P m Q' R ->
  (forall a, interruptible (Q' a) (f a) Q R) ->
  interruptible P (bind_i m f) Q R.
Proof.
  intros Hm Hf w pending r w' pending' HP. unfold bind_i.
  destruct (m (w, pending)) as [[a|e] [w1 pending1]] eqn:Hrun;
    pose proof (Hm _ _ _ _ _ HP Hrun) as H1; cbn in H1.
  - intros Hk. exact (Hf a _ _ _ _ _ H1 Hk).
  - intros [= <- <- <-]. exact H1.
Qed.

Lemma interruptible_whole {A} (P : World Env -> Prop) (m : M Env A)
    (Q : A -> World Env -> Prop) (R : World Env -> Prop) :
  (forall w, P w -> exists a w', m w = (Ok a, w') /\ Q a w') ->
  interruptible P (whole m) Q R.
Proof.
  intros Hm w pending r w' pending' HP. unfold whole. cbn [fst snd].
  destruct (Hm w HP) as (a & w1 & -> & HQ). intros [= <- <- <-]. exact HQ.
Qed.

Lemma interruptible_step {A} (P : World Env -> Prop) (m : M Env A)
    (Q : A -> World Env -> Prop) (R : World Env -> Prop) :
  (forall w, P w -> R w) ->
  (forall w, P w -> exists a w', m w = (Ok a, w') /\ Q a w') ->
  interruptible P (step m) Q R.
Proof.
  intros HR Hm w pending r w' pending' HP. unfold step. cbn [fst snd].
  destruct pending as [i|]; [destruct (after i)|].
  - intros [= <- <- <-]. auto.
  - intros Hrun. exact (interruptible_whole P m Q R Hm _ _ _ _ _ HP Hrun).
  - intros Hrun. exact (interruptible_whole P m Q R Hm _ _ _ _ _ HP Hrun).
Qed.

Lemma interruptible_step_tool {A} (P : World Env -> Prop) (m : M Env A)
    (Q : A -> World Env -> Prop) (R : World Env -> Prop) :
  (forall w e, P w -> R (with_env w e)) ->
  (forall w, P w -> exists a w', m w = (Ok a, w') /\ Q a w') ->
  interruptible P (step_tool m) Q R.
Proof.
  intros HR Hm w pending r w' pending' HP. unfold step_tool. cbn [fst snd].
  destruct pending as [i|]; [destruct (after i)|].
  - intros [= <- <- <-]. auto.
  - intros Hrun. exact (interruptible_whole P m Q R Hm _ _ _ _ _ HP Hrun).
  - intros Hrun. exact (interruptible_whole P m Q R Hm _ _ _ _ _ HP Hrun).
Qed.

(** A fact that does not depend on the world may be used. *)
Lemma interruptible_fact {A} (F : Prop) (P : World Env -> Prop) (m : I Env A)
    (Q : A -> World Env -> Prop) (R : World Env -> Prop) :
  (F -> interruptible P m Q R) ->
  interruptible (fun w => P w /\ F) m Q R.
Proof. intros H w pending r w' pending' [HP HF]. exact (H HF _ _ _ _ _ HP). Qed.

Lemma interruptible_for_each {A} (P R : World Env -> Prop) (items : list A)
    (body : A -> I Env unit) :
  Forall (fun item => interruptible P (body item) (fun _ => P) R) items ->
  interruptible P (for_each_i items body) (fun _ => P) R.
Proof.
  induction 1 as [|item rest Hitem _ IH]; cbn [for_each_i].
  - apply interruptible_ret. auto.
  - apply (interruptible_bind _ _ (fun _ => P)); [exact Hitem | intros _; exact IH].
Qed.

(** A value that does not depend on the world is bound as it is. *)
Lemma interruptible_pure {A B} (P : World Env -> Prop) (a : A)
    (f : A -> I Env B) (Q : B -> World Env -> Prop) (R : World Env -> Prop) :
  interruptible P (f a) Q R ->
  interruptible P (bind_i (whole (lift (Ok a))) f) Q R.
Proof. intros H w pending r w' pending' HP Hrun. exact (H _ _ _ _ _ HP Hrun). Qed.

(** A field of the state that the precondition determines. *)
Lemma interruptible_gets {A B} (P : World Env -> Prop) (g : ChatState -> A)
    (a : A) (f : A -> I Env B) (Q : B -> World Env -> Prop)
    (R : World Env -> Prop) :
  (forall w, P w -> g (state w) = a) ->
  interruptible P (f a) Q R ->
  interruptible P (bind_i (whole (gets g)) f) Q R.
Proof.
  intros Hg H w pending r w' pending' HP. unfold bind_i, whole, gets.
  cbn [fst snd]. rewrite (Hg w HP). exact (H _ _ _ _ _ HP).
Qed.

Lemma interruptible_gets_any {A B} (P : World Env -> Prop) (g : ChatState -> A)
    (f : A -> I Env B) (Q : B -> World Env -> Prop) (R : World Env -> Prop) :
  (forall a, interruptible P (f a) Q R) ->
  interruptible P (bind_i (whole (gets g)) f) Q R.
Proof. intros H w pending r w' pending' HP. exact (H _ _ _ _ _ _ HP). Qed.

Lemma settled_state (show : bool) w w' :
  chat_id (state w') = chat_id (state w) ->
  features (state w') = features (state w) ->
  _uuid_factory (state w') = _uuid_factory (state w) ->
  runtime_show_thinking (state w') = runtime_show_thinking (state w) ->
  settled show w -> settled show w'.
Proof.
  intros Hc Hf Hu Hs [Hw Hshow]. split.
  - revert Hw. apply CliFacts.healthy_state; assumption.
  - congruence.
Qed.

(** A step that leaves alone what [settled] reads. *)
Ltac settled_step :=
  let w := fresh "w" in
  let Hw := fresh "Hw" in
  intros w Hw; eexists _, _; split; [reflexivity|];
  revert Hw; apply settled_state; reflexivity.

Lemma settled_healthy (show : bool) w : settled show w -> healthy w.
Proof. intros [Hw _]. exact Hw. Qed.

Lemma handle_event_i_settled (show : bool) event :
  well_formed show event = true ->
  interruptible (Env := Env) (settled show) (handle_event_i event)
                (fun _ => settled show) healthy.
Proof.
  intros Hwf. unfold handle_event_i.
  apply (interruptible_bind _ _ (fun _ => settled show));
    [apply interruptible_step; [apply settled_healthy | settled_step]|].
  intros _. unfold well_formed, verdict_of, delta_of in Hwf.
  destruct event as [| | | | |fields]; try discriminate Hwf.
  cbn [py_get]. apply interruptible_pure.
  destruct (eq_str (default JNull (dict_get fields "type")) "chat:completion");
    cbn [negb]; [|apply interruptible_ret; auto].
  apply interruptible_pure.
  destruct (default (JObj []) (dict_get fields "data")) as [| | | | |data];
    try discriminate Hwf.
  cbn [py_get]. apply interruptible_pure.
  destruct (truthy (default JNull (dict_get data "delta_content")));
    cbn [negb]; [|apply interruptible_ret; auto].
  apply interruptible_pure.
  apply (interruptible_gets _ _ show); [intros w [_ Hshow]; exact Hshow|].
  apply (interruptible_bind _ _ (fun _ => settled show)).
  - destruct (eq_str _ "thinking" && show).
    + apply interruptible_gets_any. intros color.
      apply interruptible_step; [apply settled_healthy|].
      unfold _print_thinking. destruct (String.eqb color "gray"); settled_step.
    + destruct (default JNull (dict_get data "delta_content"));
        try discriminate Hwf.
      apply (interruptible_bind _ _ (fun _ => settled show));
        [|intros _];
        (apply interruptible_step; [apply settled_healthy | settled_step]).
  - intros _. do 2 apply interruptible_pure.
    destruct (eq_str _ "done" || is_True _).
    + apply interruptible_step; [apply settled_healthy | settled_step].
    + apply interruptible_ret. auto.
Qed.

Lemma begin_turn_i_settled (show : bool) (prompt : string) :
  interruptible (Env := Env) (settled show) (begin_turn_i prompt)
    (fun _ w => settled show w
                /\ truthy_str (current_user_message_id (state w)) = true
                /\ truthy_str (current_assistant_message_id (state w)) = true)
    healthy.
Proof.
  unfold begin_turn_i.
  apply (interruptible_bind _ _
           (fun u w => settled show w /\ u <> ""%string)).
  { apply interruptible_step; [apply settled_healthy|].
    intros w Hw. eexists _, _. split; [reflexivity|]. split.
    - revert Hw. apply settled_state; reflexivity.
    - destruct Hw as [(_ & _ & Hfactory & _) _]. apply Hfactory. }
  intros u. apply interruptible_fact. intros Hu.
  apply (interruptible_bind _ _
           (fun a w => settled show w /\ a <> ""%string)).
  { apply interruptible_step; [apply settled_healthy|].
    intros w Hw. eexists _, _. split; [reflexivity|]. split.
    - revert Hw. apply settled_state; reflexivity.
    - destruct Hw as [(_ & _ & Hfactory & _) _]. apply Hfactory. }
  intros a. apply interruptible_fact. intros Ha.
  apply String.eqb_neq in Hu, Ha.
  apply (interruptible_bind _ _
           (fun _ w => settled show w
                       /\ truthy_str (current_user_message_id (state w)) = true)).
  { apply interruptible_step; [apply settled_healthy|].
    intros w Hw. eexists _, _. split; [reflexivity|]. split.
    - revert Hw. apply settled_state; reflexivity.
    - cbn. rewrite Hu. reflexivity. }
  intros _.
  apply (interruptible_bind _ _
           (fun _ w => settled show w
              /\ truthy_str (current_user_message_id (state w)) = true
              /\ truthy_str (current_assistant_message_id (state w)) = true)).
  { apply interruptible_step; [intros w [Hw _]; exact (settled_healthy _ _ Hw)|].
    intros w [Hw Huser]. eexists _, _. split; [reflexivity|]. split; [|split].
    - revert Hw. apply settled_state; reflexivity.
    - exact Huser.
    - cbn. rewrite Ha. reflexivity. }
  intros _.
  apply interruptible_step; [intros w [Hw _]; exact (settled_healthy _ _ Hw)|].
  intros w (Hw & Huser & Hassistant). eexists _, _. split; [reflexivity|].
  split; [|split].
  - revert Hw. apply settled_state; reflexivity.
  - exact Huser.
  - exact Hassistant.
Qed.

Lemma stream_current_turn_i_settled (show : bool) (prompt : string) :
  interruptible (Env := Env)
    (fun w => settled show w
              /\ truthy_str (current_user_message_id (state w)) = true
              /\ truthy_str (current_assistant_message_id (state w)) = true)
    (_stream_current_turn_i prompt) (fun _ => settled show) healthy.
Proof.
  unfold _stream_current_turn_i.
  apply (interruptible_bind _ _ (fun _ => settled show)).
  { apply interruptible_step; [intros w [Hw _]; exact (settled_healthy _ _ Hw)|].
    intros w (Hw & Huser & Hassistant).
    pose proof Hw as [(Hchat & Hflags & _) _].
    destruct (StateFacts.build_past_the_guards (state w) prompt
                (localtime (length (requests w))) Hchat Huser Hassistant)
      as [_ Hbuild].
    destruct (Hbuild Hflags) as (payload & Hpayload & _).
    exists payload, w. unfold build_payload. rewrite Hpayload. auto. }
  intros payload.
  apply (interruptible_bind _ _
           (fun events w => settled show w
                            /\ forallb (well_formed show) events = true)).
  { apply interruptible_step; [apply settled_healthy|].
    intros w Hw. pose proof Hw as [(_ & _ & _ & Hserver) Hshow].
    destruct (CliFacts.response_ok_inv _ _ (Hserver (length (requests w)) payload))
      as (status & lines & dropped & Hresp & Hstatus & Hwf).
    rewrite Hshow in Hwf.
    eexists _, _. unfold send. rewrite Hresp. unfold stream_completion.
    rewrite Hstatus. split; [destruct dropped; reflexivity|]. split.
    - revert Hw. apply settled_state; reflexivity.
    - exact Hwf. }
  intros events. apply interruptible_fact. intros Hwf.
  apply (interruptible_bind _ _ (fun _ => settled show)).
  { apply interruptible_for_each. apply List.Forall_forall. intros event Hin.
    apply handle_event_i_settled.
    rewrite forallb_forall in Hwf. exact (Hwf event Hin). }
  intros _.
  apply (interruptible_bind _ _ (fun _ => settled show)); [|intros _];
    (apply interruptible_step; [apply settled_healthy | settled_step]).
Qed.

Lemma run_turn_i_settled (show : bool) (prompt : string) :
  interruptible (Env := Env) (settled show) (_run_turn_i prompt)
                (fun _ => settled show) healthy.
Proof.
  unfold _run_turn_i.
  eapply interruptible_bind; [apply begin_turn_i_settled|].
  intros []. apply stream_current_turn_i_settled.
Qed.

Lemma run_tool_iterations_i_settled (show : bool) (i : Z) (n : nat)
    (max_iterations : Z) :
  interruptible (Env := Env) (settled show)
                (run_tool_iterations_i i n max_iterations)
                (fun _ => settled show) healthy.
Proof.
  revert i. induction n as [|n IH]; intros i; cbn [run_tool_iterations_i].
  - apply interruptible_ret. auto.
  - apply (interruptible_bind _ _ (fun _ => settled show)).
    { apply interruptible_step_tool.
      - intros w e Hw. apply settled_healthy in Hw. revert Hw.
        apply CliFacts.healthy_state; reflexivity.
      - intros w Hw.
        destruct (CliFacts.dispatch_frame w) as (answer & w' & -> & Hstate & _).
        exists answer, w'. split; [reflexivity|]. revert Hw.
        apply settled_state; rewrite Hstate; reflexivity. }
    intros answer. destruct (negb (fst answer)); [apply interruptible_ret; auto|].
    apply (interruptible_bind _ _ (fun _ => settled show)).
    { apply interruptible_step; [apply settled_healthy | settled_step]. }
    intros _.
    apply (interruptible_bind _ _ (fun _ => settled show));
      [apply run_turn_i_settled|].
    intros _. apply IH.
Qed.

(** In a healthy world the body of the loop returns, or is interrupted;
    the world stays healthy. *)
Lemma loop_body_healthy (text : string) (max_iterations : Z) :
  interruptible (Env := Env) healthy (loop_body text max_iterations)
                (fun _ => healthy) healthy.
Proof.
  intros w pending r w' pending' Hw Hrun.
  assert (Hbody : interruptible (Env := Env)
            (settled (runtime_show_thinking (state w)))
            (loop_body text max_iterations)
            (fun _ => settled (runtime_show_thinking (state w))) healthy).
  { unfold loop_body. cbn zeta.
    apply (interruptible_bind _ _
             (fun _ => settled (runtime_show_thinking (state w)))).
    { apply interruptible_step; [apply settled_healthy | settled_step]. }
    intros _.
    destruct (String.eqb (strip text) ""); [apply interruptible_ret; auto|].
    destruct (is_quit (strip text)); [apply interruptible_ret; auto|].
    apply (interruptible_bind _ _
             (fun _ => settled (runtime_show_thinking (state w))));
      [apply run_turn_i_settled|].
    intros _.
    apply (interruptible_bind _ _
             (fun _ => settled (runtime_show_thinking (state w))));
      [apply run_tool_iterations_i_settled|].
    intros _. apply interruptible_ret. auto. }
  specialize (Hbody w pending r w' pending' (conj Hw eq_refl) Hrun).
  destruct r as [v|e]; [exact (settled_healthy _ _ Hbody)|exact Hbody].
Qed.

(** *** The conversation *)

(** What the body of the loop does with a line, by the kind of line. *)
Lemma loop_body_cases (text : string) (max_iterations : Z) w
    (interrupt : option (Interruption Env)) r w' pending' :
  loop_body text max_iterations (w, interrupt) = (r, (w', pending')) ->
  if lost interrupt then r = Raises KeyboardInterrupt /\ w' = w
  else if String.eqb (strip text) "" then r = Returns Continue /\ w' = w
  else if is_quit (strip text) then r = Returns Break /\ w' = w
  else r <> Returns Break
       /\ (length (requests w')
           <= length (requests w) + (1 + Z.to_nat max_iterations))%nat.
Proof.
  intros Hrun. pose proof (loop_body_sends text max_iterations _ _ _ _ _ Hrun)
    as Hsends.
  revert Hrun Hsends. unfold loop_body, lost. cbn zeta.
  unfold bind_i at 1, step at 1, whole at 1 2, ret. cbn [fst snd].
  destruct interrupt as [i|]; [destruct (after i)|].
  - intros [= <- <- <-] _. auto.
  - destruct (String.eqb (strip text) ""); [intros [= <- <- <-]; auto|].
    destruct (is_quit (strip text)); [intros [= <- <- <-]; auto|].
    intros Hrun Hsends. split; [|exact Hsends].
    revert Hrun. unfold bind_i.
    destruct (_run_turn_i _ _) as [[[]|e] s1]; [|intros [= <- _]; discriminate].
    destruct (run_tool_iterations_i _ _ _ _) as [[[]|e] s2];
      intros [= <- _]; discriminate.
  - destruct (String.eqb (strip text) ""); [intros [= <- <- <-]; auto|].
    destruct (is_quit (strip text)); [intros [= <- <- <-]; auto|].
    intros Hrun Hsends. split; [|exact Hsends].
    revert Hrun. unfold bind_i.
    destruct (_run_turn_i _ _) as [[[]|e] s1]; [|intros [= <- _]; discriminate].
    destruct (run_tool_iterations_i _ _ _ _) as [[[]|e] s2];
      intros [= <- _]; discriminate.
Qed.

Lemma handle_interrupt_cases (again : option Second) w r w' :
  handle_interrupt again w = (r, w') ->
  requests w' = requests w /\ state w' = state w
  /\ match r with
     | Returns _ => again = None
     | Raises e => e = KeyboardInterrupt /\ again <> None
     end.
Proof.
  unfold handle_interrupt. destruct again as [[|]|]; intros [= <- <-];
    repeat split; discriminate.
Qed.

(** The requests of a conversation, however it ends. *)
Lemma conversation_requests (inputs : list (Input Env)) (max_iterations : Z)
    w r w' :
  conversation inputs max_iterations w = (r, w') ->
  (length (requests w')
   <= length (requests w)
      + length (prompts_before_quit inputs) * (1 + Z.to_nat max_iterations))%nat.
Proof.
  revert w. induction inputs as [|[text interrupt|again] rest IH]; intros w;
    cbn [conversation prompts_before_quit].
  - intros [= <- <-]. cbn. lia.
  - destruct (loop_body _ _ _) as [rb [w1 p1]] eqn:Hbody.
    apply loop_body_cases in Hbody. cbn [requests printed_line] in Hbody.
    destruct (lost interrupt); cbn [orb].
    + destruct Hbody as [-> ->].
      destruct (handle_interrupt _ _) as [[[]|e] w2] eqn:Hstop;
        apply handle_interrupt_cases in Hstop as (Hreq & _).
      * intros Hrun. apply IH in Hrun. rewrite Hreq in Hrun. cbn in Hrun. lia.
      * intros [= <- <-]. rewrite Hreq. cbn. lia.
    + destruct (String.eqb (strip text) "").
      * destruct Hbody as [-> ->]. intros Hrun. apply IH in Hrun.
        cbn in Hrun. lia.
      * destruct (is_quit (strip text)).
        -- destruct Hbody as [-> ->]. intros [= <- <-]. cbn. lia.
        -- destruct Hbody as [Hbreak Hlen]. cbn [length].
           destruct rb as [[|]|e].
           ++ intros Hrun. apply IH in Hrun. lia.
           ++ congruence.
           ++ destruct e; try (intros [= <- <-]; lia).
              destruct (handle_interrupt _ _) as [[[]|e] w2] eqn:Hh;
                apply handle_interrupt_cases in Hh as (Hh & _).
              ** intros Hrun. apply IH in Hrun. rewrite Hh in Hrun. lia.
              ** intros [= <- <-]. rewrite Hh. lia.
  - destruct (handle_interrupt _ _) as [[[]|e] w2] eqn:Hstop;
      apply handle_interrupt_cases in Hstop as (Hreq & _).
    + intros Hrun. apply IH in Hrun. rewrite Hreq in Hrun. cbn in Hrun. lia.
    + intros [= <- <-]. rewrite Hreq. cbn. lia.
Qed.

(** The loop returns only at a quit phrase. *)
Lemma conversation_returns (inputs : list (Input Env)) (max_iterations : Z)
    w w' :
  conversation inputs max_iterations w = (Returns tt, w') ->
  Exists (fun input => match input with
                       | Line text _ => is_quit (strip text) = true
                       | Interrupt _ => False
                       end) inputs.
Proof.
  revert w. induction inputs as [|[text interrupt|again] rest IH]; intros w;
    cbn [conversation].
  - discriminate.
  - destruct (loop_body _ _ _) as [rb [w1 p1]] eqn:Hbody.
    apply loop_body_cases in Hbody.
    destruct rb as [[|]|e].
    + intros Hrun. apply Exists_cons_tl. exact (IH _ Hrun).
    + intros _. apply Exists_cons_hd.
      destruct (lost interrupt); [destruct Hbody; discriminate|].
      destruct (String.eqb (strip text) ""); [destruct Hbody; discriminate|].
      destruct (is_quit (strip text)); [reflexivity|].
      destruct Hbody as [Hbreak _]. congruence.
    + destruct e; try discriminate.
      destruct (handle_interrupt _ _) as [[[]|e] w2]; [|discriminate].
      intros Hrun. apply Exists_cons_tl. exact (IH _ Hrun).
  - destruct (handle_interrupt _ _) as [[[]|e] w2]; [|discriminate].
    intros Hrun. apply Exists_cons_tl. exact (IH _ Hrun).
Qed.

Lemma printed_line_healthy w (text : string) :
  healthy w -> healthy (printed_line w text).
Proof. apply CliFacts.healthy_state; reflexivity. Qed.

(** How a conversation in a healthy world ends. *)
Lemma conversation_healthy (inputs : list (Input Env)) (max_iterations : Z) w :
  healthy w ->
  exists w',
    healthy w'
    /\ (conversation inputs max_iterations w = (Returns tt, w')
        \/ conversation inputs max_iterations w = (Raises EOFError, w')
        \/ (conversation inputs max_iterations w = (Raises KeyboardInterrupt, w')
            /\ Exists (fun input => second input <> None) inputs)).
Proof.
  assert (Hstop : forall again w0 r w1,
            healthy w0 -> handle_interrupt again w0 = (r, w1) -> healthy w1).
  { intros again w0 r w1 Hw0 Hh.
    apply handle_interrupt_cases in Hh as (_ & Hstate & _).
    revert Hw0. apply CliFacts.healthy_state; rewrite Hstate; reflexivity. }
  revert w. induction inputs as [|[text interrupt|again] rest IH]; intros w Hw;
    cbn [conversation].
  - eexists. split; [|right; left; reflexivity].
    apply printed_line_healthy, Hw.
  - destruct (loop_body _ _ _) as [rb [w1 p1]] eqn:Hbody.
    pose proof (loop_body_healthy text max_iterations _ _ _ _ _
                  (printed_line_healthy _ _ Hw) Hbody) as Hw1.
    destruct rb as [[|]|e].
    + destruct (IH w1 Hw1) as (w' & Hw' & [H|[H|[H Hex]]]); exists w';
        (split; [exact Hw'|]); auto using Exists_cons_tl.
    + exists w1. auto.
    + destruct e; try contradiction.
      destruct (handle_interrupt _ _) as [[[]|e] w2] eqn:Hh;
        pose proof (Hstop _ _ _ _ Hw1 Hh) as Hw2;
        apply handle_interrupt_cases in Hh as (_ & _ & Hagain).
      * destruct (IH w2 Hw2) as (w' & Hw' & [H|[H|[H Hex]]]); exists w';
          (split; [exact Hw'|]); auto using Exists_cons_tl.
      * destruct Hagain as [-> Hagain]. exists w2. split; [exact Hw2|].
        right; right. split; [reflexivity|]. apply Exists_cons_hd. exact Hagain.
  - destruct (handle_interrupt _ _) as [[[]|e] w2] eqn:Hh;
      pose proof (Hstop _ _ _ _ (printed_line_healthy _ _ Hw) Hh) as Hw2;
      apply handle_interrupt_cases in Hh as (_ & _ & Hagain).
    + destruct (IH w2 Hw2) as (w' & Hw' & [H|[H|[H Hex]]]); exists w';
        (split; [exact Hw'|]); auto using Exists_cons_tl.
    + destruct Hagain as [-> Hagain]. exists w2. split; [exact Hw2|].
      right; right. split; [reflexivity|]. apply Exists_cons_hd. exact Hagain.
Qed.

(** X17: The conversation loop under interrupts.  Each line the user
    enters may be interrupted at any step of the work that follows it,
    also within a tool, and the user may interrupt again while the
    first interrupt is reported.  However the loop ends, it has sent at
    most [1 + max_iterations] requests for each line that starts a turn:
    a line read before the loop is left that is not blank, not a quit
    phrase and not interrupted before the loop looks at it; and it
    returns only if a quit phrase was read.  A quit phrase that is not
    interrupted first leaves the loop at once, with the state and the
    requests as they were, whatever would have followed.  A line that is
    interrupted before the loop looks at it is lost, a quit phrase too:
    the loop goes on as for an interrupt at the prompt.  A line that
    nothing interrupts is handled as [run_prompt] handles its prompt, and
    an exception of the turn leaves the loop.  In a healthy world the
    loop is left in one of three ways only: at a quit phrase, by the
    [EOFError] of [input] at the end of the input, or by a second
    interrupt that some input brings; and the world is healthy then. *)
Theorem conversation_sends_bounded_requests (inputs : list (Input Env))
    (max_iterations : Z) w :
  (forall r w',
      conversation inputs max_iterations w = (r, w') ->
      (length (requests w')
       <= length (requests w)
          + length (prompts_before_quit inputs) * (1 + Z.to_nat max_iterations))%nat
      /\ (r = Returns tt ->
          Exists (fun input => match input with
                               | Line text _ => is_quit (strip text) = true
                               | Interrupt _ => False
                               end) inputs))
  /\ (forall text interrupt rest rest',
        lost interrupt = false ->
        strip text <> ""%string -> is_quit (strip text) = true ->
        conversation (Line text interrupt :: rest) max_iterations w
        = conversation (Line text interrupt :: rest') max_iterations w
        /\ fst (conversation (Line text interrupt :: rest) max_iterations w)
           = Returns tt
        /\ requests (snd (conversation (Line text interrupt :: rest)
                                       max_iterations w))
           = requests w
        /\ state (snd (conversation (Line text interrupt :: rest)
                                    max_iterations w))
           = state w)
  /\ (forall text interrupt rest,
        lost interrupt = true ->
        conversation (Line text interrupt :: rest) max_iterations w
        = conversation (Interrupt (second_of interrupt) :: rest)
                       max_iterations w)
  /\ (forall text rest,
        strip text <> ""%string -> is_quit (strip text) = false ->
        conversation (Line text None :: rest) max_iterations w
        = match run_prompt (strip text) max_iterations
                           (printed_line w (nl +:+ "You: ")) with
          | (Ok _, w') => conversation rest max_iterations w'
          | (Raise e, w') => (Raises (Python e), w')
          end)
  /\ (healthy w ->
      exists w',
        healthy w'
        /\ (conversation inputs max_iterations w = (Returns tt, w')
            \/ conversation inputs max_iterations w = (Raises EOFError, w')
            \/ (conversation inputs max_iterations w
                = (Raises KeyboardInterrupt, w')
                /\ Exists (fun input => second input <> None) inputs))).
Proof.
  split; [|split; [|split; [|split]]].
  - intros r w' Hrun. split; [exact (conversation_requests _ _ _ _ _ Hrun)|].
    intros ->. exact (conversation_returns _ _ _ _ Hrun).
  - intros text interrupt rest rest' Hlost Hne Hquit.
    apply String.eqb_neq in Hne.
    assert (Hline : forall others,
              conversation (Line text interrupt :: others) max_iterations w
              = (Returns tt, printed_line w (nl +:+ "You: "))).
    { intros others. cbn [conversation].
      destruct (loop_body _ _ _) as [rb [w1 p1]] eqn:Hbody.
      apply loop_body_cases in Hbody. rewrite Hlost, Hne, Hquit in Hbody.
      destruct Hbody as [-> ->]. reflexivity. }
    rewrite !Hline. repeat split.
  - intros text interrupt rest Hlost. cbn [conversation].
    destruct (loop_body _ _ _) as [rb [w1 p1]] eqn:Hbody.
    apply loop_body_cases in Hbody. rewrite Hlost in Hbody.
    destruct Hbody as [-> ->]. reflexivity.
  - intros text rest Hne Hquit. apply String.eqb_neq in Hne.
    cbn [conversation]. rewrite (loop_body_uninterrupted _ _ _ Hne Hquit).
    destruct (run_prompt _ _ _) as [[[]|e] w1]; reflexivity.
  - apply conversation_healthy.
Qed.

(** *** What a turn sends *)

Lemma run_turn_sends (prompt : string) w :
  healthy w ->
  exists w' payload,
    _run_turn prompt w = (Ok tt, w')
    /\ healthy w'
    /\ requests w' = requests w ++ [payload]
    /\ registry w' = registry w
    /\ env w' = env w
    /\ p_signature_prompt payload = prompt
    /\ p_messages payload = [("user"%string, prompt)]
    /\ p_current_user_message_parent_id payload
       = current_user_message_parent_id (state w)
    /\ current_user_message_parent_id (state w') = p_id payload
    /\ exists status lines dropped,
         server (length (requests w)) payload = Answer status lines dropped
         /\ current_assistant_content (state w')
            = collected (runtime_show_thinking (state w)) (omap decode_line lines).
Proof.
  intros Hw.
  destruct (CliFacts.run_turn_healthy prompt w Hw)
    as (w' & payload & status & lines & dropped & Hrun & Hw' & Hreq & Hserver & Hcontent).
  destruct (CliFacts.run_turn_inv _ _ _ _ Hrun)
    as (c & p & Hstate & Hreg & Henv & Hp & [[Hbad _] | (payload' & Hbuild & Hreq')]);
    [contradiction|].
  rewrite Hreq in Hreq'. apply app_inv_head in Hreq'. injection Hreq' as <-.
  exists w', payload. split; [exact Hrun|]. split; [exact Hw'|].
  split; [exact Hreq|]. split; [exact Hreg|]. split; [exact Henv|].
  destruct (ClientMore.build_ok_prompt _ _ _ _ Hbuild) as [Hprompt Hmessages].
  apply StateFacts.build_ok_fields in Hbuild as (Hid & _ & Hparent & _).
  split; [exact Hprompt|]. split; [exact Hmessages|].
  split; [rewrite Hparent; reflexivity|].
  split; [rewrite Hstate, (Hp eq_refl), Hid; reflexivity|].
  exists status, lines, dropped. auto.
Qed.

Lemma tool_iterations_appends (n : nat) w :
  healthy w ->
  exists w' more,
    tool_iterations n w = (Ok tt, w') /\ requests w' = requests w ++ more.
Proof.
  revert w. induction n as [|n IH]; intros w Hw.
  - exists w, []. rewrite app_nil_r. auto.
  - cbn [tool_iterations]. unfold bind at 1.
    destruct (CliFacts.dispatch_frame w) as ([executed result] & w1 & -> & Hs1 & Hreq1).
    assert (Hw1 : healthy w1)
      by (revert Hw; apply CliFacts.healthy_state; rewrite Hs1; reflexivity).
    destruct executed; cbn [negb].
    + unfold bind at 1.
      destruct (run_turn_sends (default ""%string result) w1 Hw1)
        as (w2 & payload & -> & Hw2 & Hreq2 & _).
      destruct (IH w2 Hw2) as (w' & more & Hrun & Hreq).
      exists w', (payload :: more). split; [exact Hrun|].
      rewrite Hreq, Hreq2, Hreq1, <- app_assoc. reflexivity.
    + exists w1, []. rewrite app_nil_r. auto.
Qed.

(** X18: The result of a tool is the prompt of the next turn.  In a healthy
    world the first request of [_run_turn_with_tools] carries the prompt
    of the user; if the answer triggers a tool and an iteration is
    allowed, the second request carries as its prompt, and as its one
    user message, the rendered result of the tool, with the first
    request's identifier as parent; if the answer triggers no tool, the
    first request is the only one.  The content a turn leaves is the
    text of its own stream, none of it from the turn before. *)
Theorem tool_result_is_the_next_prompt (prompt : string) (max_iterations : Z) w :
  healthy w -> (0 < max_iterations)%Z ->
  exists w1 payload1 status lines dropped,
    _run_turn prompt w = (Ok tt, w1)
    /\ requests w1 = requests w ++ [payload1]
    /\ p_signature_prompt payload1 = prompt
    /\ server (length (requests w)) payload1 = Answer status lines dropped
    /\ current_assistant_content (state w1)
       = collected (runtime_show_thinking (state w)) (omap decode_line lines)
    /\ forall executed result env',
         execute_if_applicable (registry w) (current_assistant_content (state w1))
           None (env w)
         = ((executed, result), env') ->
         exists w',
           _run_turn_with_tools prompt max_iterations w = (Ok tt, w')
           /\ if executed then
                exists text payload2 more,
                  result = Some text
                  /\ requests w' = requests w ++ payload1 :: payload2 :: more
                  /\ p_signature_prompt payload2 = text
                  /\ p_messages payload2 = [("user"%string, text)]
                  /\ p_current_user_message_parent_id payload2 = p_id payload1
              else requests w' = requests w ++ [payload1].
Proof.
  intros Hw Hmax.
  destruct (run_turn_sends prompt w Hw)
    as (w1 & payload1 & Hrun1 & Hw1 & Hreq1 & Hreg1 & Henv1 & Hprompt1 & _ & _ & Hlink1
        & status & lines & dropped & Hserver & Hcontent).
  exists w1, payload1, status, lines, dropped.
  split; [exact Hrun1|]. split; [exact Hreq1|]. split; [exact Hprompt1|].
  split; [exact Hserver|]. split; [exact Hcontent|].
  intros executed result env' Hdispatch.
  unfold _run_turn_with_tools. unfold bind at 1. rewrite Hrun1.
  destruct (Z.to_nat max_iterations) as [|n] eqn:Hn; [lia|].
  cbn [tool_iterations]. unfold bind at 1. unfold dispatch at 1.
  rewrite <- Hreg1, <- Henv1 in Hdispatch. rewrite Hdispatch.
  destruct executed; cbn [negb].
  - assert (Htext : exists text, result = Some text).
    { clear -Hdispatch. revert Hdispatch. unfold execute_if_applicable.
      destruct (find_tool_for_message _ _) as [tool|]; [|discriminate].
      destruct (negb (truthy_str (extract_request tool _))); [discriminate|].
      destruct (execute tool _ _ _). intros [= <- _]. eauto. }
    destruct Htext as [text ->]. cbn [default from_option id].
    set (w1' := {| state := state w1; registry := registry w1; env := env';
                   requests := requests w1; stdout := stdout w1 |}).
    assert (Hw1' : healthy w1')
      by (revert Hw1; apply CliFacts.healthy_state; reflexivity).
    unfold bind at 1.
    destruct (run_turn_sends text w1' Hw1')
      as (w2 & payload2 & -> & Hw2 & Hreq2 & _ & _ & Hprompt2 & Hmessages2 & Hparent2 & _).
    destruct (tool_iterations_appends n w2 Hw2) as (w' & more & Hloop & Hreq).
    exists w'. split; [exact Hloop|].
    exists text, payload2, more. split; [reflexivity|].
    split.
    + rewrite Hreq, Hreq2. cbn [requests w1']. rewrite Hreq1, <- !app_assoc. reflexivity.
    + split; [exact Hprompt2|]. split; [exact Hmessages2|].
      rewrite Hparent2. exact Hlink1.
  - eexists. split; [reflexivity|]. cbn [requests]. exact Hreq1.
Qed.

End Loop.

Lemma requests_never_share_an_identifier_witness :
  requests_distinct (Demo.world true)
  /\ List.NoDup
       (map p_id
          (requests
             (snd (_run_turn_with_tools (ext := Demo.externals) (remote := Demo.echo)
                     "hi" 3 (Demo.world true))))).
Proof.
  destruct (requests_never_share_an_identifier (ext := Demo.externals)
              (remote := Demo.echo) "hi" 3 (Demo.world true)) as (Hstart & Hkeep).
  assert (Hw : requests_distinct (Demo.world true)).
  { apply Hstart; [repeat split| |reflexivity].
    apply StateMore.demo_factory_fresh. reflexivity. }
  split; [exact Hw|].
  apply (Hkeep Hw _ _ (or_intror (or_introl (surjective_pairing _)))).
Defined.

Example four_requests_four_identifiers :
  map p_id
    (requests
       (snd (_run_turn_with_tools (ext := Demo.externals) (remote := Demo.echo)
               "hi" 3 (Demo.world true))))
  = [Some "id-1"; Some "id-3"; Some "id-5"; Some "id-7"]%string.
Proof. vm_compute. reflexivity. Qed.

Lemma conversation_sends_bounded_requests_witness :
  let inputs :=
    [Line "  " None; Interrupt None; Line "hi" None;
     Line "lost" (Some {| after := 0; midway := fun e => e; again := None |});
     Line " QUIT " None; Line "never" None]%string in
  (length (requests
             (snd (conversation (ext := Demo.externals) (remote := Demo.echo)
                     inputs 3 (Demo.world true))))
   <= 0 + 1 * (1 + Z.to_nat 3))%nat
  /\ fst (conversation (ext := Demo.externals) (remote := Demo.echo)
            [Line " QUIT " None; Line "never" None]%string 3 (Demo.world true))
     = Returns tt
  /\ conversation (ext := Demo.externals) (remote := Demo.echo)
       [Line "quit" (Some {| after := 0; midway := fun e => e;
                             again := Some AfterMessage |})]%string
       3 (Demo.world true)
     = conversation (ext := Demo.externals) (remote := Demo.echo)
         [Interrupt (Some AfterMessage)] 3 (Demo.world true)
  /\ conversation (ext := Demo.externals) (remote := Demo.echo)
       [Line "hi" None]%string 3 (Demo.world true)
     = match run_prompt (ext := Demo.externals) (remote := Demo.echo) "hi" 3
               (printed_line (Demo.world true) (nl +:+ "You: ")) with
       | (Ok _, w') =>
           conversation (ext := Demo.externals) (remote := Demo.echo) [] 3 w'
       | (Raise e, w') => (Raises (Python e), w')
       end
  /\ exists w',
       healthy (ext := Demo.externals) (remote := Demo.echo) w'
       /\ (conversation (ext := Demo.externals) (remote := Demo.echo)
             inputs 3 (Demo.world true) = (Returns tt, w')
           \/ conversation (ext := Demo.externals) (remote := Demo.echo)
                inputs 3 (Demo.world true) = (Raises EOFError, w')
           \/ (conversation (ext := Demo.externals) (remote := Demo.echo)
                 inputs 3 (Demo.world true) = (Raises KeyboardInterrupt, w')
               /\ Exists (fun input => second input <> None) inputs)).
Proof.
  intros inputs.
  destruct (conversation_sends_bounded_requests (ext := Demo.externals)
              (remote := Demo.echo) inputs 3 (Demo.world true))
    as (Hbound & Hquit & Hlost & Hplain & Hends).
  split; [exact (proj1 (Hbound _ _ (surjective_pairing _)))|].
  split.
  { destruct (Hquit " QUIT "%string None [Line "never"%string None] []
                eq_refl ltac:(discriminate) eq_refl)
      as (_ & Hfst & _).
    exact Hfst. }
  split.
  { exact (Hlost "quit"%string
             (Some {| after := 0; midway := fun e => e;
                      again := Some AfterMessage |}) [] eq_refl). }
  split.
  { exact (Hplain "hi"%string [] ltac:(discriminate) eq_refl). }
  apply Hends. apply (CliFacts.demo_healthy true); reflexivity.
Defined.

(** The conversation of the witness: one prompt, answered by four
    requests, and the loop is left at the quit phrase. *)
Example conversation_hi_then_quit :
  let '(r, w) :=
    conversation (ext := Demo.externals) (remote := Demo.echo)
      [Line "  " None; Interrupt None; Line "hi" None;
       Line "lost" (Some {| after := 0; midway := fun e => e; again := None |});
       Line " QUIT " None; Line "never" None]%string
      3 (Demo.world true) in
  r = Returns tt
  /\ map p_signature_prompt (requests w)
     = ["hi";
        join nl ["TOOL_RESULT echo"; "request: x"; "success: yes";
                 "output:"; "ECHO: x"];
        join nl ["TOOL_RESULT echo"; "request: x"; "success: yes";
                 "output:"; "ECHO: x"];
        join nl ["TOOL_RESULT echo"; "request: x"; "success: yes";
                 "output:"; "ECHO: x"]]%string.
Proof. vm_compute. auto. Qed.

(** A turn interrupted between [apply_assistant_delta] and [print]: the
    request has gone out and the content is kept, [finish_turn] has not
    run, and the loop reads the next line. *)
Example conversation_interrupted_turn :
  let '(r, w) :=
    conversation (ext := Demo.externals) (remote := Demo.echo)
      [Line "hi" (Some {| after := 10; midway := fun e => e; again := None |});
       Line "quit" None]%string
      3 (Demo.world true) in
  r = Returns tt
  /\ map p_signature_prompt (requests w) = ["hi"%string]
  /\ current_assistant_content (state w) = "<echo>x</echo>"%string
  /\ current_user_message_parent_id (state w) = None
  /\ stdout w = [Text (nl +:+ "You: ");
                 Text (nl +:+ "[stop] interrupted by user" +:+ nl);
                 Text (nl +:+ "You: ")].
Proof. vm_compute. auto. Qed.

(** The two other ways out of the loop: the end of the input, and a
    second interrupt while the first is handled. *)
Example conversation_left_by_an_exception :
  fst (conversation (ext := Demo.externals) (remote := Demo.echo)
         [Line "hi" None]%string 3 (Demo.world true))
  = Raises EOFError
  /\ fst (conversation (ext := Demo.externals) (remote := Demo.echo)
            [Interrupt (Some BeforeMessage); Line "quit" None]%string
            3 (Demo.world true))
     = Raises KeyboardInterrupt.
Proof. vm_compute. auto. Qed.

Example echo_answer_dispatched :
  execute_if_applicable (registry (Demo.world true))
    (collected true (omap (decode_line (ext := Demo.externals))
                          ["a:<echo>x</echo>"%string]))
    None tt
  = ((true, Some (join nl ["TOOL_RESULT echo"; "request: x"; "success: yes";
                           "output:"; "ECHO: x"]%string)), tt).
Proof. vm_compute. reflexivity. Qed.

Lemma tool_result_is_the_next_prompt_witness :
  exists w' payload1 payload2 more,
    _run_turn_with_tools (ext := Demo.externals) (remote := Demo.echo)
      "hi" 3 (Demo.world true) = (Ok tt, w')
    /\ requests w' = payload1 :: payload2 :: more
    /\ p_signature_prompt payload1 = "hi"%string
    /\ p_signature_prompt payload2
       = join nl ["TOOL_RESULT echo"; "request: x"; "success: yes";
                  "output:"; "ECHO: x"]%string
    /\ p_current_user_message_parent_id payload2 = p_id payload1.
Proof.
  assert (Hw : healthy (ext := Demo.externals) (remote := Demo.echo) (Demo.world true))
    by (apply (CliFacts.demo_healthy true); reflexivity).
  destruct (tool_result_is_the_next_prompt (ext := Demo.externals) (remote := Demo.echo)
              "hi" 3 (Demo.world true) Hw eq_refl)
    as (w1 & payload1 & status & lines & dropped & _ & _ & Hprompt1 & Hserver
        & Hcontent & Hnext).
  injection Hserver as <- <- <-.
  rewrite Hcontent in Hnext.
  destruct (Hnext _ _ _ echo_answer_dispatched)
    as (w' & Hrun & text & payload2 & more & Htext & Hreq & Hprompt2 & _ & Hparent2).
  injection Htext as <-.
  exists w', payload1, payload2, more.
  split; [exact Hrun|]. split; [exact Hreq|]. split; [exact Hprompt1|].
  split; [exact Hprompt2|exact Hparent2].
Defined.

Lemma events_without_text_change_nothing_witness :
  let done_event := Demo.completion [("done", JBool true); ("phase", JStr "done")]%string in
  snd (handle_event done_event (Demo.started true "hi")) = Demo.started true "hi"
  /\ exists r,
       for_each [done_event; JNum 3] handle_event (Demo.started true "hi")
       = (r, Demo.started true "hi").
Proof.
  intros done_event.
  destruct (events_without_text_change_nothing done_event (Demo.started true "hi"))
    as (Hskip & _ & Hstream).
  split.
  - destruct (Hskip eq_refl) as [-> | ->]; reflexivity.
  - apply Hstream. repeat constructor.
Defined.

End LoopMore.

(** ** Beyond the specification: the configuration *)
Module ConfigMore.
Import State Tools Cli.

Lemma append_not_empty (a b : string) : b <> ""%string -> a +:+ b <> ""%string.
Proof. intros Hb. destruct a as [|c a]; [exact Hb|discriminate]. Qed.

(** X19: The state [run] builds always has a system prompt.  Whatever the
    file [system.txt] and the configuration hold, the prompt is not
    empty: it is the stripped text of the file followed by the hint on
    the tools, or the stripped hint alone when the file is missing or
    blank.  So every payload of such a state carries the prompt in its
    three parameter entries, in its four extra entries and in its
    variables. *)
Theorem build_state_has_a_system_prompt (repr : json -> string)
    (file : option string) (config : list (string * json)) :
  let prompt := a_system_prompt (_build_state repr (_load_system_prompt file) config) in
  prompt
  = match file with
    | Some text =>
        if String.eqb (strip text) "" then strip _TOOL_SYSTEM_HINT
        else strip text +:+ _TOOL_SYSTEM_HINT
    | None => strip _TOOL_SYSTEM_HINT
    end
  /\ prompt <> ""%string
  /\ (exists head, prompt = head +:+ strip _TOOL_SYSTEM_HINT)
  /\ forall s,
       system_prompt s = Some prompt ->
       _system_params s
       = [("system", prompt); ("system_prompt", prompt);
          ("assistant_system_prompt", prompt)]%string
       /\ _system_extra s
          = [("system", prompt); ("system_prompt", prompt);
             ("assistant_system_prompt", prompt); ("instructions", prompt)]%string
       /\ forall text now p,
            build_completion_payload s text now = Ok p ->
            In ("{{SYSTEM_PROMPT}}"%string, prompt) (p_variables p).
Proof.
  intros prompt.
  assert (Hprompt : prompt
                    = match file with
                      | Some text =>
                          if String.eqb (strip text) "" then strip _TOOL_SYSTEM_HINT
                          else strip text +:+ _TOOL_SYSTEM_HINT
                      | None => strip _TOOL_SYSTEM_HINT
                      end).
  { unfold prompt, _build_state, _load_system_prompt. cbn [a_system_prompt].
    destruct file as [text|]; [|reflexivity].
    destruct (String.eqb (strip text) "") eqn:Hblank; [reflexivity|].
    cbn [default from_option id]. rewrite TextFacts.strip_idem, Hblank. reflexivity. }
  assert (Hhint : strip _TOOL_SYSTEM_HINT <> ""%string) by discriminate.
  assert (Htail : exists head, prompt = head +:+ strip _TOOL_SYSTEM_HINT).
  { rewrite Hprompt. destruct file as [text|]; [|exists ""%string; reflexivity].
    destruct (String.eqb (strip text) ""); [exists ""%string; reflexivity|].
    exists (strip text +:+ nl +:+ nl).
    rewrite !CliFacts.string_app_assoc. reflexivity. }
  assert (Hne : prompt <> ""%string).
  { destruct Htail as [head ->]. apply append_not_empty, Hhint. }
  split; [exact Hprompt|]. split; [exact Hne|]. split; [exact Htail|].
  intros s Hs. apply String.eqb_neq in Hne.
  unfold _system_params, _system_extra. rewrite Hs. cbn [truthy_str]. rewrite Hne.
  cbn [negb]. split; [reflexivity|]. split; [reflexivity|].
  intros text now p. unfold build_completion_payload.
  destruct (negb (truthy_str (chat_id s))); [discriminate|].
  destruct (negb (truthy_str (current_user_message_id s))
            || negb (truthy_str (current_assistant_message_id s)));
    [discriminate|].
  destruct (py_list (_feature_value s "flags" (JArr []))); [|discriminate].
  intros [= <-]. cbn [p_variables]. rewrite Hs. cbn [truthy_str]. rewrite Hne.
  cbn [negb]. do 8 right. left. reflexivity.
Qed.

Lemma build_state_has_a_system_prompt_witness :
  let prompt :=
    a_system_prompt
      (_build_state (fun _ => ""%string)
         (_load_system_prompt (Some ("  Be brief." +:+ nl))) []) in
  prompt = ("Be brief." +:+ _TOOL_SYSTEM_HINT)
  /\ _system_params (set_system_prompt (new_state Demo.factory) (Some prompt))
     = [("system", prompt); ("system_prompt", prompt);
        ("assistant_system_prompt", prompt)]%string
  /\ a_system_prompt (_build_state (fun _ => ""%string) (_load_system_prompt None) [])
     <> ""%string.
Proof.
  intros prompt.
  destruct (build_state_has_a_system_prompt (fun _ => ""%string)
              (Some ("  Be brief." +:+ nl)) []) as (Hprompt & _ & _ & Hstate).
  destruct (build_state_has_a_system_prompt (fun _ => ""%string) None [])
    as (_ & Hne & _).
  split; [exact Hprompt|]. split; [|exact Hne].
  apply (Hstate (set_system_prompt (new_state Demo.factory) (Some prompt)) eq_refl).
Defined.

(** *** Features *)

Lemma dict_update_lookup {V} (raw d : list (string * V)) (key : string) :
  List.NoDup (map fst raw) ->
  dict_lookup (dict_update d raw) key
  = match dict_lookup raw key with
    | Some v => Some v
    | None => dict_lookup d key
    end.
Proof.
  revert d. induction raw as [|[k v] raw IH]; intros d Hnodup; [reflexivity|].
  cbn [map fst] in Hnodup. apply List.NoDup_cons_iff in Hnodup as [Hk Hnodup].
  unfold dict_update in *. cbn [fold_left fst snd dict_lookup].
  rewrite (IH _ Hnodup).
  destruct (String.eqb_spec k key) as [->|Hne].
  - assert (Hnone : dict_lookup raw key = None).
    { destruct (dict_lookup raw key) eqn:Hl; [|reflexivity].
      exfalso. apply Hk, ToolsMore.dict_lookup_registered. eauto. }
    rewrite Hnone. apply ToolsMore.dict_lookup_set_same.
  - destruct (dict_lookup raw key); [reflexivity|].
    apply ToolsMore.dict_lookup_set_other. congruence.
Qed.

Lemma dict_update_keys {V} (raw d : list (string * V)) :
  exists extra, map fst (dict_update d raw) = map fst d ++ extra.
Proof.
  revert d. induction raw as [|[k v] raw IH]; intros d.
  - exists []. rewrite app_nil_r. reflexivity.
  - unfold dict_update in *. cbn [fold_left fst snd].
    destruct (IH (dict_set d k v)) as [extra Hextra]. rewrite Hextra.
    destruct (in_dec string_dec k (map fst d)) as [Hin|Hout].
    + rewrite (ToolsMore.dict_set_present _ _ _ Hin). eauto.
    + rewrite (ToolsFacts.dict_set_fresh _ _ _ Hout), map_app, <- app_assoc. eauto.
Qed.

(** X20: Configured features override the defaults, key by key.  A key the
    configuration gives has the configured value, a key it does not give
    has its default, and the keys of the defaults come first, in their
    order; an entry ["features"] that is not an object is ignored. *)
Theorem merge_features_overrides_defaults (config : list (string * json)) :
  (forall raw key,
      dict_get config "features" = Some (JObj raw) ->
      List.NoDup (map fst raw) ->
      dict_lookup (_merge_features config) key
      = match dict_lookup raw key with
        | Some v => Some v
        | None => dict_lookup DEFAULT_FEATURES_items key
        end)
  /\ (exists extra,
        map fst (_merge_features config) = map fst DEFAULT_FEATURES_items ++ extra)
  /\ ((forall raw, dict_get config "features" <> Some (JObj raw)) ->
      _merge_features config = DEFAULT_FEATURES_items).
Proof.
  split; [|split].
  - intros raw key Hraw Hnodup. unfold _merge_features. rewrite Hraw.
    cbn [default from_option id]. apply dict_update_lookup, Hnodup.
  - unfold _merge_features. apply dict_update_keys.
  - intros Hnot. unfold _merge_features.
    destruct (dict_get config "features") as [[| | | | |raw]|]; try reflexivity.
    exfalso. apply (Hnot raw). reflexivity.
Qed.

Lemma merge_features_overrides_defaults_witness :
  let config :=
    [("features", JObj [("web_search", JBool true); ("beta", JNum 1)])]%string in
  dict_lookup (_merge_features config) "web_search" = Some (JBool true)
  /\ dict_lookup (_merge_features config) "preview_mode" = Some (JBool true)
  /\ dict_lookup (_merge_features config) "beta" = Some (JNum 1)
  /\ _merge_features [("features", JArr [])]%string = DEFAULT_FEATURES_items.
Proof.
  intros config.
  destruct (merge_features_overrides_defaults config) as (Hlookup & _ & _).
  destruct (merge_features_overrides_defaults [("features", JArr [])]%string)
    as (_ & _ & Hignored).
  assert (Hnodup : List.NoDup (map fst [("web_search", JBool true); ("beta", JNum 1)]%string)).
  { apply List.NoDup_cons; [intros [Heq|[]]; discriminate Heq|].
    apply List.NoDup_cons; [intros []|apply List.NoDup_nil]. }
  split; [exact (Hlookup _ "web_search"%string eq_refl Hnodup)|].
  split; [exact (Hlookup _ "preview_mode"%string eq_refl Hnodup)|].
  split; [exact (Hlookup _ "beta"%string eq_refl Hnodup)|].
  apply Hignored. intros raw. discriminate.
Defined.

End ConfigMore.

(** ** Beyond the specification: the saved credentials *)
Module AuthMore.
Import Tools Auth.

Lemma dict_get_set_same (fields : list (string * json)) (key : string) (value : json) :
  dict_get (dict_set fields key value) key = Some value.
Proof.
  induction fields as [|[k v] fields IH]; cbn [dict_set dict_get].
  - rewrite String.eqb_refl. reflexivity.
  - destruct (String.eqb k key) eqn:Hk; cbn [dict_get]; rewrite Hk; auto.
Qed.

Lemma dict_get_set_other (fields : list (string * json)) (key other : string)
    (value : json) :
  other <> key -> dict_get (dict_set fields key value) other = dict_get fields other.
Proof.
  intros Hother. induction fields as [|[k v] fields IH]; cbn [dict_set dict_get].
  - destruct (String.eqb_spec key other); [congruence|reflexivity].
  - destruct (String.eqb_spec k key) as [->|Hk]; cbn [dict_get].
    + destruct (String.eqb_spec key other); [congruence|reflexivity].
    + rewrite IH. reflexivity.
Qed.

Lemma dict_get_del_same (fields : list (string * json)) (key : string) :
  dict_get (dict_del fields key) key = None.
Proof.
  unfold dict_del. induction fields as [|[k v] fields IH]; [reflexivity|].
  cbn [List.filter fst]. destruct (String.eqb k key) eqn:Hk; cbn [negb dict_get].
  - exact IH.
  - rewrite Hk. exact IH.
Qed.

Lemma dict_get_del_other (fields : list (string * json)) (key other : string) :
  other <> key -> dict_get (dict_del fields key) other = dict_get fields other.
Proof.
  intros Hother. unfold dict_del.
  induction fields as [|[k v] fields IH]; [reflexivity|].
  cbn [List.filter fst]. destruct (String.eqb_spec k key) as [->|Hk]; cbn [negb dict_get].
  - destruct (String.eqb_spec key other); [congruence|exact IH].
  - rewrite IH. reflexivity.
Qed.

(** What [_save] does, case by case. *)
Lemma save_outcome {text : JsonText} (a : AuthConfig) :
  let r := fst (_save a) in
  let a' := snd (_save a) in
  _data a' = _data a
  /\ (forall e, write_error a = Some (AtOpen e) ->
        r = Returns tt
        /\ config_file a' = config_file a
        /\ printed a'
           = printed a ++ ["Warning: Could not save auth config: " +:+ e +:+ nl])
  /\ (dumps_utf8 (_data a) = None ->
      (forall e, write_error a <> Some (AtOpen e)) ->
      r = Raises UnicodeEncodeError
      /\ config_file a' = Some ""%string
      /\ printed a' = printed a)
  /\ (forall encoded, dumps_utf8 (_data a) = Some encoded ->
        (forall e remains, write_error a = Some (AtWrite e remains) ->
           r = Returns tt
           /\ config_file a' = Some remains
           /\ printed a'
              = printed a ++ ["Warning: Could not save auth config: " +:+ e +:+ nl])
        /\ (write_error a = None ->
            r = Returns tt
            /\ config_file a' = Some encoded
            /\ printed a'
               = match chmod_error a with
                 | Some e =>
                     printed a
                     ++ ["Warning: Could not save auth config: " +:+ e +:+ nl]
                 | None => printed a
                 end)).
Proof.
  cbv zeta. split; [|split; [|split]].
  - unfold _save.
    destruct (write_error a) as [[e|e remains]|];
      destruct (dumps_utf8 (_data a)); cbn [with_file chmod_error];
      try destruct (chmod_error a); reflexivity.
  - intros e Hwrite. unfold _save. rewrite Hwrite. repeat split.
  - intros Hdumps Hopen. unfold _save. rewrite Hdumps.
    destruct (write_error a) as [[e|e remains]|]; [|repeat split..].
    exfalso. apply (Hopen e). reflexivity.
  - intros encoded Hdumps. split.
    + intros e remains Hwrite. unfold _save. rewrite Hwrite, Hdumps. repeat split.
    + intros Hwrite. unfold _save. rewrite Hwrite, Hdumps.
      cbn [with_file chmod_error]. destruct (chmod_error a); repeat split.
Qed.

(** X21: Saved credentials are read back.  When the data is an object,
    [save_auth] puts the token into it, and the cookie when one is
    given, before the file is touched: afterwards [get_token] gives the
    token, [get_cookie] the cookie, or nothing when none was given, also
    if a cookie was stored before, and [has_auth] is true, while the
    other entries are as they were, whatever becomes of the file.  If
    the text of the data can be encoded and the file written, the call
    returns, the file holds that text, and a configuration created from
    a file that parses back to the data gives the same token.  An
    [OSError] of the write or of the change of mode is not raised but
    printed as a warning; when the file could not be opened it stays as
    it is.  A text that cannot be encoded makes the call raise a
    [UnicodeEncodeError], with the file left empty.  When the data is no
    object, as after loading a file that holds some other JSON value,
    [save_auth] raises [TypeError] and changes nothing. *)
Theorem saved_credentials_are_read_back {ext : Externals} {text : JsonText}
    (a : AuthConfig) (token cookie : json) :
  (forall fields, _data a = JObj fields ->
     let r := fst (save_auth a token cookie) in
     let a' := snd (save_auth a token cookie) in
     (get_token a' = Ok token
      /\ get_cookie a' = Ok (if truthy cookie then cookie else JNull)
      /\ has_auth a' = Ok true
      /\ forall key, key <> "token"%string -> key <> "cookie"%string ->
           py_get (_data a') key JNull = py_get (_data a) key JNull)
     /\ (forall e, write_error a = Some (AtOpen e) ->
           r = Returns tt
           /\ config_file a' = config_file a
           /\ printed a'
              = printed a ++ ["Warning: Could not save auth config: " +:+ e +:+ nl])
     /\ (dumps_utf8 (_data a') = None ->
         (forall e, write_error a <> Some (AtOpen e)) ->
         r = Raises UnicodeEncodeError
         /\ config_file a' = Some ""%string
         /\ printed a' = printed a)
     /\ (forall encoded, dumps_utf8 (_data a') = Some encoded ->
           (forall e remains, write_error a = Some (AtWrite e remains) ->
              r = Returns tt
              /\ config_file a' = Some remains
              /\ printed a'
                 = printed a
                   ++ ["Warning: Could not save auth config: " +:+ e +:+ nl])
           /\ (write_error a = None ->
               r = Returns tt
               /\ config_file a' = Some encoded
               /\ (chmod_error a = None -> printed a' = printed a)
               /\ (forall e, chmod_error a = Some e ->
                     printed a'
                     = printed a
                       ++ ["Warning: Could not save auth config: " +:+ e +:+ nl])
               /\ (json_loads encoded = Some (_data a') ->
                   forall on_write on_chmod on_unlink,
                     get_token (new_auth_config (config_file a')
                                  on_write on_chmod on_unlink) = Ok token))))
  /\ ((forall fields, _data a <> JObj fields) ->
      save_auth a token cookie = (Raises (Python TypeError), a)).
Proof.
  split.
  - intros fields Hdata. unfold save_auth. rewrite Hdata.
    set (fields' := if truthy cookie
                    then dict_set (dict_set fields "token" token) "cookie" cookie
                    else dict_del (dict_set fields "token" token) "cookie").
    set (a1 := with_data a (JObj fields')).
    destruct (save_outcome a1) as (Hsaved & Hopen & Hencode & Hwritten).
    change (_data a1) with (JObj fields') in *.
    change (write_error a1) with (write_error a) in *.
    change (chmod_error a1) with (chmod_error a) in *.
    change (config_file a1) with (config_file a) in *.
    change (printed a1) with (printed a) in *.
    cbv zeta.
    assert (Htoken : dict_get fields' "token" = Some token).
    { unfold fields'. destruct (truthy cookie).
      - rewrite dict_get_set_other by discriminate. apply dict_get_set_same.
      - rewrite dict_get_del_other by discriminate. apply dict_get_set_same. }
    rewrite Hsaved. split; [|split; [|split]].
    + unfold get_token, get_cookie, has_auth. rewrite Hsaved. cbn [py_get].
      rewrite Htoken. split; [reflexivity|]. split; [|split; [reflexivity|]].
      * unfold fields'. destruct (truthy cookie).
        -- rewrite dict_get_set_same. reflexivity.
        -- rewrite dict_get_del_same. reflexivity.
      * intros key Hk1 Hk2. cbn [py_get]. f_equal. f_equal.
        unfold fields'. destruct (truthy cookie).
        -- rewrite !dict_get_set_other by assumption. reflexivity.
        -- rewrite dict_get_del_other, dict_get_set_other by assumption. reflexivity.
    + exact Hopen.
    + exact Hencode.
    + intros encoded Hdumps. destruct (Hwritten encoded Hdumps) as [Hlate Hdone].
      split; [exact Hlate|]. intros Hnone.
      destruct (Hdone Hnone) as (Hr & Hfile & Hprinted).
      split; [exact Hr|]. split; [exact Hfile|].
      split; [intros Hchmod; rewrite Hprinted, Hchmod; reflexivity|].
      split; [intros e Hchmod; rewrite Hprinted, Hchmod; reflexivity|].
      intros Hparse on_write on_chmod on_unlink.
      rewrite Hfile. unfold new_auth_config, get_token, _load. cbn [_data].
      rewrite Hparse. cbn [py_get]. rewrite Htoken. reflexivity.
  - intros Hnot. unfold save_auth.
    destruct (_data a) as [| | | | |fields] eqn:Hdata; try reflexivity.
    exfalso. apply (Hnot fields). reflexivity.
Qed.

Lemma saved_credentials_are_read_back_witness :
  let a := new_auth_config (ext := Demo.auth_externals) None None None None in
  let a' := snd (save_auth (text := Demo.auth_text) a (JStr "t-1") JNull) in
  fst (save_auth (text := Demo.auth_text) a (JStr "t-1") JNull) = Returns tt
  /\ get_token a' = Ok (JStr "t-1")
  /\ get_cookie a' = Ok JNull
  /\ has_auth a' = Ok true
  /\ config_file a' = Some "saved"%string
  /\ get_token (new_auth_config (ext := Demo.auth_externals) (config_file a')
                  None None None)
     = Ok (JStr "t-1").
Proof.
  intros a a'.
  destruct (saved_credentials_are_read_back (ext := Demo.auth_externals)
              (text := Demo.auth_text) a (JStr "t-1") JNull) as (Hsave & _).
  destruct (Hsave [] eq_refl) as ((Htoken & Hcookie & Hhas & _) & _ & _ & Hfile).
  destruct (Hfile "saved"%string eq_refl) as [_ Hdone].
  destruct (Hdone eq_refl) as (Hr & Hwritten & _ & _ & Hreload).
  split; [exact Hr|]. split; [exact Htoken|]. split; [exact Hcookie|].
  split; [exact Hhas|]. split; [exact Hwritten|].
  apply Hreload. reflexivity.
Defined.

(** A token that cannot be encoded: the call raises, the token is in
    memory, and the file that held the old credentials is empty. *)
Example unencodable_token_empties_the_file :
  let text := {| dumps_utf8 := fun _ => None |} in
  let a := {| _data := JObj [("token", JStr "old")]%string;
              config_file := Some "saved"%string; write_error := None;
              chmod_error := None; unlink_error := None; printed := [] |} in
  fst (save_auth (text := text) a (JStr "new") JNull) = Raises UnicodeEncodeError
  /\ get_token (snd (save_auth (text := text) a (JStr "new") JNull))
     = Ok (JStr "new")
  /\ config_file (snd (save_auth (text := text) a (JStr "new") JNull))
     = Some ""%string.
Proof. repeat split. Qed.

(** A file that holds a JSON list is loaded as it is, and then the
    accessors raise. *)
Example credentials_file_with_a_list :
  let ext := {| json_loads := fun _ => Some (JArr [JStr "token"]) |} in
  let a := new_auth_config (ext := ext) (Some "[...]"%string) None None None in
  get_token a = Raise AttributeError
  /\ has_auth a = Ok true
  /\ fst (save_auth (text := Demo.auth_text) a (JStr "t") JNull)
     = Raises (Python TypeError).
Proof. repeat split. Qed.

(** X22: Cleared credentials are gone from memory, and from the disk only
    if the file could be removed.  When the data is an object or a list,
    [clear] empties it first: afterwards [has_auth] is false, also when
    the call raises.  If there is no file or the file can be removed,
    the call returns, no file is left and a configuration created
    afterwards has no token and no cookie.  If removing the file fails,
    the [OSError] is raised, the file stays, and a configuration created
    afterwards reads the token back from it.  For any other data
    [clear] raises [AttributeError] and changes nothing. *)
Theorem cleared_credentials_are_gone {ext : Externals} (a : AuthConfig) :
  ((exists fields, _data a = JObj fields) \/ (exists items, _data a = JArr items) ->
     has_auth (snd (clear a)) = Ok false
     /\ (config_file a = None \/ unlink_error a = None ->
         fst (clear a) = Returns tt
         /\ config_file (snd (clear a)) = None
         /\ forall on_write on_chmod on_unlink,
              let a' := new_auth_config (config_file (snd (clear a)))
                          on_write on_chmod on_unlink in
              get_token a' = Ok JNull /\ get_cookie a' = Ok JNull
              /\ has_auth a' = Ok false)
     /\ (forall text e,
           config_file a = Some text -> unlink_error a = Some e ->
           fst (clear a) = Raises (OSError e)
           /\ config_file (snd (clear a)) = Some text
           /\ forall fields token on_write on_chmod on_unlink,
                json_loads text = Some (JObj fields) ->
                dict_get fields "token" = Some token ->
                get_token (new_auth_config (config_file (snd (clear a)))
                             on_write on_chmod on_unlink) = Ok token))
  /\ ((forall fields, _data a <> JObj fields) ->
      (forall items, _data a <> JArr items) ->
      clear a = (Raises (Python AttributeError), a)).
Proof.
  split.
  - intros Hdata.
    assert (Hclear : exists data,
               (data = JObj [] \/ data = JArr [])
               /\ clear a = unlink_if_exists (with_data a data)).
    { destruct Hdata as [[fields Hdata] | [items Hdata]]; unfold clear; rewrite Hdata.
      - exists (JObj []). split; [left|]; reflexivity.
      - exists (JArr []). split; [right|]; reflexivity. }
    destruct Hclear as (data & Hempty & ->). unfold unlink_if_exists.
    cbn [with_data config_file unlink_error].
    destruct (config_file a) as [text|] eqn:Hfile;
      [destruct (unlink_error a) as [e|] eqn:Herr|]; cbn [fst snd].
    + split; [destruct Hempty as [-> | ->]; reflexivity|]. split.
      * intros [Hnone | Hnone]; discriminate.
      * intros text' e' Htext He. injection Htext as <-. injection He as <-.
        split; [reflexivity|]. split; [exact Hfile|].
        intros fields token on_write on_chmod on_unlink Hparse Htoken.
        unfold get_token, new_auth_config, _load. cbn [_data config_file with_data].
        rewrite Hfile, Hparse. cbn [py_get]. rewrite Htoken. reflexivity.
    + split; [destruct Hempty as [-> | ->]; reflexivity|]. split.
      * intros _. split; [reflexivity|]. split; [reflexivity|].
        intros on_write on_chmod on_unlink. repeat split.
      * intros text' e' _ He. discriminate.
    + split; [destruct Hempty as [-> | ->]; reflexivity|]. split.
      * intros _. split; [reflexivity|]. split; [exact Hfile|].
        intros on_write on_chmod on_unlink.
        cbn [with_data config_file]. rewrite Hfile. repeat split.
      * intros text' e' Htext _. discriminate.
  - intros Hobj Harr. unfold clear.
    destruct (_data a) as [| | | |items|fields]; try reflexivity.
    + exfalso. apply (Harr items). reflexivity.
    + exfalso. apply (Hobj fields). reflexivity.
Qed.

Lemma cleared_credentials_are_gone_witness :
  let a := {| _data := JObj [("token", JStr "t-1"); ("cookie", JStr "c")]%string;
              config_file := Some "saved"%string; write_error := None;
              chmod_error := None; unlink_error := None; printed := [] |} in
  fst (clear a) = Returns tt
  /\ has_auth (snd (clear a)) = Ok false
  /\ config_file (snd (clear a)) = None
  /\ get_token (new_auth_config (ext := Demo.auth_externals)
                  (config_file (snd (clear a))) None None None) = Ok JNull.
Proof.
  intros a.
  destruct (cleared_credentials_are_gone (ext := Demo.auth_externals) a) as (Hclear & _).
  destruct Hclear as (Hhas & Hgone & _).
  { left. eexists. reflexivity. }
  destruct Hgone as (Hrun & Hfile & Hnew).
  { right. reflexivity. }
  destruct (Hnew None None None) as (Htoken & _).
  auto.
Defined.

(** The file could not be removed: the data in memory is empty, the
    call raises, and the token is read back from the file. *)
Example credentials_survive_a_failed_unlink :
  let a := {| _data := JObj [("token", JStr "t-1")]%string;
              config_file := Some "saved"%string; write_error := None;
              chmod_error := None; unlink_error := Some "denied"%string;
              printed := [] |} in
  clear a = (Raises (OSError "denied"), with_data a (JObj []))
  /\ get_token (snd (clear a)) = Ok JNull
  /\ get_token (new_auth_config (ext := Demo.auth_externals)
                  (config_file (snd (clear a))) None None None)
     = Ok (JStr "t-1").
Proof. repeat split. Qed.

End AuthMore.

